(** * sklearn_classifier_dask.train_model: a shallow embedding

    The function under study is [train_model] of
    [sklearn_classifier_dask/sklearn_classifier_dask.py].  It is a linear
    script over four external libraries (dask / dask_ml, mlrun, joblib and
    yellowbrick).  The embedding follows it statement by statement in a
    state-and-exception monad:

    - the tabular frame and the frame operations that the script relies on
      ([select_dtypes], [isna().any().any()], [columns], [sample],
      column selection and removal, [column_stack], the [DataFrame]
      constructor) are modelled concretely;
    - the estimators and report generators (label encoder, scaler,
      splitter, class resolution, estimator, visualizers) are the fields
      of the [Library] interface: each may return a value or raise;
    - the only unseeded source of randomness, [df.sample], reads its draw
      from an explicit [World];
    - every observable effect of the run (log lines, fits, drawing-surface
      resets, artifact-store writes) is appended to a trace. *)

From Stdlib Require Import List String Ascii ZArith QArith Qround Bool Lia
  Permutation DecimalString.
Import ListNotations.
Local Open Scope string_scope.
Local Open Scope list_scope.

Set Implicit Arguments.

(** ** Exceptions and results *)

Inductive exn : Type :=
| ValueError (msg : string)          (* raise ValueError(msg) *)
| PyException (msg : string)         (* raise Exception(msg) *)
| KeyError (key : string)            (* missing column / missing label *)
| IndexError                         (* positional access out of bounds *)
| LibraryError (origin : string).    (* raised inside an external call *)

Inductive result (A : Type) : Type :=
| Ok (a : A)
| Raise (e : exn).
Arguments Ok {A} a.
Arguments Raise {A} e.

Definition is_ok {A} (r : result A) : bool :=
  match r with Ok _ => true | Raise _ => false end.

(** ** The tabular frame *)

Inductive dtype : Type :=
| Int8 | Int16 | Int32 | Int64
| UInt8 | UInt16 | UInt32 | UInt64
| Float16 | Float32 | Float64
| Bool_ | Object_ | Datetime64 | Category.

Definition dtype_name (d : dtype) : string :=
  match d with
  | Int8 => "int8" | Int16 => "int16" | Int32 => "int32" | Int64 => "int64"
  | UInt8 => "uint8" | UInt16 => "uint16" | UInt32 => "uint32"
  | UInt64 => "uint64"
  | Float16 => "float16" | Float32 => "float32" | Float64 => "float64"
  | Bool_ => "bool" | Object_ => "object" | Datetime64 => "datetime64[ns]"
  | Category => "category"
  end.

(** A cell is a missing value (NaN / None / NaT: what [isna] reports), a
    number, or a string.  Numbers carry an integer payload: the script
    never does arithmetic on them itself, only the library calls do. *)
Inductive cell : Type :=
| Missing
| Num (z : Z)
| Str (s : string).

Definition row := list cell.
Definition matrix := list row.

(** Row-major frame: the schema gives the column names and dtypes in
    order, every row has one cell per column.  The index is positional
    ([reset_index(drop=True)] is the identity on this representation). *)
Record frame : Type := mkFrame {
  schema : list (string * dtype);
  rows : matrix
}.

Definition columns (df : frame) : list string := map fst (schema df).

Definition wf_frame (df : frame) : Prop :=
  Forall (fun r => List.length r = List.length (schema df)) (rows df).

Fixpoint mask_filter {A} (mask : list bool) (l : list A) : list A :=
  match mask, l with
  | true :: m, x :: l' => x :: mask_filter m l'
  | false :: m, _ :: l' => mask_filter m l'
  | _, _ => []
  end.

Definition str_in (s : string) (l : list string) : bool :=
  existsb (String.eqb s) l.

(** [df.select_dtypes(include=names)]: keeps, in order, the columns whose
    dtype is named in [names]. *)
Definition select_dtypes (include : list string) (df : frame) : frame :=
  let mask := map (fun c => str_in (dtype_name (snd c)) include) (schema df) in
  mkFrame (mask_filter mask (schema df))
          (map (mask_filter mask) (rows df)).

(** line 78 *)
Definition numerics : list string :=
  ["int16"; "int32"; "int64"; "float16"; "float32"; "float64"].

Definition is_missing (c : cell) : bool :=
  match c with Missing => true | _ => false end.

(** [df.isna().any().any().compute()] *)
Definition isna_any_any (df : frame) : bool :=
  existsb (existsb is_missing) (rows df).

Fixpoint get_loc (key : string) (names : list string) : result nat :=
  match names with
  | [] => Raise (KeyError key)
  | n :: ns =>
      if String.eqb key n then Ok 0%nat
      else match get_loc key ns with
           | Ok i => Ok (S i)
           | Raise e => Raise e
           end
  end.

Fixpoint delete {A} (i : nat) (l : list A) : list A :=
  match i, l with
  | _, [] => []
  | O, _ :: l' => l'
  | S j, x :: l' => x :: delete j l'
  end.

(** [df[key]]: the values of one column, [KeyError] when it is absent. *)
Definition getitem (df : frame) (key : string) : result (list cell) :=
  match get_loc key (columns df) with
  | Ok i => Ok (map (fun r => nth i r Missing) (rows df))
  | Raise e => Raise e
  end.

(** [df.drop(key, axis=1)] *)
Definition drop (df : frame) (key : string) : result frame :=
  match get_loc key (columns df) with
  | Ok i => Ok (mkFrame (delete i (schema df)) (map (delete i) (rows df)))
  | Raise e => Raise e
  end.

(** [df.to_dask_array(lengths=True)]: the values without the column labels. *)
Definition to_dask_array (df : frame) : matrix := rows df.

(** Positional selection ([take] / fancy indexing): out of bounds raises. *)
Fixpoint take {A} (idx : list nat) (l : list A) : result (list A) :=
  match idx with
  | [] => Ok []
  | i :: idx' =>
      match nth_error l i, take idx' l with
      | Some x, Ok xs => Ok (x :: xs)
      | None, _ => Raise IndexError
      | _, Raise e => Raise e
      end
  end.

Definition cell_eqb (a b : cell) : bool :=
  match a, b with
  | Missing, Missing => true
  | Num x, Num y => Z.eqb x y
  | Str x, Str y => String.eqb x y
  | _, _ => false
  end.

(** [Series.drop_duplicates()]: first occurrences, in order. *)
Fixpoint drop_duplicates_aux (seen : list cell) (l : list cell) : list cell :=
  match l with
  | [] => []
  | c :: l' =>
      if existsb (cell_eqb c) seen then drop_duplicates_aux seen l'
      else c :: drop_duplicates_aux (c :: seen) l'
  end.

Definition drop_duplicates (l : list cell) : list cell :=
  drop_duplicates_aux [] l.

(** ** Unseeded randomness

    [df.sample(frac=...)] is called without [random_state]: the rows it
    draws come from the process-wide generator.  A [World] fixes what that
    generator answers during one run: [choice w n k] is the result of
    [choice(n, size=k, replace=False)], [k] distinct positions below [n]
    in the order drawn. *)
Record World : Type := mkWorld {
  choice : nat -> nat -> list nat
}.

Definition valid_world (w : World) : Prop :=
  forall n k, (k <= n)%nat ->
    NoDup (choice w n k) /\
    List.length (choice w n k) = k /\
    Forall (fun i => (i < n)%nat) (choice w n k).

(** Python's [round]: to the nearest integer, ties to the even one. *)
Definition py_round (q : Q) : Z :=
  let f := Qfloor q in
  match Qcompare (q - inject_Z f) (1 # 2) with
  | Lt => f
  | Gt => (f + 1)%Z
  | Eq => if Z.even f then f else (f + 1)%Z
  end.

(** [df.sample(frac=frac)]: [round(frac * len)] rows at the drawn
    positions; a fraction outside [0, 1] is refused (no replacement). *)
Definition frame_sample (w : World) (frac : Q) (df : frame) : result frame :=
  let n := List.length (rows df) in
  if Qle_bool 0 frac && Qle_bool frac 1 then
    let size := Z.to_nat (py_round (frac * inject_Z (Z.of_nat n))) in
    match take (choice w n size) (rows df) with
    | Ok rs => Ok (mkFrame (schema df) rs)
    | Raise e => Raise e
    end
  else Raise (LibraryError "DataFrame.sample").

(** [df.reset_index(drop=True)]: rows are already addressed by position. *)
Definition reset_index (df : frame) : frame := df.

(** [np.column_stack((X, y))]: one more column, the row counts must agree. *)
Fixpoint column_stack (X : matrix) (y : list Z) : result matrix :=
  match X, y with
  | [], [] => Ok []
  | r :: X', v :: y' =>
      match column_stack X' y' with
      | Ok m => Ok ((r ++ [Num v]) :: m)
      | Raise e => Raise e
      end
  | _, _ => Raise (LibraryError "numpy.column_stack")
  end.

(** A frame rebuilt from a bare array: column names, no per-column dtype. *)
Record table : Type := mkTable {
  tcolumns : list string;
  tdata : matrix
}.

(** [pd.DataFrame(data, columns=cols)]: every row must have one value per
    column name. *)
Definition DataFrame (data : matrix) (cols : list string) : result table :=
  if forallb (fun r => Nat.eqb (List.length r) (List.length cols)) data
  then Ok (mkTable cols data)
  else Raise (LibraryError "pandas.DataFrame").

(** Python dict update [d[k] = v]: overwrite in place, else append. *)
Fixpoint dict_set {V} (d : list (string * V)) (k : string) (v : V)
  : list (string * V) :=
  match d with
  | [] => [(k, v)]
  | (k', v') :: d' =>
      if String.eqb k k' then (k, v) :: d' else (k', v') :: dict_set d' k v
  end.

Definition dict_update {V} (d upd : list (string * V)) : list (string * V) :=
  fold_left (fun acc kv => dict_set acc (fst kv) (snd kv)) upd d.

Fixpoint dict_get {V} (d : list (string * V)) (k : string) : option V :=
  match d with
  | [] => None
  | (k', v) :: d' => if String.eqb k k' then Some v else dict_get d' k
  end.

(** Truthiness of an optional string argument: [None] and the empty string
    are false. *)
Definition truthy_str (o : option string) : option string :=
  match o with
  | Some EmptyString => None
  | Some s => Some s
  | None => None
  end.

(** ** Report kinds *)

Inductive report : Type :=
| ROCAUC | ClassificationReport | ConfusionMatrix | FeatureImportances.

(** [report.__name__] *)
Definition report_name (r : report) : string :=
  match r with
  | ROCAUC => "ROCAUC"
  | ClassificationReport => "ClassificationReport"
  | ConfusionMatrix => "ConfusionMatrix"
  | FeatureImportances => "FeatureImportances"
  end.

(** [str(report)] of the class object *)
Definition report_str (r : report) : string :=
  match r with
  | ROCAUC => "<class 'yellowbrick.classifier.rocauc.ROCAUC'>"
  | ClassificationReport =>
      "<class 'yellowbrick.classifier.classification_report.ClassificationReport'>"
  | ConfusionMatrix =>
      "<class 'yellowbrick.classifier.confusion_matrix.ConfusionMatrix'>"
  | FeatureImportances =>
      "<class 'yellowbrick.model_selection.importances.FeatureImportances'>"
  end.

(** The shared pyplot drawing surface: what has been drawn on the current
    figure since it was last cleared, oldest first. *)
Definition surface := list report.

(** ** The external libraries *)

Class Carriers : Type := {
  Client : Type;       (* dask client *)
  Encoder : Type;      (* fitted dask_ml LabelEncoder *)
  Scaler : Type;       (* fitted dask_ml StandardScaler *)
  ClassObj : Type;     (* class returned by create_class *)
  Estimator : Type;    (* classifier instance *)
  Visualizer : Type;   (* yellowbrick visualizer *)
  Metric : Type;       (* a score *)
  Param : Type         (* a value of context.parameters / a model config *)
}.

Section Pipeline.

Context {C : Carriers}.

Inductive kwarg : Type :=
| KwParam (p : Param)
| KwMatrix (m : matrix)
| KwVector (y : list Z).

Definition kwargs := list (string * kwarg).

(** The mapping returned by [gen_sklearn_model]:
    [{"META": {"class": ...}, "CLASS": {...}, "FIT": {...}}]. *)
Record model_config : Type := mkConfig {
  META_class : string;
  CLASS : kwargs;
  FIT : kwargs
}.

Class Library : Type := {
  (* mlrun.import_function(url).client *)
  import_function_client : string -> result Client;
  (* str(i) of a label value *)
  str_label : cell -> string;
  (* LabelEncoder().fit(y) / encoder.transform(y) *)
  encoder_fit : list cell -> result Encoder;
  encoder_transform : Encoder -> list cell -> result (list Z);
  (* model_selection.train_test_split on [n] rows: the positions of the
     train and of the test partition *)
  train_test_split : nat -> Q -> Z -> result (list nat * list nat);
  (* StandardScaler().fit(X) / scaler.transform(X) *)
  scaler_fit : matrix -> result Scaler;
  scaler_transform : Scaler -> matrix -> result matrix;
  (* gen_sklearn_model(model_pkg_class, context.parameters.items()) *)
  gen_sklearn_model : string -> list (string * Param) -> result model_config;
  (* create_class(name) *)
  create_class : string -> result ClassObj;
  (* ClassifierClass(kwargs...) *)
  construct : ClassObj -> kwargs -> result Estimator;
  (* model.fit(kwargs...) *)
  estimator_fit : Estimator -> kwargs -> result Estimator;
  (* report(model, classes=..., per_class=True, is_fitted=True[, labels=...]) *)
  viz_new : report -> Estimator -> list string -> option (list string)
            -> result Visualizer;
  (* viz.fit(X, y) / viz.score(X, y) *)
  viz_fit : Visualizer -> matrix -> list Z -> result Visualizer;
  viz_score : Visualizer -> matrix -> list Z -> result Visualizer;
  (* viz.roc_auc / viz.scores_ *)
  viz_roc_auc : Visualizer -> list (string * Metric);
  viz_scores : Visualizer -> list (string * list (string * Metric));
  (* context.artifact_subpath(sub) *)
  artifact_subpath : string -> string
}.

Context {L : Library}.

(** [mlrun.DataItem]: what [as_df(df_module=dd)] answers. *)
Record DataItem : Type := mkDataItem {
  as_df : result frame
}.

(** ** Artifacts and the trace of a run *)

(** [PlotArtifact(key, body=viz.fig, title=title)]: the body is the figure,
    that is the drawing surface as it stands when the artifact is built. *)
Record plot : Type := mkPlot {
  plot_key : string;
  plot_body : surface;
  plot_title : string
}.

(** [cloudpickle.dumps(obj)] *)
Inductive pickled : Type :=
| DumpEstimator (m : Estimator)
| DumpScaler (s : Scaler)
| DumpEncoder (e : Encoder).

Inductive event : Type :=
| LoggerInfo (msg : string)                       (* context.logger.info *)
| ImportFunction (url : string)                   (* mlrun.import_function *)
| AsDf                                            (* dataset.as_df *)
| EncoderFit (y : list cell)                      (* encoder.fit *)
| TrainTestSplit (X : matrix) (y : list Z) (train_size : Q) (seed : Z)
| ScalerFit (X : matrix)                          (* scaler.fit *)
| BackendEnter (name : string)                    (* with parallel_backend *)
| BackendExit
| EstimatorFit (kw : kwargs)                      (* model.fit *)
| PltClear                                        (* plt.cla/clf/close *)
| VizNew (r : report) (before : surface)          (* report(...) *)
| VizFit (r : report) (X : matrix) (y : list Z)   (* viz.fit *)
| VizScore (r : report) (X : matrix) (y : list Z) (* viz.score *)
| LogPlot (p : plot)                              (* log_artifact(PlotArtifact) *)
| LogResults (kv : list (string * option Metric)) (* context.log_results *)
| SetLabel (key value : string)                   (* context.set_label *)
| LogModel (key : string) (body : pickled) (artifact_path model_file : string)
           (extra_data : list (string * plot))
           (metrics : list (string * option Metric))
           (labels : list (string * string))      (* context.log_model *)
| LogArtifact (key : string) (body : pickled)
              (artifact_path model_file label : string)
| LogDataset (key : string) (df : table) (format : string)
             (labels : list (string * string)) (artifact_path : string).

(** What a run can change: the drawing surface, [context.results] and the
    trace (oldest event first). *)
Record state : Type := mkState {
  plt : surface;
  results : list (string * option Metric);
  trace : list event
}.

Definition initial_state : state := mkState [] [] [].

(** Writes to the artifact store *)
Definition is_artifact_write (ev : event) : bool :=
  match ev with
  | LogPlot _ | LogModel _ _ _ _ _ _ _ | LogArtifact _ _ _ _ _
  | LogDataset _ _ _ _ _ => true
  | _ => false
  end.

(** Fit calls of any estimator, transform or visualizer *)
Definition is_fit (ev : event) : bool :=
  match ev with
  | EncoderFit _ | ScalerFit _ | EstimatorFit _ | VizFit _ _ _ => true
  | _ => false
  end.

(** The distributed fit stage: the backend context and the estimator fit *)
Definition is_fit_stage (ev : event) : bool :=
  match ev with
  | BackendEnter _ | BackendExit | EstimatorFit _ => true
  | _ => false
  end.

Definition artifact_writes (s : state) : list event :=
  filter is_artifact_write (trace s).

(** Observations on a final state. *)
Definition held_out_tables (s : state) : list table :=
  flat_map (fun ev => match ev with
                      | LogDataset _ df _ _ _ => [df]
                      | _ => []
                      end) (trace s).

Definition logged_scalers (s : state) : list Scaler :=
  flat_map (fun ev => match ev with
                      | LogArtifact _ (DumpScaler sc) _ _ _ => [sc]
                      | _ => []
                      end) (trace s).

Definition encoder_inputs (s : state) : list (list cell) :=
  flat_map (fun ev => match ev with
                      | EncoderFit y => [y]
                      | _ => []
                      end) (trace s).

Definition split_inputs (s : state) : list (matrix * list Z) :=
  flat_map (fun ev => match ev with
                      | TrainTestSplit X y _ _ => [(X, y)]
                      | _ => []
                      end) (trace s).

Definition started_reports (s : state) : list report :=
  flat_map (fun ev => match ev with
                      | VizNew r _ => [r]
                      | _ => []
                      end) (trace s).

(** ** The monad: state that survives an exception *)

Definition M (A : Type) : Type := state -> result A * state.

Definition ret {A} (a : A) : M A := fun s => (Ok a, s).

Definition bind {A B} (c : M A) (k : A -> M B) : M B :=
  fun s => match c s with
           | (Ok a, s') => k a s'
           | (Raise e, s') => (Raise e, s')
           end.

Definition raise {A} (e : exn) : M A := fun s => (Raise e, s).

Definition lift {A} (r : result A) : M A := fun s => (r, s).

Definition emit (ev : event) : M unit :=
  fun s => (Ok tt, mkState (plt s) (results s) (trace s ++ [ev])).

Definition get_results : M (list (string * option Metric)) :=
  fun s => (Ok (results s), s).

Definition get_fig : M surface := fun s => (Ok (plt s), s).

Definition log_results (kv : list (string * option Metric)) : M unit :=
  fun s => (Ok tt, mkState (plt s) (dict_update (results s) kv)
                           (trace s ++ [LogResults kv])).

(** [plt.cla(); plt.clf(); plt.close()] *)
Definition plt_clear : M unit :=
  fun s => (Ok tt, mkState [] (results s) (trace s ++ [PltClear])).

(** A visualizer renders onto the current figure. *)
Definition draw (r : report) : M unit :=
  fun s => (Ok tt, mkState (plt s ++ [r]) (results s) (trace s)).

Definition info (msg : string) : M unit := emit (LoggerInfo msg).

Notation "x <- c1 ;; c2" := (bind c1 (fun x => c2))
  (at level 61, c1 at next level, right associativity).
Notation "c1 ;; c2" := (bind c1 (fun _ => c2))
  (at level 61, right associativity).

(** [with joblib.parallel_backend(name): body]: the context is left on
    normal and on exceptional exit alike. *)
Definition with_backend {A} (name : string) (body : M A) : M A :=
  fun s =>
    match emit (BackendEnter name) s with
    | (_, s1) =>
        match body s1 with
        | (r, s2) => (r, snd (emit BackendExit s2))
        end
    end.

Fixpoint for_ {A} (l : list A) (body : A -> M unit) : M unit :=
  match l with
  | [] => ret tt
  | x :: l' => body x ;; for_ l' body
  end.

Fixpoint for_acc {A S} (l : list A) (body : S -> A -> M S) (acc : S) : M S :=
  match l with
  | [] => ret acc
  | x :: l' => acc' <- body acc x ;; for_acc l' body acc'
  end.

(** ** train_model *)

Record arguments : Type := mkArguments {
  parameters : list (string * Param);      (* context.parameters *)
  dataset : DataItem;
  model_pkg_class : string;
  label_column : string;
  train_validation_size : Q;
  sample : Q;
  models_dest : string;
  test_set_key : string;
  plots_dest : string;
  dask_function : option string;
  dask_client : option Client;
  file_ext : string;
  random_state : Z
}.

(** The declared defaults of the signature (lines 33-42). *)
Definition default_arguments (params : list (string * Param))
  (ds : DataItem) (model : string)
  (fn : option string) (cl : option Client) : arguments :=
  mkArguments params ds model "label" (3 # 4) 1 "models" "test_set" "plots"
              fn cl "parquet" 42.

(** Lines 65-70. *)
Definition setup_client (a : arguments) : M Client :=
  match truthy_str (dask_function a) with
  | Some url => emit (ImportFunction url) ;; lift (import_function_client url)
  | None =>
      match dask_client a with
      | Some c => ret c
      | None => raise (ValueError "dask client was not provided")
      end
  end.

(** Body of the loop of lines 124-161, for one report class; [extra] is
    [extra_data_dict]. *)
Definition report_body (model : Estimator) (classes : list string)
  (X_train_transformed : matrix) (y_train : list Z)
  (X_test_transformed : matrix) (y_test : list Z)
  (extra : list (string * plot)) (r : report) : M (list (string * plot)) :=
  let name := report_name r in
  (* clear output *)
  plt_clear ;;
  (* genrate report *)
  before <- get_fig ;;
  emit (VizNew r before) ;;
  viz <- lift (viz_new r model classes None) ;;
  emit (VizFit r X_train_transformed y_train) ;;
  viz <- lift (viz_fit viz X_train_transformed y_train) ;;
  emit (VizScore r X_test_transformed y_test) ;;
  viz <- lift (viz_score viz X_test_transformed y_test) ;;
  draw r ;;
  (* log reports *)
  fig <- get_fig ;;
  let plot := mkPlot name fig name in
  emit (LogPlot plot) ;;
  let extra := dict_set extra (report_str r) plot in
  (* log results *)
  (if String.eqb name "ROCAUC" then
     log_results [("micro", dict_get (viz_roc_auc viz) "micro");
                  ("macro", dict_get (viz_roc_auc viz) "macro")]
   else if String.eqb name "ClassificationReport" then
     for_ (viz_scores viz) (fun sc =>
       for_ (snd sc) (fun cl =>
         log_results [(String.append (fst sc) (String.append "-" (fst cl)),
                      dict_get (snd sc) (fst cl))]))
   else ret tt) ;;
  ret extra.

(** The values that lines 72-105 leave in scope for the later stages. *)
Record prepared : Type := mkPrepared {
  df_header : list string;
  encoder : Encoder;
  classes : list string;
  X_train : matrix;
  X_test : matrix;
  y_train : list Z;
  y_test : list Z;
  scaler : Scaler;
  X_train_transformed : matrix;
  X_test_transformed : matrix
}.

(** Lines 72-105: read, restrict to numeric columns, validate, sample,
    encode the label, split and scale. *)
Definition prepare (w : World) (a : arguments) : M prepared :=
  info "Read Data" ;;
  (* read data with dask and mlrun *)
  emit AsDf ;;
  df <- lift (as_df (dataset a)) ;;
  (* take only numrical cols *)
  info "Prep Data" ;;
  let df := select_dtypes numerics df in
  (* dropna *)
  (if isna_any_any df then raise (PyException "NAs valus found")
   else ret tt) ;;
  (* save cols names *)
  let df_header := columns df in
  sampled <- lift (frame_sample w (sample a) df) ;;
  let df := reset_index sampled in
  labels <- lift (getitem df (label_column a)) ;;
  emit (EncoderFit labels) ;;
  encoder <- lift (encoder_fit labels) ;;
  features <- lift (drop df (label_column a)) ;;
  let X := to_dask_array features in
  labels <- lift (getitem df (label_column a)) ;;
  y <- lift (encoder_transform encoder labels) ;;
  labels <- lift (getitem df (label_column a)) ;;
  let classes := map str_label (drop_duplicates labels) in
  info "Split and Train" ;;
  emit (TrainTestSplit X y (train_validation_size a) (random_state a)) ;;
  idx <- lift (train_test_split (List.length X) (train_validation_size a)
                                (random_state a)) ;;
  X_train <- lift (take (fst idx) X) ;;
  X_test <- lift (take (snd idx) X) ;;
  y_train <- lift (take (fst idx) y) ;;
  y_test <- lift (take (snd idx) y) ;;
  emit (ScalerFit X_train) ;;
  scaler <- lift (scaler_fit X_train) ;;
  X_train_transformed <- lift (scaler_transform scaler X_train) ;;
  X_test_transformed <- lift (scaler_transform scaler X_test) ;;
  ret (mkPrepared df_header encoder classes X_train X_test y_train y_test
                  scaler X_train_transformed X_test_transformed).

(** Lines 107-119: resolve the descriptor, construct the classifier and
    fit it under the dask backend. *)
Definition build_and_fit (a : arguments) (p : prepared) : M Estimator :=
  model_config <- lift (gen_sklearn_model (model_pkg_class a) (parameters a)) ;;
  let fit_kwargs :=
    dict_update (FIT model_config)
                [("X", KwMatrix (X_train_transformed p));
                 ("y", KwVector (y_train p))] in
  ClassifierClass <- lift (create_class (META_class model_config)) ;;
  model <- lift (construct ClassifierClass (CLASS model_config)) ;;
  (* load and fit model *)
  with_backend "dask"
    (emit (EstimatorFit fit_kwargs) ;;
     lift (estimator_fit model fit_kwargs)).

(** Lines 121-186: the three looped reports, then feature importance. *)
Definition evaluate (a : arguments) (p : prepared) (model : Estimator)
  : M (list (string * plot)) :=
  (* create reports *)
  info "Evaluate" ;;
  extra <- for_acc [ROCAUC; ClassificationReport; ConfusionMatrix]
             (report_body model (classes p)
                (X_train_transformed p) (y_train p)
                (X_test_transformed p) (y_test p))
             [] ;;
  (* get feature importance *)
  loc <- lift (get_loc (label_column a) (df_header p)) ;;
  before <- get_fig ;;
  emit (VizNew FeatureImportances before) ;;
  viz <- lift (viz_new FeatureImportances model (classes p)
                       (Some (delete loc (df_header p)))) ;;
  emit (VizFit FeatureImportances (X_train_transformed p) (y_train p)) ;;
  viz <- lift (viz_fit viz (X_train_transformed p) (y_train p)) ;;
  draw FeatureImportances ;;
  emit (VizScore FeatureImportances (X_test_transformed p) (y_test p)) ;;
  viz <- lift (viz_score viz (X_test_transformed p) (y_test p)) ;;
  fig <- get_fig ;;
  let plot := mkPlot "FeatureImportances" fig "FeatureImportances" in
  emit (LogPlot plot) ;;
  let extra := dict_set extra "FeatureImportances" plot in
  (* clear final output *)
  plt_clear ;;
  ret extra.

(** Lines 188-235: the artifact store writes. *)
Definition log_artifacts (a : arguments) (p : prepared) (model : Estimator)
  (extra_data_dict : list (string * plot)) : M unit :=
  info "Log artifacts" ;;
  let artifact_path := artifact_subpath (models_dest a) in
  (* set label *)
  emit (SetLabel "class" (model_pkg_class a)) ;;
  (* log models *)
  metrics <- get_results ;;
  emit (LogModel "model" (DumpEstimator model) artifact_path "model.pkl"
                 extra_data_dict metrics [("class", model_pkg_class a)]) ;;
  (* log scalers *)
  emit (LogArtifact "standard_scaler" (DumpScaler (scaler p)) artifact_path
                    "scaler.gz" "standard_scaler") ;;
  (* log encoder *)
  emit (LogArtifact "label_encoder" (DumpEncoder (encoder p)) artifact_path
                    "encoder.gz" "label_encoder") ;;
  (* set aside some test data *)
  df_to_save <- lift (column_stack (X_test p) (y_test p)) ;;
  held_out <- lift (DataFrame df_to_save (df_header p)) ;;
  emit (LogDataset (test_set_key a) held_out (file_ext a)
                   [("data-type", "held-out")] (artifact_subpath "data")) ;;
  info "Done!".

(** The same call with another [dask_client] argument. *)
Definition with_dask_client (a : arguments) (cl : option Client) : arguments :=
  mkArguments (parameters a) (dataset a) (model_pkg_class a) (label_column a)
              (train_validation_size a) (sample a) (models_dest a)
              (test_set_key a) (plots_dest a) (dask_function a) cl
              (file_ext a) (random_state a).

(** [train_model] (lines 29-235).  The client bound by the first stage is
    not referred to again. *)
Definition train_model (w : World) (a : arguments) : M unit :=
  client <- setup_client a ;;
  p <- prepare w a ;;
  model <- build_and_fit a p ;;
  extra_data_dict <- evaluate a p model ;;
  log_artifacts a p model extra_data_dict.

End Pipeline.

(** ** Observations on runs

    Predicates on events and traces, and the event lists of the stages,
    in which the properties below are stated. *)

Unset Implicit Arguments.

Section Observations.

Context {C : Carriers} {L : Library}.

(** The six dtypes listed on line 78. *)
Definition retained_dtype (d : dtype) : Prop :=
  d = Int16 \/ d = Int32 \/ d = Int64 \/
  d = Float16 \/ d = Float32 \/ d = Float64.

(** Whatever [c] does, it appends to the trace only events satisfying [P]. *)
Definition emits_only {A} (P : event -> bool) (c : M A) : Prop :=
  forall s, exists t, trace (snd (c s)) = trace s ++ t /\ forallb P t = true.

(** The events of the preparation stages. *)
Definition is_setup_event (ev : event) : bool :=
  match ev with
  | LoggerInfo _ | ImportFunction _ | AsDf | EncoderFit _
  | TrainTestSplit _ _ _ _ | ScalerFit _ => true
  | _ => false
  end.

(** Neither a fit call nor an artifact-store write. *)
Definition no_fit_no_write (ev : event) : bool :=
  negb (is_fit ev) && negb (is_artifact_write ev).

(** The descriptor does not resolve: either [gen_sklearn_model] or
    [create_class] raises [e]. *)
Definition unresolvable (a : arguments) (e : exn) : Prop :=
  gen_sklearn_model (model_pkg_class a) (parameters a) = Raise e \/
  exists cfg,
    gen_sklearn_model (model_pkg_class a) (parameters a) = Ok cfg /\
    create_class (META_class cfg) = Raise e.

(** Computations that cannot fail, leave the drawing surface alone and
    append only events satisfying [P]. *)
Definition benign {A} (P : event -> bool) (c : M A) : Prop :=
  forall s, exists a s' t,
    c s = (Ok a, s') /\ plt s' = plt s /\
    trace s' = trace s ++ t /\ forallb P t = true.

(** [context.log_results] events. *)
Definition is_log_results (ev : event) : bool :=
  match ev with LogResults _ => true | _ => false end.

(** The three library calls that generate one report. *)
Definition generate (r : report) (model : Estimator) (cls : list string)
  (labels : option (list string))
  (Xtr : matrix) (ytr : list Z) (Xte : matrix) (yte : list Z)
  : result Visualizer :=
  match viz_new r model cls labels with
  | Ok v1 =>
      match viz_fit v1 Xtr ytr with
      | Ok v2 => viz_score v2 Xte yte
      | Raise e => Raise e
      end
  | Raise e => Raise e
  end.

(** The events of one looped report, up to its plot. *)
Definition report_events (r : report)
  (Xtr : matrix) (ytr : list Z) (Xte : matrix) (yte : list Z) : list event :=
  [PltClear; VizNew r []; VizFit r Xtr ytr; VizScore r Xte yte;
   LogPlot (mkPlot (report_name r) [r] (report_name r))].

(** Events one looped report [r0] may append. *)
Definition of_report (r0 : report) (ev : event) : bool :=
  match ev with
  | PltClear | LogPlot _ | LogResults _ => true
  | VizNew r _ | VizFit r _ _ | VizScore r _ _ =>
      match r0, r with
      | ROCAUC, ROCAUC | ClassificationReport, ClassificationReport
      | ConfusionMatrix, ConfusionMatrix
      | FeatureImportances, FeatureImportances => true
      | _, _ => false
      end
  | _ => false
  end.

(** The [labels] argument of a report: the header without the label
    column for feature importance, none for the looped reports. *)
Definition report_labels (a : arguments) (p : prepared) (r : report)
  : option (list string) :=
  match r with
  | FeatureImportances =>
      match get_loc (label_column a) (df_header p) with
      | Ok loc => Some (delete loc (df_header p))
      | Raise _ => None
      end
  | _ => None
  end.

(** [generate] on the values a run has in scope. *)
Definition generate_in (a : arguments) (p : prepared) (model : Estimator)
  (r : report) : result Visualizer :=
  generate r model (classes p) (report_labels a p r)
           (X_train_transformed p) (y_train p)
           (X_test_transformed p) (y_test p).

(** The plot artifact of report [r] with figure [body]. *)
Definition plot_of (r : report) (body : surface) : plot :=
  mkPlot (report_name r) body (report_name r).

(** [extra_data_dict] at the end of a complete evaluation. *)
Definition extra_data_of_run : list (string * plot) :=
  [(report_str ROCAUC, plot_of ROCAUC [ROCAUC]);
   (report_str ClassificationReport,
    plot_of ClassificationReport [ClassificationReport]);
   (report_str ConfusionMatrix, plot_of ConfusionMatrix [ConfusionMatrix]);
   ("FeatureImportances",
    plot_of FeatureImportances [ConfusionMatrix; FeatureImportances])].

(** The trace of a complete evaluation, given the [log_results] events
    [t1], [t2], [t3] of the three looped reports. *)
Definition evaluate_events (p : prepared) (t1 t2 t3 : list event)
  : list event :=
  let Xtr := X_train_transformed p in
  let Xte := X_test_transformed p in
  [LoggerInfo "Evaluate"]
  ++ report_events ROCAUC Xtr (y_train p) Xte (y_test p) ++ t1
  ++ report_events ClassificationReport Xtr (y_train p) Xte (y_test p) ++ t2
  ++ report_events ConfusionMatrix Xtr (y_train p) Xte (y_test p) ++ t3
  ++ [VizNew FeatureImportances [ConfusionMatrix];
      VizFit FeatureImportances Xtr (y_train p);
      VizScore FeatureImportances Xte (y_test p);
      LogPlot (plot_of FeatureImportances
                       [ConfusionMatrix; FeatureImportances]);
      PltClear].

(** The events of each stage of a complete run. *)
Definition setup_events (a : arguments) : list event :=
  match truthy_str (dask_function a) with
  | Some url => [ImportFunction url]
  | None => []
  end.

Definition prepare_events (a : arguments) (p : prepared)
  (labels : list cell) (X : matrix) (y : list Z) : list event :=
  [LoggerInfo "Read Data"; AsDf; LoggerInfo "Prep Data";
   EncoderFit labels; LoggerInfo "Split and Train";
   TrainTestSplit X y (train_validation_size a) (random_state a);
   ScalerFit (X_train p)].

(** [model_config["FIT"]] after line 109. *)
Definition fit_kwargs (cfg : model_config) (p : prepared) : kwargs :=
  dict_update (FIT cfg)
              [("X", KwMatrix (X_train_transformed p));
               ("y", KwVector (y_train p))].

Definition fit_events (kw : kwargs) : list event :=
  [BackendEnter "dask"; EstimatorFit kw; BackendExit].

Definition log_events (a : arguments) (p : prepared) (model : Estimator)
  (extra : list (string * plot)) (metrics : list (string * option Metric))
  (held_out : table) : list event :=
  [LoggerInfo "Log artifacts";
   SetLabel "class" (model_pkg_class a);
   LogModel "model" (DumpEstimator model) (artifact_subpath (models_dest a))
            "model.pkl" extra metrics [("class", model_pkg_class a)];
   LogArtifact "standard_scaler" (DumpScaler (scaler p))
               (artifact_subpath (models_dest a)) "scaler.gz"
               "standard_scaler";
   LogArtifact "label_encoder" (DumpEncoder (encoder p))
               (artifact_subpath (models_dest a)) "encoder.gz"
               "label_encoder";
   LogDataset (test_set_key a) held_out (file_ext a)
              [("data-type", "held-out")] (artifact_subpath "data");
   LoggerInfo "Done!"].

(** The order in which the report kinds are generated. *)
Definition report_index (r : report) : nat :=
  match r with
  | ROCAUC => 0 | ClassificationReport => 1
  | ConfusionMatrix => 2 | FeatureImportances => 3
  end.

Definition all_reports : list report :=
  [ROCAUC; ClassificationReport; ConfusionMatrix; FeatureImportances].

(** Events compatible with the run having stopped inside report [r]: no
    visualizer of a later report kind, no plot of [r] or of a later kind,
    none of the final artifact writes. *)
Definition not_past (r : report) (ev : event) : bool :=
  match ev with
  | VizNew r' _ | VizFit r' _ _ | VizScore r' _ _ =>
      Nat.leb (report_index r') (report_index r)
  | LogPlot pl =>
      existsb (fun r' => String.eqb (plot_key pl) (report_name r')
                         && Nat.ltb (report_index r') (report_index r))
              all_reports
  | LogModel _ _ _ _ _ _ _ | LogArtifact _ _ _ _ _
  | LogDataset _ _ _ _ _ => false
  | _ => true
  end.

(** Events of a report that did not get to its plot. *)
Definition attempt_of (r0 : report) (ev : event) : bool :=
  match ev with
  | PltClear => true
  | VizNew r _ | VizFit r _ _ | VizScore r _ _ =>
      Nat.eqb (report_index r) (report_index r0)
  | _ => false
  end.

(** [c] raises from [s], having appended only events satisfying [P]. *)
Definition stops {A} (P : event -> bool) (c : M A) (s : state) : Prop :=
  exists e s' t,
    c s = (Raise e, s') /\ trace s' = trace s ++ t /\ forallb P t = true.

(** The library calls that the run of [train_model] on [a] under [w] makes
    return normally.  Each call is stated on the very arguments the run
    passes to it, computed from the dataset as lines 74-113 compute them;
    nothing is asked of the library on other inputs.  The encoder returns
    one code per label, and the splitter partitions the row positions,
    [floor(train_size * n)] of them going to the train partition. *)
Definition library_calls_succeed (w : World) (a : arguments) : Prop :=
  forall df sampled labels features loc,
    as_df (dataset a) = Ok df ->
    frame_sample w (sample a) (select_dtypes numerics df) = Ok sampled ->
    getitem sampled (label_column a) = Ok labels ->
    drop sampled (label_column a) = Ok features ->
    get_loc (label_column a) (columns (select_dtypes numerics df)) = Ok loc ->
    let n := List.length (rows features) in
    exists enc y idx,
      encoder_fit labels = Ok enc /\
      encoder_transform enc labels = Ok y /\
      List.length y = List.length labels /\
      train_test_split n (train_validation_size a) (random_state a)
        = Ok idx /\
      Forall (fun i => (i < n)%nat) (fst idx) /\
      Forall (fun i => (i < n)%nat) (snd idx) /\
      List.length (fst idx) =
        Z.to_nat (Qfloor (train_validation_size a * inject_Z (Z.of_nat n))) /\
      (List.length (fst idx) + List.length (snd idx) = n)%nat /\
      forall X_train X_test y_train y_test,
        take (fst idx) (rows features) = Ok X_train ->
        take (snd idx) (rows features) = Ok X_test ->
        take (fst idx) y = Ok y_train ->
        take (snd idx) y = Ok y_test ->
        exists sc X_train_transformed X_test_transformed cfg cls m0 model,
          scaler_fit X_train = Ok sc /\
          scaler_transform sc X_train = Ok X_train_transformed /\
          scaler_transform sc X_test = Ok X_test_transformed /\
          gen_sklearn_model (model_pkg_class a) (parameters a) = Ok cfg /\
          create_class (META_class cfg) = Ok cls /\
          construct cls (CLASS cfg) = Ok m0 /\
          estimator_fit m0
            (dict_update (FIT cfg)
               [("X", KwMatrix X_train_transformed);
                ("y", KwVector y_train)]) = Ok model /\
          forall r, exists v,
            generate r model (map str_label (drop_duplicates labels))
              (match r with
               | FeatureImportances =>
                   Some (delete loc (columns (select_dtypes numerics df)))
               | _ => None
               end)
              X_train_transformed y_train X_test_transformed y_test = Ok v.

(** The artifact-store writes of a complete run, in order. *)
Definition complete_writes (a : arguments) (p : prepared) (model : Estimator)
  (metrics : list (string * option Metric)) (held_out : table) : list event :=
  [LogPlot (plot_of ROCAUC [ROCAUC]);
   LogPlot (plot_of ClassificationReport [ClassificationReport]);
   LogPlot (plot_of ConfusionMatrix [ConfusionMatrix]);
   LogPlot (plot_of FeatureImportances [ConfusionMatrix; FeatureImportances]);
   LogModel "model" (DumpEstimator model) (artifact_subpath (models_dest a))
            "model.pkl" extra_data_of_run metrics
            [("class", model_pkg_class a)];
   LogArtifact "standard_scaler" (DumpScaler (scaler p))
               (artifact_subpath (models_dest a)) "scaler.gz"
               "standard_scaler";
   LogArtifact "label_encoder" (DumpEncoder (encoder p))
               (artifact_subpath (models_dest a)) "encoder.gz"
               "label_encoder";
   LogDataset (test_set_key a) held_out (file_ext a)
              [("data-type", "held-out")] (artifact_subpath "data")].

End Observations.

(** ** A reference library

    A small executable stand-in for the external libraries, used to run
    [train_model] on concrete inputs.  [known] lists the class names that
    resolve; [failing] optionally names a report kind whose [score] raises. *)
Module Reference.

#[export] Instance carriers : Carriers := {|
  Client := string;
  Encoder := list cell;
  Scaler := nat * list Z;
  ClassObj := string;
  Estimator := string * bool;
  Visualizer := report * list string;
  Metric := Z;
  Param := Z
|}.

Fixpoint index_of (c : cell) (l : list cell) : option nat :=
  match l with
  | [] => None
  | x :: l' =>
      if cell_eqb c x then Some O
      else match index_of c l' with Some i => Some (S i) | None => None end
  end.

Fixpoint encode (classes : list cell) (y : list cell) : result (list Z) :=
  match y with
  | [] => Ok []
  | c :: y' =>
      match index_of c classes, encode classes y' with
      | Some i, Ok r => Ok (Z.of_nat i :: r)
      | None, _ => Raise (ValueError "y contains previously unseen labels")
      | _, Raise e => Raise e
      end
  end.

Definition payload (c : cell) : Z :=
  match c with Num z => z | _ => 0%Z end.

Fixpoint add_rows (acc : list Z) (r : row) : list Z :=
  match acc, r with
  | a :: acc', c :: r' => (a + payload c)%Z :: add_rows acc' r'
  | [], _ => map payload r
  | _, [] => acc
  end.

(** Per-column sums and the row count: centring without division. *)
Definition column_sums (X : matrix) : nat * list Z :=
  (List.length X, fold_left add_rows X []).

Fixpoint centre (n : Z) (sums : list Z) (r : row) : row :=
  match sums, r with
  | s :: sums', c :: r' => Num (n * payload c - s)%Z :: centre n sums' r'
  | _, _ => []
  end.

Definition rotate {A} (k : nat) (l : list A) : list A :=
  skipn k l ++ firstn k l.

(** The first [n - floor(ts * n)] positions of a seed-dependent rotation
    go to the test partition, the rest to the train partition. *)
Definition split (n : nat) (ts : Q) (seed : Z) : result (list nat * list nat) :=
  if Qle_bool ts 0 || Qle_bool 1 ts then
    Raise (ValueError "train_size out of range")
  else
    let n_train := Z.to_nat (Qfloor (ts * inject_Z (Z.of_nat n))) in
    let n_test := (n - n_train)%nat in
    let perm := rotate (Z.to_nat (seed mod Z.of_nat (Nat.max n 1))) (seq 0 n) in
    Ok (skipn n_test perm, firstn n_test perm).

Definition str_of_cell (c : cell) : string :=
  match c with
  | Missing => "nan"
  | Num z => NilZero.string_of_int (Z.to_int z)
  | Str s => s
  end.

Definition resolve (known : list string) (name : string) : result string :=
  if str_in name known then Ok name
  else Raise (LibraryError "import_module").

Definition report_eqb (a b : report) : bool :=
  match a, b with
  | ROCAUC, ROCAUC | ClassificationReport, ClassificationReport
  | ConfusionMatrix, ConfusionMatrix
  | FeatureImportances, FeatureImportances => true
  | _, _ => false
  end.

Definition score (failing : option report) (v : report * list string)
  : result (report * list string) :=
  match failing with
  | Some r => if report_eqb r (fst v)
              then Raise (LibraryError "Visualizer.score") else Ok v
  | None => Ok v
  end.

Definition library (known : list string) (failing : option report)
  : Library := {|
  import_function_client := fun url => Ok url;
  str_label := str_of_cell;
  encoder_fit := fun y => Ok (drop_duplicates y);
  encoder_transform := encode;
  train_test_split := split;
  scaler_fit := fun X => Ok (column_sums X);
  scaler_transform := fun s X =>
    Ok (map (centre (Z.of_nat (fst s)) (snd s)) X);
  gen_sklearn_model := fun name params =>
    match resolve known name with
    | Ok n => Ok (mkConfig n [] [])
    | Raise e => Raise e
    end;
  create_class := resolve known;
  construct := fun cls _ => Ok (cls, false);
  estimator_fit := fun m _ => Ok (fst m, true);
  viz_new := fun r _ classes _ => Ok (r, classes);
  viz_fit := fun v _ _ => Ok v;
  viz_score := fun v _ _ => score failing v;
  viz_roc_auc := fun _ => [("micro", 1%Z); ("macro", 1%Z)];
  viz_scores := fun v =>
    [("precision", map (fun c => (c, 1%Z)) (snd v));
     ("recall", map (fun c => (c, 1%Z)) (snd v))];
  artifact_subpath := fun sub => String.append "artifacts/" sub
|}.

(** The generator answers positions in increasing order... *)
Definition world_id : World := mkWorld (fun n k => seq 0 k).

(** ... or in decreasing order. *)
Definition world_rev : World := mkWorld (fun n k => rev (seq (n - k) k)).

(** Scenario frames: [n] rows [f1 = i], [f2 = 2 i], and a label column of
    the given dtype whose value in row [i]  is [label i]. *)
Definition scenario_frame (n : nat) (d : dtype) (label : nat -> cell) : frame :=
  mkFrame [("f1", Float64); ("f2", Float64); ("label", d)]
          (map (fun i => [Num (Z.of_nat i); Num (2 * Z.of_nat i); label i])
               (seq 0 n)).

Definition string_label (i : nat) : cell :=
  if Nat.even i then Str "yes" else Str "no".

Definition int_label (i : nat) : cell :=
  if Nat.even i then Num 1 else Num 0.

Definition classifier : string := "sklearn.linear_model.LogisticRegression".

Definition scenario_arguments (df : frame) (model : string) (frac : Q)
  : arguments :=
  mkArguments [] (mkDataItem (Ok df)) model "label" (3 # 4) frac
              "models" "test_set" "plots" None (Some "client") "parquet" 42.

Definition run (failing : option report) (w : World) (a : arguments)
  : result unit * state :=
  @train_model carriers (library [classifier] failing) w a initial_state.

(** Scenario A as the specification words it: a string label column. *)
Definition scenario_A : arguments :=
  scenario_arguments (scenario_frame 100 Object_ string_label) classifier 1.

(** Scenario A with the label stored as int64. *)
Definition scenario_A_numeric : arguments :=
  scenario_arguments (scenario_frame 100 Int64 int_label) classifier 1.

(** An eight-row variant. *)
Definition small_scenario : arguments :=
  scenario_arguments (scenario_frame 8 Int64 int_label) classifier 1.

(** Scenario C: a null in a retained numeric column. *)
Definition frame_with_null : frame :=
  mkFrame [("f1", Float64); ("f2", Float64); ("label", Int64)]
          ([Num 0; Missing; Num 1]
             :: rows (scenario_frame 7 Int64 int_label)).

Definition scenario_C : arguments :=
  scenario_arguments frame_with_null classifier 1.

(** Scenario D: a descriptor that does not resolve. *)
Definition scenario_D : arguments :=
  scenario_arguments (scenario_frame 8 Int64 int_label)
                     "sklearn.no_such_module.NoSuchClassifier" 1.

(** Neither backend argument / both backend arguments. *)
Definition no_backend : arguments :=
  mkArguments [] (mkDataItem (Ok (scenario_frame 8 Int64 int_label)))
              classifier "label" (3 # 4) 1 "models" "test_set" "plots"
              None None "parquet" 42.

Definition both_backends : arguments :=
  mkArguments [] (mkDataItem (Ok (scenario_frame 8 Int64 int_label)))
              classifier "label" (3 # 4) 1 "models" "test_set" "plots"
              (Some "db://project/dask-cluster") (Some "client")
              "parquet" 42.

(** A generator that agrees with [world_id] whenever every row is drawn. *)
Definition world_mixed : World :=
  mkWorld (fun n k => if Nat.eqb n k then seq 0 k else rev (seq (n - k) k)).

End Reference.

(** ** Further observations on runs *)

Section MoreObservations.

Context {C : Carriers} {L : Library}.

(** Events of the backend context of lines 116-119. *)
Definition fit_stage_free (t : list event) : Prop :=
  forallb (fun ev => negb (is_fit_stage ev)) t = true.

(** Events the evaluation stage may append. *)
Definition is_evaluate_event (ev : event) : bool :=
  match ev with
  | LoggerInfo _ | PltClear | VizNew _ _ | VizFit _ _ _ | VizScore _ _ _
  | LogPlot _ | LogResults _ => true
  | _ => false
  end.

(** Events the logging stage may append. *)
Definition is_log_event (ev : event) : bool :=
  match ev with
  | LoggerInfo _ | SetLabel _ _ | LogModel _ _ _ _ _ _ _
  | LogArtifact _ _ _ _ _ | LogDataset _ _ _ _ _ => true
  | _ => false
  end.

(** The model writes of a trace, with the metrics attached to each. *)
Definition model_metrics (s : state)
  : list (list (string * option Metric)) :=
  flat_map (fun ev => match ev with
                      | LogModel _ _ _ _ _ metrics _ => [metrics]
                      | _ => []
                      end) (trace s).

(** A key that contains the separator of line 158. *)
Fixpoint has_dash (k : string) : bool :=
  match k with
  | EmptyString => false
  | String c k' => Ascii.eqb c "-"%char || has_dash k'
  end.

(** The row of the held-out dataset built from row [r] of the sampled
    frame: the label cell at position [loc] removed, the label code at the
    end. *)
Definition held_out_row (loc : nat) (r : row) (code : Z) : row :=
  delete loc r ++ [Num code].

(** The entries that the loop of lines 152-161 passes to
    [context.log_results], in order: one per score kind and class, under
    the key [kind-class]. *)
Definition classification_entries
  (scores : list (string * list (string * Metric)))
  : list (string * option Metric) :=
  flat_map (fun sc =>
              map (fun cl => (String.append (fst sc)
                                (String.append "-" (fst cl)),
                              dict_get (snd sc) (fst cl)))
                  (snd sc))
           scores.

(** The entries of lines 147-149. *)
Definition roc_entries (roc_auc : list (string * Metric))
  : list (string * option Metric) :=
  [("micro", dict_get roc_auc "micro"); ("macro", dict_get roc_auc "macro")].

(** Any event but the closing log line of line 235. *)
Definition not_done (ev : event) : bool :=
  match ev with
  | LoggerInfo msg => negb (String.eqb msg "Done!")
  | _ => true
  end.

End MoreObservations.

(** * common/item_to_function.py

    [item_to_function] reads an [item.yaml], builds a function object with
    [mlrun.code_to_function] and optionally exports it.  The file system
    is part of the state; paths are lists of components, already resolved
    against the working directory; [yaml.full_load], [code_to_function],
    [export] and the path arithmetic on the notebook file name are
    parameters. *)
Module ItemToFunction.

Definition path := list string.

Inductive node : Type :=
| Directory
| RegularFile (content : string).

Definition filesystem := path -> option node.

(** [Path.exists] / [Path.is_dir] *)
Definition path_exists (fs : filesystem) (p : path) : bool :=
  match fs p with Some _ => true | None => false end.

Definition is_dir (fs : filesystem) (p : path) : bool :=
  match fs p with Some Directory => true | _ => false end.

(** [Path.parent] (the root is its own parent) and [path / name] *)
Definition parent (p : path) : path := removelast p.

Definition joinpath (p : path) (name : string) : path := p ++ [name].

Definition path_eqb (p q : path) : bool :=
  if list_eq_dec string_dec p q then true else false.

(** The proper ancestors of a path, from the root down to its parent (the
    root is its own parent). *)
Definition ancestors (p : path) : list path :=
  match p with
  | [] => [[]]
  | _ => map (fun k => firstn k p) (seq 0 (List.length p))
  end.

(** The first ancestor of [p] that is not a directory, walking down from
    the root: path resolution stops there. *)
Definition first_obstacle (fs : filesystem) (p : path) : option path :=
  find (fun q => negb (is_dir fs q)) (ancestors p).

Inductive missing : Type :=
| NoItemYaml (p : path)   (* "{item_path} does not contain a item.yaml file" *)
| NotFound (p : path)     (* "{item_path} not found" *)
| NoSuchPath (p : path).  (* raised by the operating system *)

Inductive error : Type :=
| FileNotFoundError (what : missing)
| FileExistsError (p : path)
| NotADirectoryError (p : path)
| IsADirectoryError (p : path)
| AttributeError (attribute : string)
| KeyError (key : string)
| TypeError
| LibraryFailure (origin : string).

Inductive outcome (A : Type) : Type :=
| Done (a : A)
| Fail (e : error).
Arguments Done {A} a.
Arguments Fail {A} e.

(** What stops the creation of [p] below an ancestor [q] that is not a
    directory: ENOTDIR when [q] is a file of another kind, ENOENT when it
    does not exist. *)
Definition obstacle_error (fs : filesystem) (p q : path) : error :=
  if path_exists fs q then NotADirectoryError p
  else FileNotFoundError (NoSuchPath p).

(** The error, if any, of resolving the parent of [p]. *)
Definition parent_obstacle (fs : filesystem) (p : path) : option error :=
  match first_obstacle fs p with
  | Some q => Some (obstacle_error fs p q)
  | None => None
  end.

(** What [yaml.full_load] can return: the values of the standard YAML
    tags.  A mapping is kept as its entries under string keys, first match
    first; entries under keys of another type play no part in the
    look-ups of this code.  [YOther] stands for any further value (a
    tuple, a complex number, ...): like the scalars below it has no [get],
    no [endswith] and no string subscript. *)
#[warnings="-register-all"]
Inductive yaml : Type :=
| YNull
| YBool (b : bool)
| YInt (z : Z)
| YFloat (repr : string)
| YStr (s : string)
| YBytes (b : string)                 (* !!binary *)
| YTimestamp (iso : string)           (* datetime.date / datetime *)
| YSeq (l : list yaml)
| YSet (l : list yaml)
| YMap (m : list (string * yaml))
| YOther (type_name : string).

(** [d.get(key, default)]: only mappings have [get]. *)
Definition get (y : yaml) (key : string) (default : yaml) : outcome yaml :=
  match y with
  | YMap m => Done (match dict_get m key with Some v => v | None => default end)
  | _ => Fail (AttributeError "get")
  end.

(** [d[key]] *)
Definition getitem (y : yaml) (key : string) : outcome yaml :=
  match y with
  | YMap m => match dict_get m key with
              | Some v => Done v
              | None => Fail (KeyError key)
              end
  | _ => Fail TypeError
  end.

Definition ends_with (s suffix : string) : bool :=
  Nat.leb (String.length suffix) (String.length s) &&
  String.eqb (substring (String.length s - String.length suffix)
                        (String.length suffix) s)
             suffix.

(** [filename.endswith(suffix)] with a [str] suffix: strings answer, byte
    strings refuse a [str] suffix with [TypeError], nothing else has
    [endswith]. *)
Definition endswith (filename : yaml) (suffix : string) : outcome bool :=
  match filename with
  | YStr s => Done (ends_with s suffix)
  | YBytes _ => Fail TypeError
  | _ => Fail (AttributeError "endswith")
  end.

(** The keyword arguments of the [code_to_function] call (lines 29-40). *)
Record function_arguments : Type := mkFunctionArguments {
  fa_name : yaml;
  fa_filename : yaml;
  fa_handler : yaml;
  fa_kind : yaml;
  fa_code_output : string;
  fa_image : yaml;
  fa_description : yaml;
  fa_requirements : yaml;
  fa_categories : yaml;
  fa_labels : yaml
}.

Section Model.

Variable FunctionObject : Type.

(** [yaml.full_load] on the text of a file *)
Variable full_load : string -> outcome yaml.

(** [code_to_function]: may write files (the converted notebook) *)
Variable code_to_function :
  function_arguments -> filesystem -> outcome (FunctionObject * filesystem).

(** [function_object.export(target=...)] *)
Variable export :
  FunctionObject -> path -> filesystem -> outcome filesystem.

(** [Path(filename).parent / (Path(filename).stem + ".py")], as a string *)
Variable py_sibling : string -> string.

Inductive call : Type :=
| Opened (p : path)
| Built (args : function_arguments)
| MadeDir (p : path)
| Exported (fo : FunctionObject) (target : path).

Record world : Type := mkWorld {
  fs : filesystem;
  calls : list call
}.

Definition IO (A : Type) : Type := world -> outcome A * world.

Definition ret {A} (a : A) : IO A := fun w => (Done a, w).

Definition bind {A B} (c : IO A) (k : A -> IO B) : IO B :=
  fun w => match c w with
           | (Done a, w') => k a w'
           | (Fail e, w') => (Fail e, w')
           end.

Definition raise {A} (e : error) : IO A := fun w => (Fail e, w).

Definition lift {A} (r : outcome A) : IO A := fun w => (r, w).

Definition get_fs : IO filesystem := fun w => (Done (fs w), w).

Definition record (c : call) : IO unit :=
  fun w => (Done tt, mkWorld (fs w) (calls w ++ [c])).

Notation "x <- c1 ;; c2" := (bind c1 (fun x => c2))
  (at level 61, c1 at next level, right associativity).
Notation "c1 ;; c2" := (bind c1 (fun _ => c2))
  (at level 61, right associativity).

(** [open(p, "r")] and reading it *)
Definition open_read (p : path) : IO string :=
  record (Opened p) ;;
  fun w => match fs w p with
           | Some (RegularFile text) => (Done text, w)
           | Some Directory => (Fail (IsADirectoryError p), w)
           | None => (Fail (FileNotFoundError (NoSuchPath p)), w)
           end.

(** [Path.mkdir()] with its defaults: no parents, no exist_ok.  The
    operating system resolves the parent first ([parent_obstacle]), then
    refuses an existing path. *)
Definition mkdir (p : path) : IO unit :=
  record (MadeDir p) ;;
  fun w => match parent_obstacle (fs w) p with
           | Some e => (Fail e, w)
           | None =>
               match fs w p with
               | Some _ => (Fail (FileExistsError p), w)
               | None =>
                   (Done tt,
                    mkWorld (fun q => if path_eqb q p then Some Directory
                                      else fs w q)
                            (calls w))
               end
           end.

Definition call_code_to_function (args : function_arguments)
  : IO FunctionObject :=
  record (Built args) ;;
  fun w => match code_to_function args (fs w) with
           | Done (fo, fs') => (Done fo, mkWorld fs' (calls w))
           | Fail e => (Fail e, w)
           end.

Definition call_export (fo : FunctionObject) (target : path) : IO unit :=
  record (Exported fo target) ;;
  fun w => match export fo target (fs w) with
           | Done fs' => (Done tt, mkWorld fs' (calls w))
           | Fail e => (Fail e, w)
           end.

(** Lines 10-18. *)
Definition locate (item_path : path) : IO path :=
  files <- get_fs ;;
  if is_dir files item_path then
    if path_exists files (joinpath item_path "item.yaml")
    then ret (joinpath item_path "item.yaml")
    else raise (FileNotFoundError (NoItemYaml item_path))
  else if negb (path_exists files item_path)
       then raise (FileNotFoundError (NotFound item_path))
       else ret item_path.

(** [item_yaml.get("spec", {}).get(key)] *)
Definition spec_get (item_yaml : yaml) (key : string) : outcome yaml :=
  match get item_yaml "spec" (YMap []) with
  | Done spec => get spec key YNull
  | Fail e => Fail e
  end.

(** Lines 22-40. *)
Definition build (item_yaml : yaml) : IO FunctionObject :=
  filename <- lift (spec_get item_yaml "filename") ;;
  notebook <- lift (endswith filename ".ipynb") ;;
  let code_output :=
    if notebook then
      match filename with YStr s => py_sibling s | _ => EmptyString end
    else EmptyString in
  name <- lift (getitem item_yaml "name") ;;
  filename <- lift (spec_get item_yaml "filename") ;;
  handler <- lift (spec_get item_yaml "handler") ;;
  kind <- lift (spec_get item_yaml "kind") ;;
  image <- lift (spec_get item_yaml "image") ;;
  description <- lift (get item_yaml "description" (YStr EmptyString)) ;;
  requirements <- lift (spec_get item_yaml "requirements") ;;
  categories <- lift (get item_yaml "categories" (YSeq [])) ;;
  labels <- lift (get item_yaml "labels" (YMap [])) ;;
  call_code_to_function
    (mkFunctionArguments name filename handler kind code_output image
                         description requirements categories labels).

(** Lines 42-53. *)
Definition deliver (function_object : FunctionObject)
  (output_path : option path) : IO (option FunctionObject) :=
  match output_path with
  | None => ret (Some function_object)
  | Some output_path =>
      files <- get_fs ;;
      let output_path :=
        if is_dir files output_path
        then joinpath output_path "function.yaml"
        else output_path in
      (if negb (path_exists files (parent output_path))
       then mkdir output_path else ret tt) ;;
      call_export function_object output_path ;;
      ret None
  end.

(** [item_to_function] (lines 9-53). *)
Definition item_to_function (item_path : path) (output_path : option path)
  : IO (option FunctionObject) :=
  item_path <- locate item_path ;;
  text <- open_read item_path ;;
  item_yaml <- lift (full_load text) ;;
  function_object <- build item_yaml ;;
  deliver function_object output_path.

(** Lines 56-61: the options are [None] when the flag is not given, and
    [Path(None)] raises [TypeError]. *)
Definition main (item output : option path) : IO (option FunctionObject) :=
  match item with
  | None => raise TypeError
  | Some item_path => item_to_function item_path output
  end.

(** The calls this code makes that write to the file system itself. *)
Definition is_delivery (c : call) : bool :=
  match c with
  | MadeDir _ | Exported _ _ => true
  | _ => false
  end.

(** The file name of an item is usable when it is a string. *)
Definition usable_filename (item_yaml : yaml) : bool :=
  match spec_get item_yaml "filename" with
  | Done (YStr _) => true
  | _ => false
  end.

(** The world once the item file has been opened (line 20). *)
Definition opened (w : world) (item : path) : world :=
  mkWorld (fs w) (calls w ++ [Opened item]).

End Model.

End ItemToFunction.

(** A small stand-in for the collaborators of [item_to_function], used to
    run it on concrete file systems. *)
Module ItemToFunctionReference.

Import ItemToFunction.

(** The function object is the argument record itself *)
Definition function_object := function_arguments.

(** One known document per file text *)
Definition complete_item : yaml :=
  YMap [("name", YStr "sklearn_classifier_dask");
        ("description", YStr "sklearn classifier with dask");
        ("spec", YMap [("filename", YStr "sklearn_classifier_dask.py");
                       ("handler", YStr "train_model");
                       ("kind", YStr "job")])].

Definition nameless_item : yaml :=
  YMap [("spec", YMap [("filename", YStr "sklearn_classifier_dask.ipynb")])].

Definition specless_item : yaml :=
  YMap [("name", YStr "sklearn_classifier_dask")].

(** The file name given as [!!binary] *)
Definition binary_item : yaml :=
  YMap [("name", YStr "sklearn_classifier_dask");
        ("spec", YMap [("filename", YBytes "sklearn_classifier_dask.ipynb")])].

Definition load (text : string) : outcome yaml :=
  if String.eqb text "complete" then Done complete_item
  else if String.eqb text "nameless" then Done nameless_item
  else if String.eqb text "specless" then Done specless_item
  else if String.eqb text "binary" then Done binary_item
  else Fail (LibraryFailure "yaml.full_load").

Definition make (args : function_arguments) (files : filesystem)
  : outcome (function_object * filesystem) :=
  Done (args, files).

Definition write (fo : function_object) (target : path) (files : filesystem)
  : outcome filesystem :=
  Done (fun q => if path_eqb q target then Some (RegularFile "function")
                 else files q).

Definition sibling (filename : string) : string :=
  String.append filename ".py".

(** [/], [/functions], [/functions/item.yaml], three more item files,
    [/out] and [/empty] *)
Definition files : filesystem :=
  fun p =>
    if path_eqb p [] then Some Directory
    else if path_eqb p ["functions"] then Some Directory
    else if path_eqb p ["functions"; "item.yaml"]
         then Some (RegularFile "complete")
    else if path_eqb p ["nameless.yaml"] then Some (RegularFile "nameless")
    else if path_eqb p ["specless.yaml"] then Some (RegularFile "specless")
    else if path_eqb p ["binary.yaml"] then Some (RegularFile "binary")
    else if path_eqb p ["out"] then Some Directory
    else if path_eqb p ["empty"] then Some Directory
    else None.

Definition start : world function_object := mkWorld function_object files [].

Definition run (item : path) (output : option path)
  : outcome (option function_object) * world function_object :=
  item_to_function function_object load make write sibling item output start.

End ItemToFunctionReference.

(** Further stand-ins for concrete runs: a library whose estimator cannot
    be fitted, a frame whose label column comes first, and arguments naming
    a label column the dataset does not have. *)
Module ReferenceVariants.

Import Reference.

Definition library_failing_fit : Library := {|
  import_function_client := fun url => Ok url;
  str_label := str_of_cell;
  encoder_fit := fun y => Ok (drop_duplicates y);
  encoder_transform := encode;
  train_test_split := split;
  scaler_fit := fun X => Ok (column_sums X);
  scaler_transform := fun s X =>
    Ok (map (centre (Z.of_nat (fst s)) (snd s)) X);
  gen_sklearn_model := fun name params => Ok (mkConfig name [] []);
  create_class := fun name => Ok name;
  construct := fun cls _ => Ok (cls, false);
  estimator_fit := fun _ _ => Raise (LibraryError "Estimator.fit");
  viz_new := fun r _ classes _ => Ok (r, classes);
  viz_fit := fun v _ _ => Ok v;
  viz_score := fun v _ _ => Ok v;
  viz_roc_auc := fun _ => [];
  viz_scores := fun _ => [];
  artifact_subpath := fun sub => String.append "artifacts/" sub
|}.

Definition label_first_frame (n : nat) : frame :=
  mkFrame [("label", Int64); ("f1", Float64); ("f2", Float64)]
          (map (fun i => [int_label i; Num (Z.of_nat i); Num (2 * Z.of_nat i)])
               (seq 0 n)).

Definition label_first_scenario : arguments :=
  scenario_arguments (label_first_frame 8) classifier 1.

(** A frame with columns outside the retained dtypes among the numeric
    ones: an object column, an int8 column and an unsigned column. *)
Definition mixed_frame (n : nat) : frame :=
  mkFrame [("id", Object_); ("f1", Float64); ("tiny", Int8);
           ("f2", Float64); ("count", UInt32); ("label", Int64)]
          (map (fun i => [Str "row"; Num (Z.of_nat i); Num 1;
                          Num (2 * Z.of_nat i); Num 7; int_label i])
               (seq 0 n)).

Definition mixed_scenario : arguments :=
  scenario_arguments (mixed_frame 8) classifier 1.

(** The eight-row scenario with another seed. *)
Definition small_scenario_seeded (seed : Z) : arguments :=
  mkArguments [] (mkDataItem (Ok (scenario_frame 8 Int64 int_label)))
              classifier "label" (3 # 4) 1 "models" "test_set" "plots"
              None (Some "client") "parquet" seed.

Definition missing_label_scenario : arguments :=
  mkArguments [] (mkDataItem (Ok (scenario_frame 8 Int64 int_label)))
              classifier "target" (3 # 4) 1 "models" "test_set" "plots"
              None (Some "client") "parquet" 42.

End ReferenceVariants.

(** * Properties *)

Section PipelineFacts.

Context {C : Carriers} {L : Library}.

Notation "x <- c1 ;; c2" := (bind c1 (fun x => c2))
  (at level 61, c1 at next level, right associativity).
Notation "c1 ;; c2" := (bind c1 (fun _ => c2))
  (at level 61, right associativity).

(** ** Numeric-column restriction *)

Lemma mask_filter_map_In :
  forall (A : Type) (p : A -> bool) (l : list A) (x : A),
    In x (mask_filter (map p l) l) <-> In x l /\ p x = true.
Proof.
  induction l as [|a l IH]; intros x; simpl.
  - tauto.
  - destruct (p a) eqn:Ha; simpl; rewrite IH; split.
    + intros [->|[H1 H2]]; auto.
    + intros [[->|H1] H2]; auto.
    + intros [H1 H2]; auto.
    + intros [[->|H1] H2]; [congruence|auto].
Qed.

Lemma mask_filter_map_filter :
  forall (A : Type) (p : A -> bool) (l : list A),
    mask_filter (map p l) l = filter p l.
Proof.
  induction l as [|a l IH]; simpl; [reflexivity|].
  destruct (p a); simpl; now rewrite IH.
Qed.

Lemma numerics_spec :
  forall d, str_in (dtype_name d) numerics = true <-> retained_dtype d.
Proof.
  unfold retained_dtype; intros d; split.
  - destruct d; simpl; intros H; try discriminate; tauto.
  - intros H; decompose [or] H; subst; reflexivity.
Qed.


(** ** Stepping through a computation *)

Lemma bind_ok :
  forall A B (c : M A) (k : A -> M B) s a s1,
    c s = (Ok a, s1) -> bind c k s = k a s1.
Proof. intros * H; unfold bind; now rewrite H. Qed.

Lemma bind_raise :
  forall A B (c : M A) (k : A -> M B) s e s1,
    c s = (Raise e, s1) -> bind c k s = (Raise e, s1).
Proof. intros * H; unfold bind; now rewrite H. Qed.

Lemma bind_inv_ok :
  forall A B (c : M A) (k : A -> M B) s b s',
    bind c k s = (Ok b, s') ->
    exists a s1, c s = (Ok a, s1) /\ k a s1 = (Ok b, s').
Proof.
  intros * H; unfold bind in H.
  destruct (c s) as [[a|e] s1]; [eauto|discriminate].
Qed.

Ltac step_ok H := rewrite (@bind_ok _ _ _ _ _ _ _ H).
Ltac step_raise H := rewrite (@bind_raise _ _ _ _ _ _ _ H).

Lemma bind_ext :
  forall A B (c1 c2 : M A) (k1 k2 : A -> M B) s,
    c1 s = c2 s -> (forall a s1, k1 a s1 = k2 a s1) ->
    bind c1 k1 s = bind c2 k2 s.
Proof.
  intros * Hc Hk; unfold bind; rewrite Hc.
  destruct (c2 s) as [[a|e] s1]; auto.
Qed.

Lemma lift_inv_ok :
  forall A (r : result A) s a s',
    lift r s = (Ok a, s') -> r = Ok a /\ s' = s.
Proof. unfold lift; intros * H; inversion H; auto. Qed.

(** ** Which events a computation may append to the trace *)

Lemma emits_silent :
  forall A (P : event -> bool) (c : M A),
    (forall s, trace (snd (c s)) = trace s) -> emits_only P c.
Proof.
  intros * H s; exists []; rewrite H, app_nil_r; auto.
Qed.

Lemma emits_ret : forall A P (a : A), emits_only P (ret a).
Proof. intros; now apply emits_silent. Qed.

Lemma emits_raise : forall A P e, emits_only P (@raise _ A e).
Proof. intros; now apply emits_silent. Qed.

Lemma emits_lift : forall A P (r : result A), emits_only P (lift r).
Proof. intros; now apply emits_silent. Qed.

Lemma emits_get_fig : forall P, emits_only P get_fig.
Proof. intros; now apply emits_silent. Qed.

Lemma emits_get_results : forall P, emits_only P get_results.
Proof. intros; now apply emits_silent. Qed.

Lemma emits_draw : forall P r, emits_only P (draw r).
Proof. intros; now apply emits_silent. Qed.

Lemma emits_emit : forall (P : event -> bool) ev,
    P ev = true -> emits_only P (emit ev).
Proof.
  intros P ev H s; exists [ev]; simpl; now rewrite H.
Qed.

Lemma emits_log_results : forall (P : event -> bool) kv,
    P (LogResults kv) = true -> emits_only P (log_results kv).
Proof.
  intros P kv H s; exists [LogResults kv]; simpl; now rewrite H.
Qed.

Lemma emits_plt_clear : forall (P : event -> bool),
    P PltClear = true -> emits_only P plt_clear.
Proof.
  intros P H s; exists [PltClear]; simpl; now rewrite H.
Qed.

Lemma emits_bind :
  forall A B P (c : M A) (k : A -> M B),
    emits_only P c -> (forall a, emits_only P (k a)) ->
    emits_only P (bind c k).
Proof.
  intros * Hc Hk s. unfold bind.
  destruct (Hc s) as (t1 & E1 & F1).
  destruct (c s) as [[a|e] s1]; simpl in E1.
  - destruct (Hk a s1) as (t2 & E2 & F2).
    exists (t1 ++ t2). rewrite E2, E1, app_assoc, forallb_app, F1, F2; auto.
  - exists t1; simpl; auto.
Qed.

Lemma emits_with_backend :
  forall A (P : event -> bool) name (body : M A),
    P (BackendEnter name) = true -> P BackendExit = true ->
    emits_only P body -> emits_only P (with_backend name body).
Proof.
  intros * H1 H2 Hb s. unfold with_backend. cbn [emit].
  set (s1 := mkState _ _ _).
  destruct (Hb s1) as (t & E & F).
  destruct (body s1) as [r s2]; simpl in *.
  exists (BackendEnter name :: t ++ [BackendExit]).
  rewrite E. subst s1; simpl. rewrite <- !app_assoc. simpl.
  split; [reflexivity|].
  rewrite H1, forallb_app, F; simpl; now rewrite H2.
Qed.

Lemma emits_for_ :
  forall A P (l : list A) (body : A -> M unit),
    (forall x, emits_only P (body x)) -> emits_only P (for_ l body).
Proof.
  intros * H; induction l as [|x l IH]; simpl.
  - apply emits_ret.
  - apply emits_bind; auto.
Qed.

Lemma emits_for_acc :
  forall A S P (l : list A) (body : S -> A -> M S) acc,
    (forall acc x, emits_only P (body acc x)) ->
    emits_only P (for_acc l body acc).
Proof.
  intros * H; revert acc; induction l as [|x l IH]; intros acc; simpl.
  - apply emits_ret.
  - apply emits_bind; auto.
Qed.

Lemma emits_weaken :
  forall A (P Q : event -> bool) (c : M A),
    (forall ev, P ev = true -> Q ev = true) ->
    emits_only P c -> emits_only Q c.
Proof.
  intros * HPQ Hc s. destruct (Hc s) as (t & E & F).
  exists t; split; [exact E|].
  rewrite forallb_forall in *; auto.
Qed.

Ltac emits_step :=
  first
    [ apply emits_ret | apply emits_raise | apply emits_lift
    | apply emits_get_fig | apply emits_get_results | apply emits_draw
    | apply emits_emit; reflexivity
    | apply emits_log_results; reflexivity
    | apply emits_plt_clear; reflexivity
    | apply emits_with_backend; [reflexivity|reflexivity|]
    | apply emits_for_; intros
    | apply emits_for_acc; intros
    | apply emits_bind; [|intros]
    | match goal with
      | |- emits_only _ (if ?b then _ else _) => destruct b
      | |- emits_only _ (match ?x with _ => _ end) => destruct x
      end ].

Ltac emits := unfold info; repeat emits_step.

Lemma setup_client_emits :
  forall a, emits_only (fun ev => match ev with ImportFunction _ => true
                                          | _ => false end)
                       (setup_client a).
Proof. intros a; unfold setup_client; emits. Qed.

Lemma prepare_emits :
  forall w a, emits_only is_setup_event (prepare w a).
Proof. intros w a; unfold prepare; emits. Qed.

Lemma build_and_fit_emits :
  forall a p, emits_only is_fit_stage (build_and_fit a p).
Proof. intros a p; unfold build_and_fit; emits. Qed.

(** ** The execution backend argument *)

Lemma prepare_with_dask_client :
  forall w a cl, prepare w (with_dask_client a cl) = prepare w a.
Proof. intros w [] cl; reflexivity. Qed.

Lemma build_and_fit_with_dask_client :
  forall a cl p, build_and_fit (with_dask_client a cl) p = build_and_fit a p.
Proof. intros [] cl p; reflexivity. Qed.

Lemma evaluate_with_dask_client :
  forall a cl p m, evaluate (with_dask_client a cl) p m = evaluate a p m.
Proof. intros [] cl p m; reflexivity. Qed.

Lemma log_artifacts_with_dask_client :
  forall a cl p m x,
    log_artifacts (with_dask_client a cl) p m x = log_artifacts a p m x.
Proof. intros [] cl p m x; reflexivity. Qed.

Lemma setup_client_truthy :
  forall a url s,
    truthy_str (dask_function a) = Some url ->
    setup_client a s =
      (import_function_client url,
       mkState (plt s) (results s) (trace s ++ [ImportFunction url])).
Proof.
  intros a url s H. unfold setup_client. rewrite H.
  unfold bind, emit, lift. reflexivity.
Qed.

(** C8: without a truthy [dask_function] and without a [dask_client] the
    call raises [ValueError] at once, leaving the state untouched (the
    dataset is not read, nothing is logged); with a truthy [dask_function]
    the client comes from [import_function], and the outcome of the call
    is the same whatever [dask_client] is. *)
Theorem client_required_function_first :
  forall (w : World) (a : arguments) (s : state),
    (truthy_str (dask_function a) = None -> dask_client a = None ->
     train_model w a s =
       (Raise (ValueError "dask client was not provided"), s)) /\
    (forall url, truthy_str (dask_function a) = Some url ->
       setup_client a s =
         (import_function_client url,
          mkState (plt s) (results s) (trace s ++ [ImportFunction url])) /\
       forall cl, train_model w (with_dask_client a cl) s = train_model w a s).
Proof.
  intros w a s; split.
  - intros Hf Hc. unfold train_model.
    apply bind_raise. unfold setup_client. now rewrite Hf, Hc.
  - intros url Hf; split; [now apply setup_client_truthy|].
    intros cl. unfold train_model.
    assert (Hs : setup_client (with_dask_client a cl) s = setup_client a s).
    { rewrite (@setup_client_truthy a url s Hf).
      apply setup_client_truthy. destruct a; exact Hf. }
    apply bind_ext; [exact Hs|intros c s1].
    apply bind_ext; [now rewrite prepare_with_dask_client|intros p s2].
    apply bind_ext; [now rewrite build_and_fit_with_dask_client|intros m s3].
    apply bind_ext; [now rewrite evaluate_with_dask_client|intros x s4].
    now rewrite log_artifacts_with_dask_client.
Qed.

(** ** Missing values *)

(** C2: when the frame restricted to the numeric columns holds a missing
    value, [train_model] fails, with [Exception("NAs valus found")] as soon
    as the client has been set up, and the trace of the failed run holds
    no fit and no artifact write. *)
Theorem missing_values_abort_before_fit :
  forall (w : World) (a : arguments) (df : frame),
    as_df (dataset a) = Ok df ->
    isna_any_any (select_dtypes numerics df) = true ->
    is_ok (fst (train_model w a initial_state)) = false /\
    (is_ok (fst (setup_client a initial_state)) = true ->
     fst (train_model w a initial_state) =
       Raise (PyException "NAs valus found")) /\
    forallb no_fit_no_write (trace (snd (train_model w a initial_state)))
      = true.
Proof.
  intros w a df Hdf Hna.
  destruct (setup_client_emits a initial_state) as (t & Et & Ft).
  unfold train_model.
  destruct (setup_client a initial_state) as [[c|e] s1] eqn:Hs; simpl in Et.
  - assert (Hp : prepare w a s1 =
                 (Raise (PyException "NAs valus found"),
                  mkState (plt s1) (results s1)
                          (trace s1 ++ [LoggerInfo "Read Data"; AsDf;
                                        LoggerInfo "Prep Data"]))).
    { unfold prepare, info, bind, emit, lift; simpl.
      rewrite Hdf, Hna; simpl. unfold raise.
      now rewrite <- !app_assoc. }
    step_ok Hs. step_raise Hp. simpl.
    repeat split; auto.
    rewrite Et, forallb_app; simpl. rewrite andb_true_r.
    rewrite forallb_forall in *. intros ev Hev.
    specialize (Ft ev Hev). destruct ev; try discriminate; reflexivity.
  - step_raise Hs. simpl. repeat split; [discriminate|].
    rewrite Et. rewrite forallb_forall in *. intros ev Hev.
    specialize (Ft ev Hev). destruct ev; try discriminate; reflexivity.
Qed.

(** ** Class resolution *)

Lemma build_and_fit_unresolvable :
  forall a e p s, unresolvable a e -> build_and_fit a p s = (Raise e, s).
Proof.
  intros a e p s [H|(cfg & H1 & H2)]; unfold build_and_fit, bind, lift.
  - now rewrite H.
  - now rewrite H1, H2.
Qed.

(** C7: when the descriptor names a class that cannot be resolved, the
    run fails without ever entering the backend context or calling the
    estimator's fit; once the earlier stages have passed, the exception is
    the one raised by the resolution. *)
Theorem unresolvable_class_fails_before_fit :
  forall (w : World) (a : arguments) (e : exn),
    unresolvable a e ->
    is_ok (fst (train_model w a initial_state)) = false /\
    forallb (fun ev => negb (is_fit_stage ev))
            (trace (snd (train_model w a initial_state))) = true /\
    (forall c s1 p s2,
        setup_client a initial_state = (Ok c, s1) ->
        prepare w a s1 = (Ok p, s2) ->
        train_model w a initial_state = (Raise e, s2)).
Proof.
  intros w a e He.
  destruct (setup_client_emits a initial_state) as (t1 & E1 & F1).
  assert (Q1 : forall ev, In ev t1 -> negb (is_fit_stage ev) = true).
  { rewrite forallb_forall in F1. intros ev Hev. specialize (F1 ev Hev).
    destruct ev; try discriminate; reflexivity. }
  unfold train_model.
  destruct (setup_client a initial_state) as [[c|e1] s1] eqn:Hs; simpl in E1.
  - destruct (prepare_emits w a s1) as (t2 & E2 & F2).
    assert (Q2 : forall ev, In ev t2 -> negb (is_fit_stage ev) = true).
    { rewrite forallb_forall in F2. intros ev Hev. specialize (F2 ev Hev).
      destruct ev; try discriminate; reflexivity. }
    step_ok Hs.
    destruct (prepare w a s1) as [[p|e2] s2] eqn:Hp; simpl in E2.
    + step_ok Hp. step_raise (build_and_fit_unresolvable a e p s2 He). simpl.
      repeat split.
      * rewrite E2, E1, forallb_app.
        apply andb_true_intro; split; now apply forallb_forall.
      * intros c' s1' p' s2' Hc Hp'. congruence.
    + step_raise Hp. simpl. repeat split.
      * rewrite E2, E1, forallb_app.
        apply andb_true_intro; split; now apply forallb_forall.
      * intros c' s1' p' s2' Hc Hp'. congruence.
  - step_raise Hs. simpl. repeat split.
    + rewrite E1. now apply forallb_forall.
    + intros; discriminate.
Qed.

(** ** Successful runs *)

Ltac crunch H :=
  repeat (cbn [fst snd plt results trace] in H;
          match type of H with
          | context [match ?x with Ok _ => _ | Raise _ => _ end] =>
              let E := fresh "E" in destruct x eqn:E; try discriminate H
          | context [if ?b then _ else _] =>
              let E := fresh "E" in destruct b eqn:E; try discriminate H
          end).

Lemma prepare_ok_inv :
  forall w a s p s',
    prepare w a s = (Ok p, s') ->
    exists df0 sampled labels features y idx,
      as_df (dataset a) = Ok df0 /\
      isna_any_any (select_dtypes numerics df0) = false /\
      frame_sample w (sample a) (select_dtypes numerics df0) = Ok sampled /\
      getitem sampled (label_column a) = Ok labels /\
      encoder_fit labels = Ok (encoder p) /\
      drop sampled (label_column a) = Ok features /\
      encoder_transform (encoder p) labels = Ok y /\
      train_test_split (List.length (rows features))
        (train_validation_size a) (random_state a) = Ok idx /\
      take (fst idx) (rows features) = Ok (X_train p) /\
      take (snd idx) (rows features) = Ok (X_test p) /\
      take (fst idx) y = Ok (y_train p) /\
      take (snd idx) y = Ok (y_test p) /\
      scaler_fit (X_train p) = Ok (scaler p) /\
      scaler_transform (scaler p) (X_train p) = Ok (X_train_transformed p) /\
      scaler_transform (scaler p) (X_test p) = Ok (X_test_transformed p) /\
      df_header p = columns (select_dtypes numerics df0) /\
      classes p = map str_label (drop_duplicates labels) /\
      plt s' = plt s /\ results s' = results s /\
      trace s' = trace s ++
        [LoggerInfo "Read Data"; AsDf; LoggerInfo "Prep Data";
         EncoderFit labels; LoggerInfo "Split and Train";
         TrainTestSplit (rows features) y (train_validation_size a)
                        (random_state a);
         ScalerFit (X_train p)].
Proof.
  intros w a s p s' H.
  unfold prepare, info, bind, lift, emit, ret, raise, reset_index,
    to_dask_array in H.
  crunch H.
  inversion H; subst; clear H.
  do 6 eexists. cbn [encoder X_train X_test y_train y_test scaler
                     X_train_transformed X_test_transformed df_header classes
                     plt results trace].
  repeat (split; [eassumption || reflexivity|]).
  rewrite <- !app_assoc. reflexivity.
Qed.

Lemma mask_filter_combine :
  forall (A B : Type) (p : A -> bool) (sch : list A) (r : list B),
    mask_filter (map p sch) r =
      map snd (filter (fun cv => p (fst cv)) (combine sch r)).
Proof.
  induction sch as [|c sch IH]; intros r; [reflexivity|].
  destruct r as [|v r]; simpl; [now destruct (p c)|].
  destruct (p c); simpl; now rewrite IH.
Qed.

Lemma take_incl :
  forall A (l : list A) idx r, take idx l = Ok r -> incl r l.
Proof.
  intros A l idx; induction idx as [|i idx IH]; intros r H; simpl in H.
  - inversion H; subst. intros x [].
  - destruct (nth_error l i) as [x|] eqn:E; [|discriminate].
    destruct (take idx l) as [xs|]; [|discriminate].
    inversion H; subst.
    intros z [<-|Hz]; [now apply nth_error_In in E|now apply (IH xs)].
Qed.

Lemma frame_sample_rows :
  forall w frac df sampled,
    frame_sample w frac df = Ok sampled ->
    schema sampled = schema df /\ incl (rows sampled) (rows df).
Proof.
  intros w frac df sampled H. unfold frame_sample in H.
  destruct (Qle_bool 0 frac && Qle_bool frac 1); [|discriminate].
  destruct (take _ (rows df)) as [rs|] eqn:E; [|discriminate].
  inversion H; subst. cbn [schema rows]. split; [reflexivity|].
  now apply take_incl in E.
Qed.

(** C10: the numeric restriction keeps exactly the columns whose dtype is
    int16, int32, int64, float16, float32 or float64, in their original
    order, and of every row exactly the cells of those columns; a column of
    any other dtype, int8 and the unsigned integers included, is dropped
    with its cells.  In every run that gets through the preparation stage
    the saved header is the list of the retained column names, and every
    row of the feature matrix handed to the splitter, hence every train
    and test row, is a row of the dataset cut down to the cells of the
    retained columns, with the label cell taken out. *)
Theorem select_dtypes_numerics_exact :
  forall (df : frame),
    (forall c, In c (schema (select_dtypes numerics df)) <->
               In c (schema df) /\ retained_dtype (snd c)) /\
    schema (select_dtypes numerics df) =
      filter (fun c => str_in (dtype_name (snd c)) numerics) (schema df) /\
    (forall c, In c (schema df) ->
               In (snd c) [Int8; UInt8; UInt16; UInt32; UInt64;
                           Bool_; Object_; Datetime64; Category] ->
               ~ In c (schema (select_dtypes numerics df))) /\
    rows (select_dtypes numerics df) =
      map (fun r =>
             map snd (filter (fun cv =>
                                str_in (dtype_name (snd (fst cv))) numerics)
                             (combine (schema df) r)))
          (rows df) /\
    (forall (w : World) (a : arguments) (s : state) (p : prepared)
            (s' : state),
        as_df (dataset a) = Ok df ->
        prepare w a s = (Ok p, s') ->
        exists loc X y,
          df_header p =
            map fst (filter (fun c => str_in (dtype_name (snd c)) numerics)
                            (schema df)) /\
          get_loc (label_column a) (df_header p) = Ok loc /\
          In (TrainTestSplit X y (train_validation_size a) (random_state a))
             (trace s') /\
          incl (X_train p) X /\ incl (X_test p) X /\
          forall x, In x X ->
            exists r,
              In r (rows df) /\
              x = delete loc
                    (map snd
                       (filter (fun cv =>
                                  str_in (dtype_name (snd (fst cv))) numerics)
                               (combine (schema df) r)))).
Proof.
  intros df.
  assert (Hin : forall c, In c (schema (select_dtypes numerics df)) <->
                          In c (schema df) /\ retained_dtype (snd c)).
  { intros c; unfold select_dtypes; cbn [schema].
    rewrite (mask_filter_map_In _
               (fun c0 => str_in (dtype_name (snd c0)) numerics)).
    rewrite numerics_spec; reflexivity. }
  assert (Hsch : schema (select_dtypes numerics df) =
                 filter (fun c => str_in (dtype_name (snd c)) numerics)
                        (schema df)).
  { unfold select_dtypes; cbn [schema]. apply mask_filter_map_filter. }
  assert (Hrows : rows (select_dtypes numerics df) =
                  map (fun r =>
                         map snd
                           (filter (fun cv =>
                                      str_in (dtype_name (snd (fst cv)))
                                             numerics)
                                   (combine (schema df) r)))
                      (rows df)).
  { unfold select_dtypes; cbn [rows]. apply map_ext. intros r.
    apply (mask_filter_combine _ _
             (fun c => str_in (dtype_name (snd c)) numerics)). }
  split; [exact Hin|]. split; [exact Hsch|]. split; [|split; [exact Hrows|]].
  - intros c _ Hd Hc. apply Hin in Hc. destruct Hc as [_ Hr].
    unfold retained_dtype in Hr. simpl in Hd.
    decompose [or] Hd; decompose [or] Hr; congruence.
  - intros w a s p s' Hdf H.
    apply prepare_ok_inv in H.
    destruct H as (df0 & sampled & labels & features & y & idx & A1 & A2 & A3
                   & A4 & A5 & A6 & A7 & A8 & A9 & A10 & A11 & A12 & A13
                   & A14 & A15 & A16 & A17 & P2 & R2 & T2).
    assert (df0 = df) by congruence. subst df0.
    destruct (frame_sample_rows _ _ _ _ A3) as [Hs Hincl].
    unfold drop in A6.
    destruct (get_loc (label_column a) (columns sampled)) as [loc|] eqn:Hloc;
      [|discriminate].
    inversion A6; subst features; clear A6. cbn [rows] in *.
    exists loc, (map (delete loc) (rows sampled)), y.
    split; [rewrite A16; unfold columns; now rewrite Hsch|].
    split; [rewrite A16; unfold columns in *; now rewrite <- Hs|].
    split; [rewrite T2, in_app_iff; cbn [In]; tauto|].
    split; [now apply take_incl in A9|].
    split; [now apply take_incl in A10|].
    intros x Hx. apply in_map_iff in Hx. destruct Hx as (r0 & <- & Hr0).
    apply Hincl in Hr0. rewrite Hrows in Hr0. apply in_map_iff in Hr0.
    destruct Hr0 as (r & <- & Hr). eauto.
Qed.

Lemma build_and_fit_ok_inv :
  forall a p s m s',
    build_and_fit a p s = (Ok m, s') ->
    exists cfg cls m0,
      gen_sklearn_model (model_pkg_class a) (parameters a) = Ok cfg /\
      create_class (META_class cfg) = Ok cls /\
      construct cls (CLASS cfg) = Ok m0 /\
      let kw := dict_update (FIT cfg)
                  [("X", KwMatrix (X_train_transformed p));
                   ("y", KwVector (y_train p))] in
      estimator_fit m0 kw = Ok m /\
      plt s' = plt s /\ results s' = results s /\
      trace s' = trace s ++ [BackendEnter "dask"; EstimatorFit kw; BackendExit].
Proof.
  intros a p s m s' H.
  unfold build_and_fit, with_backend, bind, lift, emit, ret in H.
  crunch H.
  inversion H; subst; clear H.
  do 3 eexists. cbn [plt results trace snd].
  repeat (split; [eassumption || reflexivity|]).
  rewrite <- !app_assoc. reflexivity.
Qed.

Lemma benign_ret : forall A P (a : A), benign P (ret a).
Proof.
  intros A P a s. exists a, s, []. rewrite app_nil_r. auto.
Qed.

Lemma benign_log_results :
  forall (P : event -> bool) kv,
    P (LogResults kv) = true -> benign P (log_results kv).
Proof.
  intros P kv H s. do 2 eexists. exists [LogResults kv].
  unfold log_results. simpl. rewrite H. auto.
Qed.

Lemma benign_bind :
  forall A B P (c : M A) (k : A -> M B),
    benign P c -> (forall a, benign P (k a)) -> benign P (bind c k).
Proof.
  intros * Hc Hk s.
  destruct (Hc s) as (a & s1 & t1 & E1 & P1 & T1 & F1).
  destruct (Hk a s1) as (b & s2 & t2 & E2 & P2 & T2 & F2).
  exists b, s2, (t1 ++ t2). step_ok E1.
  rewrite E2, P2, P1, T2, T1, app_assoc, forallb_app, F1, F2. auto.
Qed.

Lemma benign_for_ :
  forall A P (l : list A) (body : A -> M unit),
    (forall x, benign P (body x)) -> benign P (for_ l body).
Proof.
  intros * H; induction l as [|x l IH]; simpl.
  - apply benign_ret.
  - apply benign_bind; auto.
Qed.

Lemma report_body_ok :
  forall r model cls Xtr ytr Xte yte extra v s,
    generate r model cls None Xtr ytr Xte yte = Ok v ->
    exists s' t,
      report_body model cls Xtr ytr Xte yte extra r s =
        (Ok (dict_set extra (report_str r)
                      (mkPlot (report_name r) [r] (report_name r))), s') /\
      plt s' = [r] /\
      trace s' = trace s ++ report_events r Xtr ytr Xte yte ++ t /\
      forallb is_log_results t = true.
Proof.
  intros r model cls Xtr ytr Xte yte extra v s Hg.
  unfold generate in Hg.
  destruct (viz_new r model cls None) as [v1|] eqn:E1; [|discriminate].
  destruct (viz_fit v1 Xtr ytr) as [v2|] eqn:E2; [|discriminate].
  assert (Hb : benign is_log_results
                 (if String.eqb (report_name r) "ROCAUC" then
                    log_results [("micro", dict_get (viz_roc_auc v) "micro");
                                 ("macro", dict_get (viz_roc_auc v) "macro")]
                  else if String.eqb (report_name r) "ClassificationReport"
                  then
                    for_ (viz_scores v) (fun sc =>
                      for_ (snd sc) (fun cl =>
                        log_results
                          [(String.append (fst sc)
                              (String.append "-" (fst cl)),
                            dict_get (snd sc) (fst cl))]))
                  else ret tt)).
  { destruct r; simpl.
    - now apply benign_log_results.
    - apply benign_for_; intros sc. apply benign_for_; intros cl.
      now apply benign_log_results.
    - apply benign_ret.
    - apply benign_ret. }
  unfold report_body.
  unfold bind at 1, plt_clear at 1. cbn iota.
  unfold bind at 1, get_fig at 1. cbn iota. cbn [plt].
  unfold bind at 1, emit at 1. cbn iota. cbn [plt results trace].
  unfold bind at 1, lift at 1. rewrite E1. cbn iota.
  unfold bind at 1, emit at 1. cbn iota. cbn [plt results trace].
  unfold bind at 1, lift at 1. rewrite E2. cbn iota.
  unfold bind at 1, emit at 1. cbn iota. cbn [plt results trace].
  unfold bind at 1, lift at 1. rewrite Hg. cbn iota.
  unfold bind at 1, draw at 1. cbn iota. cbn [plt results trace].
  unfold bind at 1, get_fig at 1. cbn iota. cbn [plt].
  unfold bind at 1, emit at 1. cbn iota. cbn [plt results trace].
  match goal with
  | |- context [bind _ _ ?s0] =>
      destruct (Hb s0) as (u & s1 & t & Eb & Pb & Tb & Fb)
  end.
  step_ok Eb. unfold ret.
  exists s1, t. repeat split; auto.
  rewrite Tb. cbn [trace]. unfold report_events.
  rewrite <- !app_assoc. reflexivity.
Qed.

Lemma report_body_emits :
  forall r model cls Xtr ytr Xte yte extra,
    emits_only (of_report r)
               (report_body model cls Xtr ytr Xte yte extra r).
Proof.
  intros r model cls Xtr ytr Xte yte extra.
  unfold report_body; destruct r; cbn [report_name String.eqb Ascii.eqb
                                         Bool.eqb]; emits.
Qed.

Lemma report_body_raise :
  forall r model cls Xtr ytr Xte yte extra e s,
    generate r model cls None Xtr ytr Xte yte = Raise e ->
    fst (report_body model cls Xtr ytr Xte yte extra r s) = Raise e.
Proof.
  intros r model cls Xtr ytr Xte yte extra e s Hg.
  unfold generate in Hg.
  unfold report_body, bind, plt_clear, get_fig, emit, lift.
  cbn [plt results trace].
  destruct (viz_new r model cls None) as [v1|]; [|now inversion Hg].
  destruct (viz_fit v1 Xtr ytr) as [v2|]; [|now inversion Hg].
  now rewrite Hg.
Qed.

Lemma report_body_ok_inv :
  forall r model cls Xtr ytr Xte yte extra x s s',
    report_body model cls Xtr ytr Xte yte extra r s = (Ok x, s') ->
    exists v t,
      generate r model cls None Xtr ytr Xte yte = Ok v /\
      x = dict_set extra (report_str r)
                   (mkPlot (report_name r) [r] (report_name r)) /\
      plt s' = [r] /\
      trace s' = trace s ++ report_events r Xtr ytr Xte yte ++ t /\
      forallb is_log_results t = true.
Proof.
  intros r model cls Xtr ytr Xte yte extra x s s' H.
  destruct (generate r model cls None Xtr ytr Xte yte) as [v|e] eqn:Hg.
  - destruct (report_body_ok r model cls Xtr ytr Xte yte extra v s Hg)
      as (s1 & t & E & Hp & Ht & Hf).
    rewrite E in H. inversion H; subst. eauto 10.
  - apply (report_body_raise r model cls Xtr ytr Xte yte extra e s) in Hg.
    rewrite H in Hg. discriminate.
Qed.

Lemma evaluate_ok_inv :
  forall a p model s x s',
    evaluate a p model s = (Ok x, s') ->
    exists t1 t2 t3,
      forallb is_log_results t1 = true /\
      forallb is_log_results t2 = true /\
      forallb is_log_results t3 = true /\
      (forall r, exists v, generate_in a p model r = Ok v) /\
      x = extra_data_of_run /\
      plt s' = [] /\
      trace s' = trace s ++ evaluate_events p t1 t2 t3.
Proof.
  intros a p model s x s' H.
  unfold evaluate in H. cbn [for_acc] in H.
  unfold info in H.
  apply bind_inv_ok in H. destruct H as ([] & s0 & H0 & H).
  unfold emit in H0. inversion H0; subst s0; clear H0.
  apply bind_inv_ok in H. destruct H as (x3 & s3 & H & HF).
  apply bind_inv_ok in H. destruct H as (x1 & s1 & H1 & H).
  apply bind_inv_ok in H. destruct H as (x2 & s2 & H2 & H).
  apply bind_inv_ok in H. destruct H as (x3' & s3' & H3 & H).
  unfold ret in H. inversion H; subst x3' s3'; clear H.
  apply report_body_ok_inv in H1.
  destruct H1 as (v1 & t1 & G1 & X1 & P1 & T1 & F1).
  apply report_body_ok_inv in H2.
  destruct H2 as (v2 & t2 & G2 & X2 & P2 & T2 & F2).
  apply report_body_ok_inv in H3.
  destruct H3 as (v3 & t3 & G3 & X3 & P3 & T3 & F3).
  unfold bind, lift, get_fig, emit, draw, plt_clear, ret in HF.
  crunch HF. inversion HF; subst x s'; clear HF.
  exists t1, t2, t3. cbn [plt results trace].
  repeat (split; [assumption|]).
  split; [|split; [|split]].
  - intros r. unfold generate_in, report_labels.
    destruct r; eauto.
    rewrite E. unfold generate. rewrite E0, E1, E2. eauto.
  - subst x3 x2 x1. rewrite P3. reflexivity.
  - reflexivity.
  - rewrite P3, T3, T2, T1. cbn [trace]. unfold evaluate_events.
    rewrite <- !app_assoc. reflexivity.
Qed.

Lemma setup_client_state :
  forall a s,
    plt (snd (setup_client a s)) = plt s /\
    results (snd (setup_client a s)) = results s /\
    trace (snd (setup_client a s)) = trace s ++ setup_events a.
Proof.
  intros a s. unfold setup_client, setup_events.
  destruct (truthy_str (dask_function a)) as [url|].
  - unfold bind, emit, lift. simpl. auto.
  - destruct (dask_client a); simpl; rewrite app_nil_r; auto.
Qed.

Lemma log_artifacts_ok :
  forall a p model extra s data held_out,
    column_stack (X_test p) (y_test p) = Ok data ->
    DataFrame data (df_header p) = Ok held_out ->
    log_artifacts a p model extra s =
      (Ok tt, mkState (plt s) (results s)
                (trace s ++ log_events a p model extra (results s) held_out)).
Proof.
  intros a p model extra s data held_out Hc Hd.
  unfold log_artifacts, info, bind, emit, get_results, lift.
  cbn [plt results trace]. rewrite Hc, Hd.
  unfold log_events. rewrite <- !app_assoc. reflexivity.
Qed.

Lemma log_artifacts_ok_inv :
  forall a p model extra s s',
    log_artifacts a p model extra s = (Ok tt, s') ->
    exists data held_out,
      column_stack (X_test p) (y_test p) = Ok data /\
      DataFrame data (df_header p) = Ok held_out /\
      s' = mkState (plt s) (results s)
             (trace s ++ log_events a p model extra (results s) held_out).
Proof.
  intros a p model extra s s' H.
  destruct (column_stack (X_test p) (y_test p)) as [data|e] eqn:Hc.
  - destruct (DataFrame data (df_header p)) as [held|e] eqn:Hd.
    + rewrite (log_artifacts_ok a p model extra s data held Hc Hd) in H.
      inversion H; eauto.
    + unfold log_artifacts, info, bind, emit, get_results, lift in H.
      cbn [plt results trace] in H. rewrite Hc, Hd in H. discriminate.
  - unfold log_artifacts, info, bind, emit, get_results, lift in H.
    cbn [plt results trace] in H. rewrite Hc in H. discriminate.
Qed.

Lemma train_model_ok_inv :
  forall w a s s',
    train_model w a s = (Ok tt, s') ->
    exists c s1 p s2 model s3 s4,
      setup_client a s = (Ok c, s1) /\
      prepare w a s1 = (Ok p, s2) /\
      build_and_fit a p s2 = (Ok model, s3) /\
      evaluate a p model s3 = (Ok extra_data_of_run, s4) /\
      log_artifacts a p model extra_data_of_run s4 = (Ok tt, s').
Proof.
  intros w a s s' H. unfold train_model in H.
  apply bind_inv_ok in H. destruct H as (c & s1 & H1 & H).
  apply bind_inv_ok in H. destruct H as (p & s2 & H2 & H).
  apply bind_inv_ok in H. destruct H as (m & s3 & H3 & H).
  apply bind_inv_ok in H. destruct H as (x & s4 & H4 & H).
  destruct (evaluate_ok_inv _ _ _ _ _ _ H4) as (t1 & t2 & t3 & _ & _ & _ & _ & X & _).
  subst x. eauto 12.
Qed.

(** Everything a successful run went through, and its whole trace. *)
Lemma train_model_ok_trace :
  forall w a s',
    train_model w a initial_state = (Ok tt, s') ->
    exists df0 sampled labels features y idx p cfg cls m0 model
           t1 t2 t3 data held_out metrics,
      as_df (dataset a) = Ok df0 /\
      isna_any_any (select_dtypes numerics df0) = false /\
      frame_sample w (sample a) (select_dtypes numerics df0) = Ok sampled /\
      getitem sampled (label_column a) = Ok labels /\
      encoder_fit labels = Ok (encoder p) /\
      drop sampled (label_column a) = Ok features /\
      encoder_transform (encoder p) labels = Ok y /\
      train_test_split (List.length (rows features))
        (train_validation_size a) (random_state a) = Ok idx /\
      take (fst idx) (rows features) = Ok (X_train p) /\
      take (snd idx) (rows features) = Ok (X_test p) /\
      take (fst idx) y = Ok (y_train p) /\
      take (snd idx) y = Ok (y_test p) /\
      scaler_fit (X_train p) = Ok (scaler p) /\
      scaler_transform (scaler p) (X_train p) = Ok (X_train_transformed p) /\
      scaler_transform (scaler p) (X_test p) = Ok (X_test_transformed p) /\
      df_header p = columns (select_dtypes numerics df0) /\
      classes p = map str_label (drop_duplicates labels) /\
      gen_sklearn_model (model_pkg_class a) (parameters a) = Ok cfg /\
      create_class (META_class cfg) = Ok cls /\
      construct cls (CLASS cfg) = Ok m0 /\
      estimator_fit m0 (fit_kwargs cfg p) = Ok model /\
      (forall r, exists v, generate_in a p model r = Ok v) /\
      forallb is_log_results t1 = true /\
      forallb is_log_results t2 = true /\
      forallb is_log_results t3 = true /\
      column_stack (X_test p) (y_test p) = Ok data /\
      DataFrame data (df_header p) = Ok held_out /\
      plt s' = [] /\
      results s' = metrics /\
      trace s' =
        setup_events a
        ++ prepare_events a p labels (rows features) y
        ++ fit_events (fit_kwargs cfg p)
        ++ evaluate_events p t1 t2 t3
        ++ log_events a p model extra_data_of_run metrics held_out.
Proof.
  intros w a s' H.
  apply train_model_ok_inv in H.
  destruct H as (c & s1 & p & s2 & model & s3 & s4 & H1 & H2 & H3 & H4 & H5).
  destruct (setup_client_state a initial_state) as (P1 & R1 & T1).
  rewrite H1 in P1, R1, T1. cbn [snd] in P1, R1, T1.
  apply prepare_ok_inv in H2.
  destruct H2 as (df0 & sampled & labels & features & y & idx & A1 & A2 & A3
                  & A4 & A5 & A6 & A7 & A8 & A9 & A10 & A11 & A12 & A13
                  & A14 & A15 & A16 & A17 & P2 & R2 & T2).
  apply build_and_fit_ok_inv in H3.
  destruct H3 as (cfg & cls & m0 & B1 & B2 & B3 & B4 & P3 & R3 & T3).
  apply evaluate_ok_inv in H4.
  destruct H4 as (t1 & t2 & t3 & F1 & F2 & F3 & G & _ & P4 & T4).
  apply log_artifacts_ok_inv in H5.
  destruct H5 as (data & held & D1 & D2 & E).
  exists df0, sampled, labels, features, y, idx, p, cfg, cls, m0, model,
    t1, t2, t3, data, held, (results s4).
  repeat (split; [assumption|]).
  subst s'. cbn [plt results trace].
  split; [assumption|]. split; [reflexivity|].
  rewrite T4, T3, T2, T1. cbn [trace initial_state app].
  unfold prepare_events, fit_events, fit_kwargs.
  rewrite <- !app_assoc. reflexivity.
Qed.

(** ** The drawing surface *)

Lemma not_in_log_results :
  forall t ev,
    forallb is_log_results t = true -> In ev t -> is_log_results ev = true.
Proof. intros t ev F H. rewrite forallb_forall in F. auto. Qed.

Ltac split_in H :=
  unfold setup_events, prepare_events, fit_events, evaluate_events,
    report_events, log_events in H;
  repeat rewrite in_app_iff in H; cbn [In] in H.

Ltac absurd_in :=
  match goal with
  | F : forallb is_log_results ?t = true, H : In _ ?t |- _ =>
      apply (not_in_log_results _ _ F) in H; discriminate H
  | H : False |- _ => contradiction
  | H : _ = _ |- _ => discriminate H
  end.

(** C6: in every successful run the three looped reports are created on
    a cleared surface, but feature importance is created on the surface
    that still holds the confusion matrix: no reset separates the two, and
    the logged feature-importance figure carries both drawings. *)
Theorem feature_importances_on_uncleared_surface :
  forall (w : World) (a : arguments) (s' : state),
    train_model w a initial_state = (Ok tt, s') ->
    (forall r before, In (VizNew r before) (trace s') ->
       before = match r with
                | FeatureImportances => [ConfusionMatrix]
                | _ => []
                end) /\
    In (VizNew FeatureImportances [ConfusionMatrix]) (trace s') /\
    In (LogPlot (plot_of FeatureImportances
                         [ConfusionMatrix; FeatureImportances])) (trace s').
Proof.
  intros w a s' H.
  apply train_model_ok_trace in H.
  destruct H as (df0 & sampled & labels & features & y & idx & p & cfg & cls
                 & m0 & model & t1 & t2 & t3 & data & held & metrics & H).
  decompose [and] H; clear H.
  match goal with T : trace s' = _ |- _ => rewrite T end.
  split; [|split].
  - intros r before Hin. split_in Hin.
    destruct (truthy_str (dask_function a)); cbn [In] in Hin;
      decompose [or] Hin; try absurd_in;
      match goal with E : VizNew _ _ = VizNew _ _ |- _ =>
        inversion E; subst; reflexivity end.
  - unfold evaluate_events. rewrite !in_app_iff. cbn [In]. tauto.
  - unfold evaluate_events. rewrite !in_app_iff. cbn [In]. tauto.
Qed.

(** ** The held-out dataset *)

Lemma dict_get_set_same :
  forall V (d : list (string * V)) k v, dict_get (dict_set d k v) k = Some v.
Proof.
  intros V d k v; induction d as [|[k' v'] d IH]; simpl.
  - now rewrite String.eqb_refl.
  - destruct (String.eqb k k') eqn:E; simpl.
    + now rewrite String.eqb_refl.
    + now rewrite E.
Qed.

Lemma dict_get_set_other :
  forall V (d : list (string * V)) k k' v,
    String.eqb k' k = false ->
    dict_get (dict_set d k v) k' = dict_get d k'.
Proof.
  intros V d k k' v Hk; induction d as [|[k0 v0] d IH]; simpl.
  - now rewrite Hk.
  - destruct (String.eqb k k0) eqn:E; simpl.
    + apply String.eqb_eq in E; subst k0. now rewrite Hk.
    + destruct (String.eqb k' k0); auto.
Qed.

Lemma fit_kwargs_X :
  forall cfg p,
    dict_get (fit_kwargs cfg p) "X" = Some (KwMatrix (X_train_transformed p)).
Proof.
  intros cfg p. unfold fit_kwargs, dict_update. cbn [fold_left fst snd].
  rewrite dict_get_set_other by reflexivity.
  apply dict_get_set_same.
Qed.

Lemma DataFrame_ok_inv :
  forall data cols t,
    DataFrame data cols = Ok t -> tdata t = data /\ tcolumns t = cols.
Proof.
  intros data cols t. unfold DataFrame.
  match goal with |- context [forallb ?f ?d] => destruct (forallb f d) end;
    intros D; inversion D; auto.
Qed.

Lemma take_ok_map :
  forall A (l : list A) idx r d,
    take idx l = Ok r -> r = map (fun i => nth i l d) idx.
Proof.
  intros A l idx; induction idx as [|i idx IH]; intros r d H; simpl in H.
  - now inversion H.
  - destruct (nth_error l i) as [x|] eqn:E; [|discriminate].
    destruct (take idx l) as [xs|]; [|discriminate].
    inversion H; subst. simpl. rewrite (IH xs d eq_refl).
    now rewrite (nth_error_nth l i d E).
Qed.

Lemma column_stack_map :
  forall (f : nat -> row) (g : nat -> Z) idx,
    column_stack (map f idx) (map g idx) =
      Ok (map (fun i => f i ++ [Num (g i)]) idx).
Proof.
  intros f g idx; induction idx as [|i idx IH]; simpl; [reflexivity|].
  now rewrite IH.
Qed.

(** C9: in every successful run the estimator is fitted on the
    scaler-transformed train partition and the reports are scored on the
    scaler-transformed test partition, while the held-out dataset artifact
    is built from the test partition as the splitter returned it, before
    any scaling, stacked with its labels under the header of the numeric
    frame: its row for test position [i] is row [i] of the unscaled feature
    matrix followed by the label code of row [i].  It is the only dataset
    the run logs. *)
Theorem held_out_dataset_is_unscaled :
  forall (w : World) (a : arguments) (s' : state),
    train_model w a initial_state = (Ok tt, s') ->
    exists df0 X y idx X_train X_test y_train y_test sc
           X_train_transformed X_test_transformed kw held_out,
      In (TrainTestSplit X y (train_validation_size a) (random_state a))
         (trace s') /\
      train_test_split (List.length X) (train_validation_size a)
                       (random_state a) = Ok idx /\
      take (fst idx) X = Ok X_train /\
      take (snd idx) X = Ok X_test /\
      take (fst idx) y = Ok y_train /\
      take (snd idx) y = Ok y_test /\
      scaler_fit X_train = Ok sc /\
      scaler_transform sc X_train = Ok X_train_transformed /\
      scaler_transform sc X_test = Ok X_test_transformed /\
      In (EstimatorFit kw) (trace s') /\
      dict_get kw "X" = Some (KwMatrix X_train_transformed) /\
      (forall r, In (VizScore r X_test_transformed y_test) (trace s')) /\
      In (LogDataset (test_set_key a) held_out (file_ext a)
                     [("data-type", "held-out")] (artifact_subpath "data"))
         (trace s') /\
      column_stack X_test y_test = Ok (tdata held_out) /\
      as_df (dataset a) = Ok df0 /\
      tcolumns held_out = columns (select_dtypes numerics df0) /\
      (forall key df fmt labels path,
          In (LogDataset key df fmt labels path) (trace s') ->
          df = held_out) /\
      X_test = map (fun i => nth i X []) (snd idx) /\
      tdata held_out =
        map (fun i => nth i X [] ++ [Num (nth i y 0%Z)]) (snd idx).
Proof.
  intros w a s' H.
  apply train_model_ok_trace in H.
  destruct H as (df0 & sampled & labels & features & y & idx & p & cfg & cls
                 & m0 & model & t1 & t2 & t3 & data & held & metrics & H).
  decompose [and] H; clear H.
  exists df0, (rows features), y, idx, (X_train p), (X_test p), (y_train p),
    (y_test p), (scaler p), (X_train_transformed p), (X_test_transformed p),
    (fit_kwargs cfg p), held.
  match goal with T : trace s' = _ |- _ => rewrite T end.
  assert (Hd : tdata held = data /\ tcolumns held = df_header p).
  { now apply DataFrame_ok_inv. }
  destruct Hd as [Hd1 Hd2].
  split.
  { unfold prepare_events. rewrite !in_app_iff. cbn [In]. tauto. }
  repeat (split; [assumption|]).
  split.
  { unfold fit_events. rewrite !in_app_iff. cbn [In]. tauto. }
  split; [apply fit_kwargs_X|].
  split.
  { intros r. unfold evaluate_events, report_events.
    rewrite !in_app_iff. cbn [In]. destruct r; tauto. }
  split.
  { unfold log_events. rewrite !in_app_iff. cbn [In]. tauto. }
  split; [now rewrite Hd1|].
  split; [assumption|].
  split; [rewrite Hd2; assumption|].
  split.
  { intros key df fmt lbls path Hin. split_in Hin.
    destruct (truthy_str (dask_function a)); cbn [In] in Hin;
      decompose [or] Hin; try absurd_in;
      match goal with E : LogDataset _ _ _ _ _ = LogDataset _ _ _ _ _ |- _ =>
        inversion E; subst; reflexivity end. }
  match goal with T : take (snd idx) (rows features) = Ok (X_test p) |- _ =>
    pose proof (take_ok_map _ _ _ _ [] T) as HX end.
  match goal with T : take (snd idx) y = Ok (y_test p) |- _ =>
    pose proof (take_ok_map _ _ _ _ 0%Z T) as Hy end.
  split; [exact HX|].
  rewrite Hd1.
  match goal with Cs : column_stack _ _ = Ok data |- _ =>
    rewrite HX, Hy in Cs;
    rewrite (column_stack_map (fun i => nth i (rows features) [])
                              (fun i => nth i y 0%Z)) in Cs;
    now inversion Cs end.
Qed.

(** ** A failing report *)

Lemma report_body_cases :
  forall r model cls Xtr ytr Xte yte extra s,
    (exists v s' t,
        generate r model cls None Xtr ytr Xte yte = Ok v /\
        report_body model cls Xtr ytr Xte yte extra r s =
          (Ok (dict_set extra (report_str r)
                        (mkPlot (report_name r) [r] (report_name r))), s') /\
        trace s' = trace s ++ report_events r Xtr ytr Xte yte ++ t /\
        forallb is_log_results t = true) \/
    (exists e s' t,
        generate r model cls None Xtr ytr Xte yte = Raise e /\
        report_body model cls Xtr ytr Xte yte extra r s = (Raise e, s') /\
        trace s' = trace s ++ t /\
        forallb (attempt_of r) t = true).
Proof.
  intros r model cls Xtr ytr Xte yte extra s.
  destruct (generate r model cls None Xtr ytr Xte yte) as [v|e] eqn:Hg.
  - left.
    destruct (report_body_ok r model cls Xtr ytr Xte yte extra v s Hg)
      as (s' & t & E & _ & T & F).
    exists v, s', t. auto.
  - right. exists e.
    unfold generate in Hg.
    unfold report_body, bind, plt_clear, get_fig, emit, lift.
    cbn [plt results trace].
    destruct (viz_new r model cls None) as [v1|e1].
    + destruct (viz_fit v1 Xtr ytr) as [v2|e2].
      * rewrite Hg. do 2 eexists. split; [reflexivity|].
        split; [reflexivity|]. cbn [trace]. rewrite <- !app_assoc.
        split; [reflexivity|]. cbn. rewrite !Nat.eqb_refl. reflexivity.
      * inversion Hg; subst. do 2 eexists. split; [reflexivity|].
        split; [reflexivity|]. cbn [trace]. rewrite <- !app_assoc.
        split; [reflexivity|]. cbn. rewrite !Nat.eqb_refl. reflexivity.
    + inversion Hg; subst. do 2 eexists. split; [reflexivity|].
      split; [reflexivity|]. cbn [trace]. rewrite <- !app_assoc.
      split; [reflexivity|]. cbn. rewrite !Nat.eqb_refl. reflexivity.
Qed.

Lemma forallb_In :
  forall (P : event -> bool) t ev,
    forallb P t = true -> In ev t -> P ev = true.
Proof. intros P t ev F H. rewrite forallb_forall in F. auto. Qed.

Ltac event_facts :=
  repeat match goal with
         | F : forallb ?Q ?t = true, H : In ?ev ?t |- _ =>
             apply (forallb_In Q t ev F) in H
         end.

Ltac by_event ev :=
  destruct ev; try discriminate; try reflexivity;
  repeat match goal with
         | r : report |- _ => destruct r; try discriminate; try reflexivity
         end.

Lemma forallb_weaken :
  forall (P Q : event -> bool) t,
    (forall ev, P ev = true -> Q ev = true) ->
    forallb P t = true -> forallb Q t = true.
Proof.
  intros P Q t H F. rewrite forallb_forall in *. auto.
Qed.

Lemma bind_assoc :
  forall A B D (c : M A) (f : A -> M B) (g : B -> M D) s,
    bind (bind c f) g s = bind c (fun x => bind (f x) g) s.
Proof.
  intros. unfold bind. destruct (c s) as [[x|e] s1]; reflexivity.
Qed.

Lemma stops_bind_l :
  forall A B P (c : M A) (k : A -> M B) s,
    stops P c s -> stops P (bind c k) s.
Proof.
  intros * (e & s' & t & E & T & F).
  exists e, s', t. split; [now apply bind_raise|auto].
Qed.

Lemma stops_bind_r :
  forall A B P (c : M A) (k : A -> M B) s x s1 t1,
    c s = (Ok x, s1) -> trace s1 = trace s ++ t1 -> forallb P t1 = true ->
    stops P (k x) s1 -> stops P (bind c k) s.
Proof.
  intros * E1 T1 F1 (e & s' & t & E & T & F).
  exists e, s', (t1 ++ t). split; [|split].
  - step_ok E1. exact E.
  - now rewrite T, T1, app_assoc.
  - now rewrite forallb_app, F1, F.
Qed.

Lemma stops_raise :
  forall A P e s, stops P (@raise _ A e) s.
Proof.
  intros. exists e, s, []. rewrite app_nil_r. auto.
Qed.

Lemma stops_assoc :
  forall A B D P (c : M A) (f : A -> M B) (g : B -> M D) s,
    stops P (bind c (fun x => bind (f x) g)) s ->
    stops P (bind (bind c f) g) s.
Proof.
  intros * (e & s' & t & E & T & F).
  exists e, s', t. rewrite bind_assoc. auto.
Qed.

Lemma stops_ret_bind :
  forall A B P (x : A) (k : A -> M B) s,
    stops P (k x) s -> stops P (bind (ret x) k) s.
Proof. intros * H. exact H. Qed.

Ltac looped_report R :=
  cbv beta; apply stops_assoc;
  match goal with
  | |- stops _ (bind (report_body ?m ?cls ?Xtr ?ytr ?Xte ?yte ?extra R) _) ?s0 =>
      let v := fresh "v" in let s1 := fresh "s" in let t := fresh "t" in
      let G := fresh "G" in let E := fresh "E" in
      let T := fresh "T" in let F := fresh "F" in
      destruct (report_body_cases R m cls Xtr ytr Xte yte extra s0)
        as [(v & s1 & t & G & E & T & F)|(v & s1 & t & G & E & T & F)];
      [ try (exfalso; congruence);
        try (eapply stops_bind_r;
             [ exact E | exact T
             | rewrite forallb_app; apply andb_true_intro; split;
               [ reflexivity
               | revert F; apply forallb_weaken;
                 let ev := fresh "ev" in intros ev; by_event ev ]
             | cbv beta ])
      | apply stops_bind_l; exists v, s1, t;
        split; [exact E|split; [exact T|]];
        revert F; apply forallb_weaken;
        let ev := fresh "ev" in intros ev; by_event ev ]
  end.

(** The evaluation stage stops inside a failing report. *)
Lemma evaluate_stops_at :
  forall a p model r e s,
    generate_in a p model r = Raise e ->
    stops (not_past r) (evaluate a p model) s.
Proof.
  intros a p model r e s Hg.
  unfold generate_in, report_labels in Hg.
  unfold evaluate. cbn [for_acc]. unfold info.
  eapply stops_bind_r;
    [reflexivity|cbn [trace]; reflexivity|destruct r; reflexivity|].
  destruct r.
  - looped_report ROCAUC.
  - looped_report ROCAUC. looped_report ClassificationReport.
  - looped_report ROCAUC. looped_report ClassificationReport.
    looped_report ConfusionMatrix.
  - looped_report ROCAUC. looped_report ClassificationReport.
    looped_report ConfusionMatrix.
    cbv beta. apply stops_ret_bind.
    unfold generate in Hg.
    unfold stops, bind, lift, get_fig, emit, draw, plt_clear, ret.
    cbn [plt results trace].
    destruct (get_loc (label_column a) (df_header p)) as [loc|e0].
    2:{ exists e0, s2, []. rewrite app_nil_r. auto. }
    destruct (viz_new FeatureImportances model (classes p)
                      (Some (delete loc (df_header p)))) as [v2|e2].
    2:{ do 3 eexists. split; [reflexivity|]. cbn [trace].
        split; reflexivity. }
    destruct (viz_fit v2 (X_train_transformed p) (y_train p)) as [v3|e3].
    2:{ do 3 eexists. split; [reflexivity|]. cbn [trace].
        rewrite <- !app_assoc. split; reflexivity. }
    rewrite Hg.
    do 3 eexists. split; [reflexivity|]. cbn [trace].
    rewrite <- !app_assoc. split; reflexivity.
Qed.

Lemma filter_writes_log_results :
  forall t,
    forallb is_log_results t = true -> filter is_artifact_write t = [].
Proof.
  induction t as [|ev t IH]; simpl; [reflexivity|].
  intros H. apply andb_prop in H. destruct H as [H1 H2].
  destruct ev; try discriminate H1. simpl. auto.
Qed.

Lemma started_log_results :
  forall t,
    forallb is_log_results t = true ->
    flat_map (fun ev => match ev with VizNew r _ => [r] | _ => [] end) t = [].
Proof.
  induction t as [|ev t IH]; simpl; [reflexivity|].
  intros H. apply andb_prop in H. destruct H as [H1 H2].
  destruct ev; try discriminate H1. simpl. auto.
Qed.

(** What a looped report that succeeds adds to the artifact store and to
    the list of started reports... *)
Lemma report_body_ok_observed :
  forall r model cls Xtr ytr Xte yte extra v s,
    generate r model cls None Xtr ytr Xte yte = Ok v ->
    exists s',
      report_body model cls Xtr ytr Xte yte extra r s =
        (Ok (dict_set extra (report_str r)
                      (mkPlot (report_name r) [r] (report_name r))), s') /\
      artifact_writes s' = artifact_writes s ++ [LogPlot (plot_of r [r])] /\
      started_reports s' = started_reports s ++ [r].
Proof.
  intros r model cls Xtr ytr Xte yte extra v s Hg.
  destruct (report_body_ok r model cls Xtr ytr Xte yte extra v s Hg)
    as (s' & t & E & _ & T & F).
  exists s'. split; [exact E|].
  unfold artifact_writes, started_reports. rewrite T.
  rewrite !filter_app, !flat_map_app.
  rewrite (filter_writes_log_results t F), (started_log_results t F).
  rewrite !app_nil_r. split; reflexivity.
Qed.

(** ... and what one that raises adds: it has been started, nothing of it
    is written. *)
Lemma report_body_raise_observed :
  forall r model cls Xtr ytr Xte yte extra e s,
    generate r model cls None Xtr ytr Xte yte = Raise e ->
    exists s',
      report_body model cls Xtr ytr Xte yte extra r s = (Raise e, s') /\
      artifact_writes s' = artifact_writes s /\
      started_reports s' = started_reports s ++ [r].
Proof.
  intros r model cls Xtr ytr Xte yte extra e s Hg.
  unfold generate in Hg.
  unfold report_body, bind, plt_clear, get_fig, emit, lift.
  cbn [plt results trace].
  unfold artifact_writes, started_reports.
  destruct (viz_new r model cls None) as [v1|e1].
  - destruct (viz_fit v1 Xtr ytr) as [v2|e2].
    + rewrite Hg. eexists. split; [reflexivity|]. cbn [trace].
      rewrite !filter_app, !flat_map_app. cbn. rewrite !app_nil_r.
      split; reflexivity.
    + inversion Hg; subst. eexists. split; [reflexivity|]. cbn [trace].
      rewrite !filter_app, !flat_map_app. cbn. rewrite !app_nil_r.
      split; reflexivity.
  - inversion Hg; subst. eexists. split; [reflexivity|]. cbn [trace].
    rewrite !filter_app, !flat_map_app. cbn. rewrite !app_nil_r.
    split; reflexivity.
Qed.

(** The evaluation stage when report [r] is the first to fail: it raises
    the exception of [r], having started the reports up to [r] and written
    the plots of the reports before [r]. *)
Lemma evaluate_first_failure :
  forall a p model r e s loc,
    get_loc (label_column a) (df_header p) = Ok loc ->
    generate_in a p model r = Raise e ->
    (forall r', (report_index r' < report_index r)%nat ->
                exists v, generate_in a p model r' = Ok v) ->
    exists s',
      evaluate a p model s = (Raise e, s') /\
      artifact_writes s' =
        artifact_writes s ++
        map (fun r' => LogPlot (plot_of r' [r']))
            (firstn (report_index r) all_reports) /\
      started_reports s' =
        started_reports s ++ firstn (S (report_index r)) all_reports.
Proof.
  intros a p model r e s loc Hl Hg Hbefore.
  unfold evaluate. cbn [for_acc]. unfold info.
  unfold bind at 1, emit at 1. cbn iota.
  remember (mkState (plt s) (results s) (trace s ++ [LoggerInfo "Evaluate"]))
    as s0 eqn:Es0.
  assert (W0 : artifact_writes s0 = artifact_writes s).
  { rewrite Es0. unfold artifact_writes. cbn [trace].
    rewrite filter_app. cbn. apply app_nil_r. }
  assert (S0 : started_reports s0 = started_reports s).
  { rewrite Es0. unfold started_reports. cbn [trace].
    rewrite flat_map_app. cbn. apply app_nil_r. }
  clear Es0.
  rewrite !bind_assoc.
  destruct r.
  - (* ROCAUC *)
    unfold generate_in, report_labels in Hg.
    destruct (report_body_raise_observed ROCAUC model (classes p)
                (X_train_transformed p) (y_train p) (X_test_transformed p)
                (y_test p) [] e s0 Hg) as (s1 & E1 & W1 & S1).
    exists s1. step_raise E1.
    rewrite W1, S1, W0, S0. cbn. rewrite app_nil_r. auto.
  - (* ClassificationReport *)
    destruct (Hbefore ROCAUC) as (v1 & G1); [cbn; lia|].
    unfold generate_in, report_labels in Hg, G1.
    destruct (report_body_ok_observed ROCAUC model (classes p)
                (X_train_transformed p) (y_train p) (X_test_transformed p)
                (y_test p) [] v1 s0 G1) as (s1 & E1 & W1 & S1).
    step_ok E1. cbv beta. rewrite !bind_assoc.
    match goal with
    | |- context [report_body _ _ _ _ _ _ ?x ClassificationReport] =>
        destruct (report_body_raise_observed ClassificationReport model
                    (classes p) (X_train_transformed p) (y_train p)
                    (X_test_transformed p) (y_test p) x e s1 Hg)
          as (s2 & E2 & W2 & S2)
    end.
    exists s2. step_raise E2.
    rewrite W2, S2, W1, S1, W0, S0, <- !app_assoc. cbn. auto.
  - (* ConfusionMatrix *)
    destruct (Hbefore ROCAUC) as (v1 & G1); [cbn; lia|].
    destruct (Hbefore ClassificationReport) as (v2 & G2); [cbn; lia|].
    unfold generate_in, report_labels in Hg, G1, G2.
    destruct (report_body_ok_observed ROCAUC model (classes p)
                (X_train_transformed p) (y_train p) (X_test_transformed p)
                (y_test p) [] v1 s0 G1) as (s1 & E1 & W1 & S1).
    step_ok E1. cbv beta. rewrite !bind_assoc.
    match goal with
    | |- context [report_body _ _ _ _ _ _ ?x ClassificationReport] =>
        destruct (report_body_ok_observed ClassificationReport model
                    (classes p) (X_train_transformed p) (y_train p)
                    (X_test_transformed p) (y_test p) x v2 s1 G2)
          as (s2 & E2 & W2 & S2)
    end.
    step_ok E2. cbv beta. rewrite !bind_assoc.
    match goal with
    | |- context [report_body _ _ _ _ _ _ ?x ConfusionMatrix] =>
        destruct (report_body_raise_observed ConfusionMatrix model
                    (classes p) (X_train_transformed p) (y_train p)
                    (X_test_transformed p) (y_test p) x e s2 Hg)
          as (s3 & E3 & W3 & S3)
    end.
    exists s3. step_raise E3.
    rewrite W3, S3, W2, S2, W1, S1, W0, S0, <- !app_assoc. cbn. auto.
  - (* FeatureImportances *)
    destruct (Hbefore ROCAUC) as (v1 & G1); [cbn; lia|].
    destruct (Hbefore ClassificationReport) as (v2 & G2); [cbn; lia|].
    destruct (Hbefore ConfusionMatrix) as (v3 & G3); [cbn; lia|].
    unfold generate_in, report_labels in Hg, G1, G2, G3. rewrite Hl in Hg.
    destruct (report_body_ok_observed ROCAUC model (classes p)
                (X_train_transformed p) (y_train p) (X_test_transformed p)
                (y_test p) [] v1 s0 G1) as (s1 & E1 & W1 & S1).
    step_ok E1. cbv beta. rewrite !bind_assoc.
    match goal with
    | |- context [report_body _ _ _ _ _ _ ?x ClassificationReport] =>
        destruct (report_body_ok_observed ClassificationReport model
                    (classes p) (X_train_transformed p) (y_train p)
                    (X_test_transformed p) (y_test p) x v2 s1 G2)
          as (s2 & E2 & W2 & S2)
    end.
    step_ok E2. cbv beta. rewrite !bind_assoc.
    match goal with
    | |- context [report_body _ _ _ _ _ _ ?x ConfusionMatrix] =>
        destruct (report_body_ok_observed ConfusionMatrix model
                    (classes p) (X_train_transformed p) (y_train p)
                    (X_test_transformed p) (y_test p) x v3 s2 G3)
          as (s3 & E3 & W3 & S3)
    end.
    step_ok E3. cbv beta.
    unfold generate in Hg.
    unfold bind, lift, get_fig, emit, draw, plt_clear, ret.
    cbn [plt results trace]. rewrite Hl.
    unfold artifact_writes, started_reports in *.
    destruct (viz_new FeatureImportances model (classes p)
                      (Some (delete loc (df_header p)))) as [w1|e1].
    + destruct (viz_fit w1 (X_train_transformed p) (y_train p)) as [w2|e2].
      * rewrite Hg. eexists. split; [reflexivity|]. cbn [trace].
        rewrite !filter_app, !flat_map_app, W3, S3, W2, S2, W1, S1, W0, S0,
          <- !app_assoc. cbn. auto.
      * inversion Hg; subst. eexists. split; [reflexivity|]. cbn [trace].
        rewrite !filter_app, !flat_map_app, W3, S3, W2, S2, W1, S1, W0, S0,
          <- !app_assoc. cbn. auto.
    + inversion Hg; subst. eexists. split; [reflexivity|]. cbn [trace].
      rewrite !filter_app, !flat_map_app, W3, S3, W2, S2, W1, S1, W0, S0,
        <- !app_assoc. cbn. auto.
Qed.

(** C4 (as the code has it): a failure raised while generating one report
    kind is not isolated.  Once the run has reached the evaluator with a
    fitted model, if generating report [r] raises, the whole run fails;
    its trace holds no visualizer of a report kind after [r], no plot of
    [r] or of a later kind, and none of the model, scaler, encoder and
    held-out dataset writes.  When the report kinds before [r] completed,
    the run raises the exception of [r], the reports started are those up
    to [r], and the artifact store holds exactly the plots of the kinds
    before [r], each drawn on its own cleared surface: they stay logged. *)
Theorem report_failure_aborts_run :
  forall (w : World) (a : arguments) (r : report) (e : exn)
         (c : Client) (s1 : state) (p : prepared) (s2 : state)
         (model : Estimator) (s3 : state),
    setup_client a initial_state = (Ok c, s1) ->
    prepare w a s1 = (Ok p, s2) ->
    build_and_fit a p s2 = (Ok model, s3) ->
    generate_in a p model r = Raise e ->
    is_ok (fst (train_model w a initial_state)) = false /\
    forallb (not_past r) (trace (snd (train_model w a initial_state)))
      = true /\
    ((forall r', (report_index r' < report_index r)%nat ->
                 exists v, generate_in a p model r' = Ok v) ->
     fst (train_model w a initial_state) = Raise e /\
     started_reports (snd (train_model w a initial_state)) =
       firstn (S (report_index r)) all_reports /\
     artifact_writes (snd (train_model w a initial_state)) =
       map (fun r' => LogPlot (plot_of r' [r']))
           (firstn (report_index r) all_reports)).
Proof.
  intros w a r e c s1 p s2 model s3 H1 H2 H3 Hg.
  destruct (setup_client_state a initial_state) as (_ & _ & T1).
  rewrite H1 in T1. cbn [snd trace initial_state app] in T1.
  assert (Hfirst :
    forallb (not_past r) (trace (snd (train_model w a initial_state)))
      = true /\ is_ok (fst (train_model w a initial_state)) = false).
  { destruct (evaluate_stops_at a p model r e s3 Hg)
      as (e' & s' & t & E & T & F).
    assert (Hrun : train_model w a initial_state = (Raise e', s')).
    { unfold train_model. step_ok H1. step_ok H2. step_ok H3.
      now step_raise E. }
    rewrite Hrun. cbn [fst snd is_ok]. split; [|reflexivity].
    destruct (prepare_emits w a s1) as (t2 & T2 & F2).
    rewrite H2 in T2. cbn [snd] in T2.
    destruct (build_and_fit_emits a p s2) as (t3 & T3 & F3).
    rewrite H3 in T3. cbn [snd] in T3.
    rewrite T, T3, T2, T1, !forallb_app.
    repeat (apply andb_true_intro; split); try assumption.
    - unfold setup_events.
      destruct (truthy_str (dask_function a)); reflexivity.
    - revert F2. apply forallb_weaken. intros ev; destruct ev;
        try discriminate; reflexivity.
    - revert F3. apply forallb_weaken. intros ev; destruct ev;
        try discriminate; reflexivity. }
  destruct Hfirst as [Hpast Hfail].
  split; [exact Hfail|]. split; [exact Hpast|].
  intros Hbefore.
  pose proof (prepare_ok_inv _ _ _ _ _ H2) as Hp.
  destruct Hp as (df0 & sampled & labels & features & y & idx & A1 & A2 & A3
                  & A4 & A5 & A6 & A7 & A8 & A9 & A10 & A11 & A12 & A13
                  & A14 & A15 & A16 & A17 & P2 & R2 & T2).
  pose proof (build_and_fit_ok_inv _ _ _ _ _ H3) as Hb.
  destruct Hb as (cfg & cls & m0 & B1 & B2 & B3 & B4 & P3 & R3 & T3).
  assert (Hloc : exists loc, get_loc (label_column a) (df_header p) = Ok loc).
  { unfold drop in A6. rewrite A16. unfold columns in *.
    rewrite <- (proj1 (frame_sample_rows _ _ _ _ A3)).
    destruct (get_loc (label_column a) (map fst (schema sampled)));
      [eauto|discriminate]. }
  destruct Hloc as (loc & Hloc).
  destruct (evaluate_first_failure a p model r e s3 loc Hloc Hg Hbefore)
    as (s' & E & W & S).
  assert (Hrun : train_model w a initial_state = (Raise e, s')).
  { unfold train_model. step_ok H1. step_ok H2. step_ok H3.
    now step_raise E. }
  rewrite Hrun. cbn [fst snd]. split; [reflexivity|].
  assert (W3 : artifact_writes s3 = []).
  { unfold artifact_writes. rewrite T3, T2, T1, !filter_app.
    unfold setup_events.
    destruct (truthy_str (dask_function a)); reflexivity. }
  assert (S3 : started_reports s3 = []).
  { unfold started_reports. rewrite T3, T2, T1, !flat_map_app.
    unfold setup_events.
    destruct (truthy_str (dask_function a)); reflexivity. }
  rewrite S, W, W3, S3. split; reflexivity.
Qed.

(** ** Row sampling *)

Lemma take_ok :
  forall A (l : list A) idx d,
    Forall (fun i => (i < List.length l)%nat) idx ->
    take idx l = Ok (map (fun i => nth i l d) idx).
Proof.
  intros A l idx d H; induction H as [|i idx Hi _ IH]; simpl.
  - reflexivity.
  - rewrite IH. rewrite (nth_error_nth' l d Hi). reflexivity.
Qed.

Lemma take_ok_inv :
  forall A (l : list A) idx r,
    take idx l = Ok r ->
    List.length r = List.length idx /\ incl r l.
Proof.
  intros A l idx; induction idx as [|i idx IH]; intros r H; simpl in H.
  - inversion H; subst; split; [reflexivity|intros x []].
  - destruct (nth_error l i) as [x|] eqn:E; [|discriminate].
    destruct (take idx l) as [xs|]; [|discriminate].
    inversion H; subst. destruct (IH xs eq_refl) as [IL II].
    split; [simpl; now rewrite IL|].
    intros z [<-|Hz]; [now apply nth_error_In in E|auto].
Qed.

Lemma map_nth_seq :
  forall A (l : list A) d,
    map (fun i => nth i l d) (seq 0 (List.length l)) = l.
Proof.
  intros A l d; induction l as [|x l IH]; simpl; [reflexivity|].
  rewrite <- seq_shift, map_map. simpl. now rewrite IH.
Qed.

Lemma draw_all_permutation :
  forall n idx,
    NoDup idx -> List.length idx = n ->
    Forall (fun i => (i < n)%nat) idx ->
    Permutation idx (seq 0 n).
Proof.
  intros n idx Hnd Hlen Hlt.
  apply NoDup_Permutation_bis; auto.
  - rewrite length_seq. lia.
  - intros i Hi. rewrite Forall_forall in Hlt. apply in_seq.
    specialize (Hlt i Hi). lia.
Qed.

Lemma py_round_integer :
  forall q z, q == inject_Z z -> py_round q = z.
Proof.
  intros q z H. unfold py_round.
  rewrite (Qfloor_comp _ _ H), Qfloor_Z.
  assert (Hc : q - inject_Z z == 0) by (rewrite H; ring).
  rewrite (Qcompare_comp _ _ Hc _ _ (Qeq_refl (1 # 2))).
  reflexivity.
Qed.

Lemma frame_sample_full :
  forall w frac df,
    valid_world w -> frac == 1 ->
    exists sampled,
      frame_sample w frac df = Ok sampled /\
      schema sampled = schema df /\
      Permutation (rows sampled) (rows df).
Proof.
  intros w frac df Hw Hf. unfold frame_sample.
  assert (H0 : Qle_bool 0 frac = true)
    by (apply Qle_bool_iff; rewrite Hf; discriminate).
  assert (H1 : Qle_bool frac 1 = true)
    by (apply Qle_bool_iff; rewrite Hf; apply Qle_refl).
  rewrite H0, H1. cbn [andb].
  rewrite (py_round_integer _ (Z.of_nat (List.length (rows df))))
    by (rewrite Hf; ring).
  rewrite Nat2Z.id.
  destruct (Hw (List.length (rows df)) (List.length (rows df)) (le_n _))
    as (Hnd & Hlen & Hlt).
  rewrite (take_ok _ (rows df) _ [] Hlt).
  eexists; split; [reflexivity|]. cbn [schema rows]. split; [reflexivity|].
  assert (Hp := draw_all_permutation _ _ Hnd Hlen Hlt).
  apply (Permutation_map (fun i => nth i (rows df) [])) in Hp.
  now rewrite map_nth_seq in Hp.
Qed.

(** C5 (as the code has it): at sample fraction 1.0 the sampling step
    keeps every row exactly once and keeps the columns, but puts the rows
    in the order the unseeded generator drew them; the frame handed to the
    label encoder and to feature extraction is that reordered frame. *)
Theorem full_sample_is_a_reordering :
  forall (w : World) (a : arguments) (s : state) (p : prepared) (s' : state),
    valid_world w ->
    sample a == 1 ->
    prepare w a s = (Ok p, s') ->
    exists df0 sampled labels features y,
      as_df (dataset a) = Ok df0 /\
      frame_sample w (sample a) (select_dtypes numerics df0) = Ok sampled /\
      schema sampled = schema (select_dtypes numerics df0) /\
      Permutation (rows sampled) (rows (select_dtypes numerics df0)) /\
      getitem sampled (label_column a) = Ok labels /\
      drop sampled (label_column a) = Ok features /\
      In (EncoderFit labels) (trace s') /\
      In (TrainTestSplit (to_dask_array features) y
                         (train_validation_size a) (random_state a))
         (trace s').
Proof.
  intros w a s p s' Hw Hf H.
  apply prepare_ok_inv in H.
  destruct H as (df0 & sampled & labels & features & y & idx & A1 & A2 & A3
                 & A4 & A5 & A6 & A7 & A8 & A9 & A10 & A11 & A12 & A13
                 & A14 & A15 & A16 & A17 & P2 & R2 & T2).
  destruct (frame_sample_full w (sample a) (select_dtypes numerics df0) Hw Hf)
    as (sampled' & S1 & S2 & S3).
  rewrite A3 in S1. inversion S1; subst sampled'.
  exists df0, sampled, labels, features, y.
  repeat (split; [assumption|]).
  rewrite T2. unfold to_dask_array.
  split; rewrite in_app_iff; cbn [In]; tauto.
Qed.

(** ** A complete run *)

Lemma get_loc_In :
  forall key names,
    In key names ->
    exists i, get_loc key names = Ok i /\ (i < List.length names)%nat.
Proof.
  intros key names; induction names as [|n ns IH]; intros H; [destruct H|].
  simpl. destruct (String.eqb key n) eqn:E.
  - exists 0%nat; split; [reflexivity|simpl; lia].
  - destruct H as [H|H]; [subst; rewrite String.eqb_refl in E; discriminate|].
    destruct (IH H) as (i & Hi & Hl). rewrite Hi.
    exists (S i); split; [reflexivity|simpl; lia].
Qed.

Lemma get_loc_ok_inv :
  forall key names i,
    get_loc key names = Ok i ->
    (i < List.length names)%nat /\ In key names.
Proof.
  intros key names; induction names as [|n ns IH]; intros i H; simpl in H.
  - discriminate.
  - destruct (String.eqb key n) eqn:E.
    + inversion H; subst. apply String.eqb_eq in E. subst.
      simpl; split; [lia|auto].
    + destruct (get_loc key ns) as [j|]; [|discriminate].
      inversion H; subst. destruct (IH j eq_refl). simpl; split; [lia|auto].
Qed.

Lemma delete_length :
  forall A (l : list A) i,
    (i < List.length l)%nat -> List.length (delete i l) = pred (List.length l).
Proof.
  intros A l; induction l as [|x l IH]; intros i H; simpl in *; [lia|].
  destruct i; [reflexivity|]. simpl. rewrite IH by lia.
  destruct l; simpl in *; lia.
Qed.

Lemma mask_filter_all :
  forall A (mask : list bool) (l : list A),
    forallb (fun b => b) mask = true ->
    List.length l = List.length mask ->
    mask_filter mask l = l.
Proof.
  intros A mask; induction mask as [|b m IH]; intros l Hm Hl.
  - destruct l; [reflexivity|discriminate].
  - destruct l as [|x l]; [discriminate|].
    simpl in Hm. apply andb_prop in Hm. destruct Hm as [Hb Hm]. subst b.
    simpl. f_equal. apply IH; auto.
Qed.

Lemma select_dtypes_all_retained :
  forall df,
    wf_frame df ->
    forallb (fun c => str_in (dtype_name (snd c)) numerics) (schema df) = true ->
    select_dtypes numerics df = df.
Proof.
  intros [sch rws] Hwf Hall. unfold select_dtypes, wf_frame in *.
  cbn [schema rows] in *.
  assert (Hm : forallb (fun b => b)
                 (map (fun c : string * dtype =>
                         str_in (dtype_name (snd c)) numerics) sch) = true).
  { rewrite forallb_forall in *. intros b Hb. apply in_map_iff in Hb.
    destruct Hb as (c & <- & Hc). auto. }
  f_equal.
  - apply mask_filter_all; [exact Hm|now rewrite length_map].
  - rewrite <- (map_id rws) at 2. apply map_ext_in. intros r Hr.
    rewrite Forall_forall in Hwf.
    apply mask_filter_all; [exact Hm|rewrite length_map; auto].
Qed.

Lemma column_stack_total :
  forall X y,
    List.length X = List.length y -> exists data, column_stack X y = Ok data.
Proof.
  induction X as [|r X IH]; intros [|v y] H; try discriminate.
  - exists []; reflexivity.
  - simpl in H. destruct (IH y) as (m & Hm); [lia|].
    simpl. rewrite Hm. eauto.
Qed.

Lemma column_stack_ok_inv :
  forall X y data,
    column_stack X y = Ok data ->
    List.length data = List.length X /\
    forall n, Forall (fun r => List.length r = n) X ->
              Forall (fun r => List.length r = S n) data.
Proof.
  induction X as [|r X IH]; intros [|v y] data H; simpl in H;
    try discriminate.
  - inversion H; subst. split; [reflexivity|constructor].
  - destruct (column_stack X y) as [m|] eqn:E; [|discriminate].
    inversion H; subst. destruct (IH y m E) as [IL IF].
    split; [simpl; now rewrite IL|].
    intros n Hn. inversion Hn; subst. constructor.
    + rewrite length_app. simpl. lia.
    + auto.
Qed.

Lemma DataFrame_total :
  forall data cols,
    Forall (fun r => List.length r = List.length cols) data ->
    DataFrame data cols = Ok (mkTable cols data).
Proof.
  intros data cols H. unfold DataFrame.
  replace (forallb _ data) with true; [reflexivity|].
  symmetry. apply forallb_forall. intros r Hr.
  rewrite Forall_forall in H. apply Nat.eqb_eq. auto.
Qed.

Lemma evaluate_ok :
  forall a p model s loc,
    (forall r, exists v, generate_in a p model r = Ok v) ->
    get_loc (label_column a) (df_header p) = Ok loc ->
    exists s', evaluate a p model s = (Ok extra_data_of_run, s').
Proof.
  intros a p model s loc Hg Hl.
  destruct (Hg ROCAUC) as (v1 & G1).
  destruct (Hg ClassificationReport) as (v2 & G2).
  destruct (Hg ConfusionMatrix) as (v3 & G3).
  destruct (Hg FeatureImportances) as (v4 & G4).
  unfold generate_in, report_labels in G1, G2, G3, G4. rewrite Hl in G4.
  unfold evaluate. cbn [for_acc]. unfold info.
  unfold bind at 1, emit at 1. cbn iota.
  set (s0 := mkState _ _ _). clearbody s0.
  rewrite !bind_assoc.
  destruct (report_body_ok ROCAUC model (classes p) (X_train_transformed p)
              (y_train p) (X_test_transformed p) (y_test p) [] v1 s0 G1)
    as (s1 & t1 & E1 & P1 & _ & _).
  step_ok E1. cbv beta. rewrite !bind_assoc.
  match goal with
  | |- context [report_body _ _ _ _ _ _ ?x ClassificationReport] =>
      destruct (report_body_ok ClassificationReport model (classes p)
                  (X_train_transformed p) (y_train p)
                  (X_test_transformed p) (y_test p) x v2 s1 G2)
        as (s2 & t2 & E2 & P2 & _ & _)
  end.
  step_ok E2. cbv beta. rewrite !bind_assoc.
  match goal with
  | |- context [report_body _ _ _ _ _ _ ?x ConfusionMatrix] =>
      destruct (report_body_ok ConfusionMatrix model (classes p)
                  (X_train_transformed p) (y_train p)
                  (X_test_transformed p) (y_test p) x v3 s2 G3)
        as (s3 & t3 & E3 & P3 & _ & _)
  end.
  step_ok E3. cbv beta.
  unfold generate in G4.
  unfold bind, lift, get_fig, emit, draw, plt_clear, ret.
  cbn [plt results trace]. rewrite Hl.
  destruct (viz_new FeatureImportances model (classes p)
                    (Some (delete loc (df_header p)))) as [w1|];
    [|discriminate].
  destruct (viz_fit w1 (X_train_transformed p) (y_train p)) as [w2|];
    [|discriminate].
  rewrite G4. rewrite P3. eexists. reflexivity.
Qed.

Lemma Forall_incl :
  forall A (P : A -> Prop) (l l' : list A),
    incl l l' -> Forall P l' -> Forall P l.
Proof.
  intros A P l l' Hi H. rewrite Forall_forall in *. auto.
Qed.

(** When the library calls of the run succeed, with a valid generator, a
    supplied backend, a complete numeric frame that holds the label column
    and a full sample, the run completes: none of the script's own steps
    (column look-up, positional selection, stacking, rebuilding the frame)
    raises. *)
Lemma train_model_completes :
  forall w a df0,
    library_calls_succeed w a -> valid_world w ->
    is_ok (fst (setup_client a initial_state)) = true ->
    as_df (dataset a) = Ok df0 ->
    wf_frame (select_dtypes numerics df0) ->
    isna_any_any (select_dtypes numerics df0) = false ->
    sample a == 1 ->
    In (label_column a) (columns (select_dtypes numerics df0)) ->
    exists s', train_model w a initial_state = (Ok tt, s').
Proof.
  intros w a df0 Hc Hw Hs Hdf Hwf Hna Hfrac Hlab.
  set (df := select_dtypes numerics df0) in *.
  (* client *)
  destruct (setup_client a initial_state) as [[c|e] s1] eqn:Es;
    [|discriminate].
  (* sample *)
  destruct (frame_sample_full w (sample a) df Hw Hfrac)
    as (sampled & S1 & S2 & S3).
  assert (Hrows : Forall (fun r => List.length r = List.length (schema df))
                         (rows sampled)).
  { apply (Forall_incl _ _ _ (rows df)); [|exact Hwf].
    intros r Hr. apply (Permutation_in _ S3 Hr). }
  (* label column *)
  assert (Hcols : columns sampled = columns df)
    by (unfold columns; now rewrite S2).
  destruct (get_loc_In _ _ Hlab) as (loc & Hloc & Hlt).
  assert (Hget : getitem sampled (label_column a) =
                 Ok (map (fun r => nth loc r Missing) (rows sampled)))
    by (unfold getitem; now rewrite Hcols, Hloc).
  assert (Hdrop : drop sampled (label_column a) =
                  Ok (mkFrame (delete loc (schema sampled))
                              (map (delete loc) (rows sampled))))
    by (unfold drop; now rewrite Hcols, Hloc).
  (* the library calls of the preparation *)
  destruct (Hc df0 sampled _ _ loc Hdf S1 Hget Hdrop Hloc)
    as (enc & y & idx & He & Hy & Hylen & Hsplit & Htr & Hte & _ & _ & Hrest).
  cbn [rows] in Hsplit, Htr, Hte, Hrest.
  remember (map (fun r => nth loc r Missing) (rows sampled)) as labels
    eqn:Elabels.
  remember (map (delete loc) (rows sampled)) as X eqn:EX.
  assert (HXy : List.length y = List.length X)
    by (rewrite Hylen, Elabels, EX; now rewrite !length_map).
  assert (Htr' : Forall (fun i => (i < List.length y)%nat) (fst idx))
    by now rewrite HXy.
  assert (Hte' : Forall (fun i => (i < List.length y)%nat) (snd idx))
    by now rewrite HXy.
  pose proof (take_ok _ X _ [] Htr) as TX1.
  pose proof (take_ok _ X _ [] Hte) as TX2.
  pose proof (take_ok _ y _ 0%Z Htr') as Ty1.
  pose proof (take_ok _ y _ 0%Z Hte') as Ty2.
  remember (map (fun i => nth i X []) (fst idx)) as Xtr eqn:EXtr.
  remember (map (fun i => nth i X []) (snd idx)) as Xte eqn:EXte.
  remember (map (fun i => nth i y 0%Z) (fst idx)) as ytr eqn:Eytr.
  remember (map (fun i => nth i y 0%Z) (snd idx)) as yte eqn:Eyte.
  (* the library calls on the partitions *)
  destruct (Hrest Xtr Xte ytr yte TX1 TX2 Ty1 Ty2)
    as (sc & Xtr_t & Xte_t & cfg & cls & m0 & model & Hsc & Hxt1 & Hxt2
        & R1 & R2 & Hm0 & Hfit & Hviz).
  remember (mkPrepared (columns df) enc
                       (map str_label (drop_duplicates labels))
                       Xtr Xte ytr yte sc Xtr_t Xte_t) as p eqn:Ep.
  assert (Hprep : exists s2, prepare w a s1 = (Ok p, s2)).
  { unfold prepare, info, bind, lift, emit, ret, raise, reset_index,
      to_dask_array.
    cbn [plt results trace]. rewrite Hdf. fold df. rewrite Hna.
    cbn [plt results trace]. rewrite S1, Hget, He, Hdrop.
    cbn [rows]. unfold matrix, row in *.
    rewrite Hy, Hsplit, TX1, TX2, Ty1, Ty2, Hsc, Hxt1, Hxt2.
    rewrite Ep. eexists. reflexivity. }
  destruct Hprep as (s2 & Hprep).
  (* build and fit *)
  assert (Hbuild : exists s3, build_and_fit a p s2 = (Ok model, s3)).
  { unfold build_and_fit, with_backend, bind, lift, emit.
    rewrite R1, R2, Hm0. cbn [plt results trace snd].
    rewrite Ep. cbn [X_train_transformed y_train].
    rewrite Hfit. eexists. reflexivity. }
  destruct Hbuild as (s3 & Hbuild).
  (* evaluate *)
  assert (Hhdr : df_header p = columns df) by (rewrite Ep; reflexivity).
  assert (Hloc' : get_loc (label_column a) (df_header p) = Ok loc)
    by now rewrite Hhdr.
  assert (Hgen : forall r, exists v, generate_in a p model r = Ok v).
  { intros r. unfold generate_in, report_labels. rewrite Hloc', Hhdr.
    rewrite Ep. cbn [classes X_train_transformed X_test_transformed
                     y_train y_test].
    destruct (Hviz r) as (v & Hv). exists v. rewrite <- Hv.
    destruct r; reflexivity. }
  destruct (evaluate_ok a p model s3 loc Hgen Hloc') as (s4 & Heval).
  (* log *)
  assert (HlenX : Forall (fun r => List.length r = pred (List.length (schema df)))
                         X).
  { rewrite EX. apply Forall_forall. intros r Hr. apply in_map_iff in Hr.
    destruct Hr as (r0 & <- & Hr0). rewrite Forall_forall in Hrows.
    rewrite delete_length; rewrite (Hrows r0 Hr0); auto.
    unfold columns in Hlt. now rewrite length_map in Hlt. }
  assert (HlenXte : Forall (fun r => List.length r =
                                     pred (List.length (schema df))) Xte).
  { destruct (take_ok_inv _ _ _ _ TX2) as [_ Hincl].
    apply (Forall_incl _ _ _ X); auto. }
  destruct (column_stack_total Xte yte) as (data & Hdata).
  { rewrite EXte, Eyte. now rewrite !length_map. }
  assert (Hxte : X_test p = Xte) by (rewrite Ep; reflexivity).
  assert (Hyte : y_test p = yte) by (rewrite Ep; reflexivity).
  destruct (column_stack_ok_inv _ _ _ Hdata) as [_ Hrowlen].
  specialize (Hrowlen _ HlenXte).
  assert (Hheld : DataFrame data (df_header p) = Ok (mkTable (df_header p) data)).
  { apply DataFrame_total. rewrite Hhdr. unfold columns.
    rewrite length_map. unfold columns in Hlt. rewrite length_map in Hlt.
    revert Hrowlen. apply Forall_impl. intros r Hr. lia. }
  exists (mkState (plt s4) (results s4)
            (trace s4 ++ log_events a p model extra_data_of_run (results s4)
                                    (mkTable (df_header p) data))).
  unfold train_model. step_ok Es. step_ok Hprep. step_ok Hbuild.
  step_ok Heval.
  apply (log_artifacts_ok a p model extra_data_of_run s4 data);
    [now rewrite Hxte, Hyte|exact Hheld].
Qed.

Lemma drop_ok_inv :
  forall df key f,
    drop df key = Ok f ->
    exists i,
      get_loc key (columns df) = Ok i /\
      f = mkFrame (delete i (schema df)) (map (delete i) (rows df)).
Proof.
  intros df key f H. unfold drop in H.
  destruct (get_loc key (columns df)) as [i|]; [|discriminate].
  inversion H; eauto.
Qed.

Lemma artifact_writes_of_run :
  forall a p model metrics held_out labels X y cfg t1 t2 t3,
    forallb is_log_results t1 = true ->
    forallb is_log_results t2 = true ->
    forallb is_log_results t3 = true ->
    filter is_artifact_write
      (setup_events a
       ++ prepare_events a p labels X y
       ++ fit_events (fit_kwargs cfg p)
       ++ evaluate_events p t1 t2 t3
       ++ log_events a p model extra_data_of_run metrics held_out)
    = complete_writes a p model metrics held_out.
Proof.
  intros a p model metrics held labels X y cfg t1 t2 t3 F1 F2 F3.
  unfold evaluate_events, report_events.
  rewrite !filter_app.
  rewrite (filter_writes_log_results t1 F1), (filter_writes_log_results t2 F2),
    (filter_writes_log_results t3 F3).
  unfold setup_events. destruct (truthy_str (dask_function a)); reflexivity.
Qed.

(** C1 (as the code has it): scenario A with a label column of a retained
    numeric dtype.  When the library calls that this run makes succeed and
    a backend is supplied, the run completes; its artifact writes are the four
    report plots, then exactly one model, one scaler, one encoder and one
    held-out dataset; the held-out dataset has the 25 rows of the test
    partition and the three columns [f1, f2, label] of the saved header. *)
Theorem scenario_numeric_label_completes :
  forall (w : World) (a : arguments) (df : frame) (d : dtype),
    library_calls_succeed w a -> valid_world w ->
    is_ok (fst (setup_client a initial_state)) = true ->
    as_df (dataset a) = Ok df ->
    schema df = [("f1", Float64); ("f2", Float64); ("label", d)] ->
    retained_dtype d ->
    wf_frame df ->
    List.length (rows df) = 100%nat ->
    isna_any_any df = false ->
    label_column a = "label" ->
    train_validation_size a = 3 # 4 ->
    sample a = 1 ->
    exists s' p model held_out,
      train_model w a initial_state = (Ok tt, s') /\
      artifact_writes s' = complete_writes a p model (results s') held_out /\
      tcolumns held_out = ["f1"; "f2"; "label"] /\
      List.length (tdata held_out) = 25%nat /\
      Forall (fun r => List.length r = 3%nat) (tdata held_out).
Proof.
  intros w a df d Hc Hw Hs Hdf Hsch Hd Hwf Hlen Hna Hlab Hts Hfrac.
  assert (Hsel : select_dtypes numerics df = df).
  { apply select_dtypes_all_retained; [exact Hwf|].
    rewrite Hsch. cbn [forallb snd].
    apply numerics_spec in Hd. rewrite Hd. reflexivity. }
  assert (Hfrac1 : sample a == 1) by (rewrite Hfrac; reflexivity).
  assert (Hcolumns : columns df = ["f1"; "f2"; "label"])
    by (unfold columns; rewrite Hsch; reflexivity).
  destruct (train_model_completes w a df Hc Hw Hs Hdf) as (s' & Hrun).
  { now rewrite Hsel. }
  { now rewrite Hsel. }
  { exact Hfrac1. }
  { rewrite Hsel, Hcolumns, Hlab. cbn [In]. tauto. }
  pose proof (train_model_ok_trace w a s' Hrun) as H.
  destruct H as (df0 & sampled & labels & features & y & idx & p & cfg & cls
                 & m0 & model & t1 & t2 & t3 & data & held & metrics & H).
  decompose [and] H; clear H.
  assert (df0 = df) by congruence. subst df0.
  rewrite Hsel in *.
  exists s', p, model, held.
  split; [exact Hrun|].
  split.
  { unfold artifact_writes.
    match goal with T : trace s' = _ |- _ => rewrite T end.
    match goal with R : results s' = _ |- _ => rewrite R end.
    now apply artifact_writes_of_run. }
  match goal with D : DataFrame _ _ = Ok _ |- _ =>
    destruct (DataFrame_ok_inv _ _ _ D) as [Hd1 Hd2] end.
  split.
  { rewrite Hd2.
    match goal with E : df_header p = _ |- _ => rewrite E end.
    exact Hcolumns. }
  destruct (frame_sample_full w (sample a) df Hw Hfrac1)
    as (sampled' & S1 & S2 & S3).
  assert (sampled' = sampled) by congruence. subst sampled'.
  match goal with D : drop sampled _ = Ok _ |- _ =>
    destruct (drop_ok_inv _ _ _ D) as (loc & Hloc & Hfeat) end.
  assert (Hloc2 : loc = 2%nat).
  { unfold columns in Hloc. rewrite S2, Hsch, Hlab in Hloc.
    cbn in Hloc. congruence. }
  subst loc.
  assert (Hn : List.length (rows features) = 100%nat).
  { rewrite Hfeat. cbn [rows]. rewrite length_map.
    etransitivity; [apply (Permutation_length S3)|exact Hlen]. }
  assert (Hloc' : get_loc (label_column a)
                          (columns (select_dtypes numerics df)) = Ok 2%nat).
  { rewrite Hsel. unfold columns in *. now rewrite <- S2. }
  assert (S1' : frame_sample w (sample a) (select_dtypes numerics df)
                = Ok sampled) by (now rewrite Hsel).
  match goal with
    G : getitem sampled _ = Ok labels, D : drop sampled _ = Ok features |- _ =>
      destruct (Hc df sampled labels features 2%nat Hdf S1' G D Hloc')
        as (enc' & y' & idx' & _ & _ & _ & Hsplit' & _ & _ & Htr & Hsum & _)
  end.
  assert (idx' = idx) by congruence. subst idx'.
  rewrite Hn, Hts in Htr. change (Z.to_nat _) with 75%nat in Htr.
  rewrite Hn in Hsum.
  match goal with Tk : take (snd idx) (rows features) = Ok _ |- _ =>
    destruct (take_ok_inv _ _ _ _ Tk) as [Hlte Hincl] end.
  match goal with Cs : column_stack _ _ = Ok data |- _ =>
    destruct (column_stack_ok_inv _ _ _ Cs) as [Hld Hrl] end.
  split.
  { rewrite Hd1, Hld, Hlte. lia. }
  rewrite Hd1. apply (Hrl 2%nat).
  apply (Forall_incl _ _ _ (rows features)); [exact Hincl|].
  rewrite Hfeat. cbn [rows]. apply Forall_forall. intros r Hr.
  apply in_map_iff in Hr. destruct Hr as (r0 & <- & Hr0).
  assert (Hr3 : List.length r0 = 3%nat).
  { unfold wf_frame in Hwf. rewrite Forall_forall in Hwf.
    rewrite (Hwf r0 (Permutation_in _ S3 Hr0)), Hsch. reflexivity. }
  rewrite delete_length; rewrite Hr3; auto.
Qed.

(** ** The label column *)

Lemma get_loc_absent :
  forall key names,
    ~ In key names -> get_loc key names = Raise (KeyError key).
Proof.
  intros key names; induction names as [|n ns IH]; intros H; simpl.
  - reflexivity.
  - destruct (String.eqb key n) eqn:E.
    + apply String.eqb_eq in E. subst. exfalso. apply H. now left.
    + rewrite IH; [reflexivity|]. intros Hin. apply H. now right.
Qed.

Lemma frame_sample_schema :
  forall w frac df sampled,
    frame_sample w frac df = Ok sampled -> schema sampled = schema df.
Proof.
  intros w frac df sampled H. unfold frame_sample in H.
  destruct (Qle_bool 0 frac && Qle_bool frac 1); [|discriminate].
  destruct (take _ (rows df)); [|discriminate].
  inversion H; reflexivity.
Qed.

Lemma run_without_label :
  forall w a df sampled c s1,
    setup_client a initial_state = (Ok c, s1) ->
    as_df (dataset a) = Ok df ->
    isna_any_any (select_dtypes numerics df) = false ->
    frame_sample w (sample a) (select_dtypes numerics df) = Ok sampled ->
    ~ In (label_column a) (columns (select_dtypes numerics df)) ->
    fst (train_model w a initial_state) = Raise (KeyError (label_column a)) /\
    forallb no_fit_no_write (trace (snd (train_model w a initial_state)))
      = true.
Proof.
  intros w a df sampled c s1 Hs Hdf Hna Hsam Hlab.
  destruct (setup_client_state a initial_state) as (_ & _ & T1).
  rewrite Hs in T1. cbn [snd trace initial_state app] in T1.
  assert (Hget : getitem sampled (label_column a) =
                 Raise (KeyError (label_column a))).
  { unfold getitem.
    replace (columns sampled) with (columns (select_dtypes numerics df))
      by (unfold columns; now rewrite (frame_sample_schema _ _ _ _ Hsam)).
    now rewrite (get_loc_absent _ _ Hlab). }
  assert (Hp : prepare w a s1 =
               (Raise (KeyError (label_column a)),
                mkState (plt s1) (results s1)
                        (trace s1 ++ [LoggerInfo "Read Data"; AsDf;
                                      LoggerInfo "Prep Data"]))).
  { unfold prepare, info, bind, emit, lift, ret, reset_index.
    cbn [plt results trace]. rewrite Hdf, Hna. cbn [plt results trace].
    rewrite Hsam, Hget. now rewrite <- !app_assoc. }
  unfold train_model. step_ok Hs. step_raise Hp. cbn [fst snd trace].
  split; [reflexivity|].
  rewrite T1, forallb_app. apply andb_true_intro; split; [|reflexivity].
  unfold setup_events. destruct (truthy_str (dask_function a)); reflexivity.
Qed.

(** X1: when the configured label column is not among the columns of the
    numeric frame, the run raises [KeyError] on the label name at the
    first [df[label_column]], with no fit and no artifact write. *)
Theorem missing_label_column_raises_keyerror :
  forall (w : World) (a : arguments) (df sampled : frame)
         (c : Client) (s1 : state),
    setup_client a initial_state = (Ok c, s1) ->
    as_df (dataset a) = Ok df ->
    isna_any_any (select_dtypes numerics df) = false ->
    frame_sample w (sample a) (select_dtypes numerics df) = Ok sampled ->
    ~ In (label_column a) (columns (select_dtypes numerics df)) ->
    fst (train_model w a initial_state) = Raise (KeyError (label_column a)) /\
    forallb no_fit_no_write (trace (snd (train_model w a initial_state)))
      = true.
Proof. exact run_without_label. Qed.

Lemma non_retained_not_selected :
  forall df key,
    (forall c, In c (schema df) -> fst c = key ->
               str_in (dtype_name (snd c)) numerics = false) ->
    ~ In key (columns (select_dtypes numerics df)).
Proof.
  intros df key H Hin. unfold columns, select_dtypes in Hin.
  cbn [schema] in Hin. apply in_map_iff in Hin.
  destruct Hin as (c & Hk & Hc).
  apply (mask_filter_map_In _
           (fun c0 => str_in (dtype_name (snd c0)) numerics)) in Hc.
  destruct Hc as [Hc1 Hc2]. rewrite (H c Hc1 Hk) in Hc2. discriminate.
Qed.

(** X2: a label column stored with a dtype outside the six retained ones
    (strings, booleans, int8, unsigned integers, ...) is removed by the
    numeric restriction together with the other such columns, so the run
    raises [KeyError] on the label name before any fit or write, although
    the dataset does contain the column. *)
Theorem non_numeric_label_raises_keyerror :
  forall (w : World) (a : arguments) (df sampled : frame)
         (c : Client) (s1 : state) (d : dtype),
    setup_client a initial_state = (Ok c, s1) ->
    as_df (dataset a) = Ok df ->
    isna_any_any (select_dtypes numerics df) = false ->
    frame_sample w (sample a) (select_dtypes numerics df) = Ok sampled ->
    In (label_column a, d) (schema df) ->
    (forall c0, In c0 (schema df) -> fst c0 = label_column a ->
                ~ retained_dtype (snd c0)) ->
    fst (train_model w a initial_state) = Raise (KeyError (label_column a)) /\
    forallb no_fit_no_write (trace (snd (train_model w a initial_state)))
      = true.
Proof.
  intros w a df sampled c s1 d Hs Hdf Hna Hsam _ Hd.
  apply (run_without_label w a df sampled c s1); auto.
  apply non_retained_not_selected. intros c0 Hc0 Hk.
  destruct (str_in (dtype_name (snd c0)) numerics) eqn:E; [|reflexivity].
  apply numerics_spec in E. exfalso. exact (Hd c0 Hc0 Hk E).
Qed.

(** ** The stages of a run *)

Lemma build_and_fit_trace :
  forall a p s,
    trace (snd (build_and_fit a p s)) = trace s \/
    exists kw, trace (snd (build_and_fit a p s)) = trace s ++ fit_events kw.
Proof.
  intros a p s. unfold build_and_fit, with_backend, bind, lift, emit.
  destruct (gen_sklearn_model (model_pkg_class a) (parameters a)) as [cfg|];
    [|now left].
  destruct (create_class (META_class cfg)) as [cls|]; [|now left].
  destruct (construct cls (CLASS cfg)) as [m0|]; [|now left].
  right. exists (fit_kwargs cfg p). cbn [plt results trace snd].
  fold (fit_kwargs cfg p).
  destruct (estimator_fit m0 (fit_kwargs cfg p)); cbn [snd trace];
    unfold fit_events; rewrite <- !app_assoc; reflexivity.
Qed.

Lemma evaluate_emits :
  forall a p model, emits_only is_evaluate_event (evaluate a p model).
Proof.
  intros a p model. unfold evaluate, info.
  apply emits_bind; [apply emits_emit; reflexivity|intros _].
  apply emits_bind.
  - apply emits_for_acc. intros acc r.
    apply (emits_weaken _ (of_report r)); [|apply report_body_emits].
    intros ev; destruct ev; try discriminate; reflexivity.
  - intros extra. emits.
Qed.

Lemma log_artifacts_emits :
  forall a p model extra, emits_only is_log_event (log_artifacts a p model extra).
Proof. intros a p model extra. unfold log_artifacts. emits. Qed.

(** The trace of any run, stage by stage; a stage that was not reached
    contributes nothing. *)
Lemma train_model_stages :
  forall w a,
    exists t1 t2 t3 t4,
      trace (snd (train_model w a initial_state)) =
        setup_events a ++ t1 ++ t2 ++ t3 ++ t4 /\
      forallb is_setup_event t1 = true /\
      (t2 = [] \/ exists kw, t2 = fit_events kw) /\
      forallb is_evaluate_event t3 = true /\
      forallb is_log_event t4 = true.
Proof.
  intros w a. unfold train_model.
  destruct (setup_client_state a initial_state) as (_ & _ & T0).
  cbn [trace initial_state app] in T0.
  destruct (setup_client a initial_state) as [[c|e] s1] eqn:E0.
  2:{ step_raise E0. exists [], [], [], []. cbn [snd] in *.
      rewrite T0, !app_nil_r. repeat split; auto. }
  step_ok E0. cbn [snd] in T0.
  destruct (prepare_emits w a s1) as (t1 & T1 & F1).
  destruct (prepare w a s1) as [[p|e] s2] eqn:E1; cbn [snd] in T1.
  2:{ step_raise E1. exists t1, [], [], []. cbn [snd].
      rewrite T1, T0, !app_nil_r. repeat split; auto. }
  step_ok E1.
  assert (H2 : exists t2, trace (snd (build_and_fit a p s2)) = trace s2 ++ t2
                          /\ (t2 = [] \/ exists kw, t2 = fit_events kw)).
  { destruct (build_and_fit_trace a p s2) as [H|(kw & H)].
    - exists []. rewrite app_nil_r. auto.
    - exists (fit_events kw). eauto. }
  destruct H2 as (t2 & T2 & F2).
  destruct (build_and_fit a p s2) as [[m|e] s3] eqn:E2; cbn [snd] in T2.
  2:{ step_raise E2. exists t1, t2, [], []. cbn [snd].
      rewrite T2, T1, T0, !app_nil_r, <- !app_assoc. repeat split; auto. }
  step_ok E2.
  destruct (evaluate_emits a p m s3) as (t3 & T3 & F3).
  destruct (evaluate a p m s3) as [[x|e] s4] eqn:E3; cbn [snd] in T3.
  2:{ step_raise E3. exists t1, t2, t3, []. cbn [snd].
      rewrite T3, T2, T1, T0, !app_nil_r, <- !app_assoc. repeat split; auto. }
  step_ok E3.
  destruct (log_artifacts_emits a p m x s4) as (t4 & T4 & F4).
  exists t1, t2, t3, t4.
  rewrite T4, T3, T2, T1, T0, <- !app_assoc. repeat split; auto.
Qed.

(** X3: in every run, failed or complete, the dask backend context is
    either never entered, or entered exactly once, left again, and holds
    the estimator's fit call and nothing else: no data preparation, report
    or artifact write happens inside it. *)
Theorem backend_context_wraps_only_the_fit :
  forall (w : World) (a : arguments),
    fit_stage_free (trace (snd (train_model w a initial_state))) \/
    exists before kw after,
      trace (snd (train_model w a initial_state)) =
        before ++ [BackendEnter "dask"; EstimatorFit kw; BackendExit]
               ++ after /\
      fit_stage_free before /\ fit_stage_free after.
Proof.
  intros w a.
  destruct (train_model_stages w a) as (t1 & t2 & t3 & t4 & T & F1 & F2 & F3 & F4).
  assert (Q0 : fit_stage_free (setup_events a)).
  { unfold fit_stage_free, setup_events.
    destruct (truthy_str (dask_function a)); reflexivity. }
  assert (Q1 : fit_stage_free t1).
  { unfold fit_stage_free. revert F1. apply forallb_weaken.
    intros ev; destruct ev; try discriminate; reflexivity. }
  assert (Q3 : fit_stage_free t3).
  { unfold fit_stage_free. revert F3. apply forallb_weaken.
    intros ev; destruct ev; try discriminate; reflexivity. }
  assert (Q4 : fit_stage_free t4).
  { unfold fit_stage_free. revert F4. apply forallb_weaken.
    intros ev; destruct ev; try discriminate; reflexivity. }
  unfold fit_stage_free in *.
  destruct F2 as [->|(kw & ->)].
  - left. rewrite T, !forallb_app, Q0, Q1, Q3, Q4. reflexivity.
  - right. exists (setup_events a ++ t1), kw, (t3 ++ t4).
    rewrite T. unfold fit_events. rewrite <- !app_assoc.
    split; [reflexivity|].
    rewrite !forallb_app, Q0, Q1, Q3, Q4. split; reflexivity.
Qed.

(** X4: when the estimator's fit raises inside the backend context, the
    run fails with that exception, the context is left all the same, and
    nothing follows: no report is started and no artifact is written. *)
Theorem fit_failure_leaves_the_backend_context :
  forall (w : World) (a : arguments) (c : Client) (s1 : state)
         (p : prepared) (s2 : state) (cfg : model_config) (cls : ClassObj)
         (m0 : Estimator) (e : exn),
    setup_client a initial_state = (Ok c, s1) ->
    prepare w a s1 = (Ok p, s2) ->
    gen_sklearn_model (model_pkg_class a) (parameters a) = Ok cfg ->
    create_class (META_class cfg) = Ok cls ->
    construct cls (CLASS cfg) = Ok m0 ->
    estimator_fit m0 (fit_kwargs cfg p) = Raise e ->
    fst (train_model w a initial_state) = Raise e /\
    trace (snd (train_model w a initial_state)) =
      trace s2 ++ [BackendEnter "dask"; EstimatorFit (fit_kwargs cfg p);
                   BackendExit] /\
    started_reports (snd (train_model w a initial_state)) = [] /\
    artifact_writes (snd (train_model w a initial_state)) = [].
Proof.
  intros w a c s1 p s2 cfg cls m0 e H1 H2 G1 G2 G3 G4.
  assert (Hb : build_and_fit a p s2 =
               (Raise e, mkState (plt s2) (results s2)
                           (trace s2 ++ fit_events (fit_kwargs cfg p)))).
  { unfold build_and_fit, with_backend, bind, lift, emit.
    rewrite G1, G2, G3. cbn [plt results trace snd].
    fold (fit_kwargs cfg p). rewrite G4. cbn [snd plt results trace].
    unfold fit_events. now rewrite <- !app_assoc. }
  unfold train_model. step_ok H1. step_ok H2. step_raise Hb.
  cbn [fst snd trace]. split; [reflexivity|]. split; [reflexivity|].
  destruct (setup_client_state a initial_state) as (_ & _ & T1).
  rewrite H1 in T1. cbn [snd trace initial_state app] in T1.
  destruct (prepare_emits w a s1) as (t2 & T2 & F2).
  rewrite H2 in T2. cbn [snd] in T2.
  unfold started_reports, artifact_writes. cbn [trace].
  rewrite T2, T1.
  assert (Q0 : forallb is_setup_event (setup_events a) = true).
  { unfold setup_events. destruct (truthy_str (dask_function a)); reflexivity. }
  assert (Qs : forall t, forallb is_setup_event t = true ->
                 flat_map (fun ev => match ev with
                                     | VizNew r _ => [r]
                                     | _ => []
                                     end) t = [] /\
                 filter is_artifact_write t = []).
  { induction t as [|ev t IH]; cbn; [auto|].
    intros H. apply andb_prop in H. destruct H as [Hev Ht].
    destruct (IH Ht) as [I1 I2].
    destruct ev; try discriminate Hev; cbn; auto. }
  rewrite !flat_map_app, !filter_app.
  destruct (Qs _ Q0) as [-> ->]. destruct (Qs _ F2) as [-> ->].
  split; reflexivity.
Qed.

(** X5: every complete run writes to the artifact store, in this order and
    nothing else: the four plots (ROCAUC, ClassificationReport,
    ConfusionMatrix, FeatureImportances), the model with the four plots as
    extra data and the final [context.results] as metrics, the scaler, the
    encoder, and last the held-out dataset. *)
Theorem complete_run_writes_in_order :
  forall (w : World) (a : arguments) (s' : state),
    train_model w a initial_state = (Ok tt, s') ->
    exists p model held_out,
      artifact_writes s' = complete_writes a p model (results s') held_out /\
      model_metrics s' = [results s'].
Proof.
  intros w a s' H.
  apply train_model_ok_trace in H.
  destruct H as (df0 & sampled & labels & features & y & idx & p & cfg & cls
                 & m0 & model & t1 & t2 & t3 & data & held & metrics & H).
  decompose [and] H; clear H.
  exists p, model, held.
  unfold artifact_writes, model_metrics.
  match goal with T : trace s' = _ |- _ => rewrite T end.
  match goal with R : results s' = _ |- _ => rewrite R end.
  split; [now apply artifact_writes_of_run|].
  unfold evaluate_events, report_events.
  rewrite !flat_map_app.
  assert (Q : forall t, forallb is_log_results t = true ->
                flat_map (fun ev => match ev with
                                    | LogModel _ _ _ _ _ m _ => [m]
                                    | _ => []
                                    end) t = []).
  { induction t as [|ev t IH]; cbn; [auto|].
    intros Hq. apply andb_prop in Hq. destruct Hq as [Hev Ht].
    destruct ev; try discriminate Hev. cbn. auto. }
  rewrite (Q t1), (Q t2), (Q t3) by assumption.
  unfold setup_events. destruct (truthy_str (dask_function a)); reflexivity.
Qed.

(** ** The layout of the held-out dataset *)

Lemma map_delete :
  forall A B (f : A -> B) i l, map f (delete i l) = delete i (map f l).
Proof.
  intros A B f i l; revert i; induction l as [|x l IH]; intros i.
  - destruct i; reflexivity.
  - destruct i; simpl; [reflexivity|now rewrite IH].
Qed.

Lemma nth_delete_after :
  forall A (l : list A) i j d,
    (i <= j)%nat -> nth j (delete i l) d = nth (S j) l d.
Proof.
  intros A l; induction l as [|x l IH]; intros i j d H.
  - destruct i, j; reflexivity.
  - destruct i; simpl; [reflexivity|].
    destruct j; [lia|]. apply IH. lia.
Qed.

Lemma nth_map_delete :
  forall loc (rws : matrix) i,
    nth i (map (delete loc) rws) [] = delete loc (nth i rws []).
Proof.
  intros loc rws; induction rws as [|r rws IH]; intros i.
  - destruct i; destruct loc; reflexivity.
  - destruct i; simpl; [reflexivity|apply IH].
Qed.

(** The held-out table of a complete run, row by row. *)
Lemma held_out_of_run :
  forall w a s',
    train_model w a initial_state = (Ok tt, s') ->
    exists df0 sampled loc enc codes idx held_out,
      as_df (dataset a) = Ok df0 /\
      frame_sample w (sample a) (select_dtypes numerics df0) = Ok sampled /\
      get_loc (label_column a) (columns sampled) = Ok loc /\
      encoder_fit (map (fun r => nth loc r Missing) (rows sampled)) = Ok enc /\
      encoder_transform enc (map (fun r => nth loc r Missing) (rows sampled))
        = Ok codes /\
      train_test_split (List.length (rows sampled))
        (train_validation_size a) (random_state a) = Ok idx /\
      held_out_tables s' = [held_out] /\
      tcolumns held_out = columns sampled /\
      tdata held_out =
        map (fun i => held_out_row loc (nth i (rows sampled) [])
                                   (nth i codes 0%Z))
            (snd idx).
Proof.
  intros w a s' H.
  apply train_model_ok_trace in H.
  destruct H as (df0 & sampled & labels & features & y & idx & p & cfg & cls
                 & m0 & model & t1 & t2 & t3 & data & held & metrics & H).
  decompose [and] H; clear H.
  match goal with D : drop sampled _ = Ok _ |- _ =>
    destruct (drop_ok_inv _ _ _ D) as (loc & Hloc & Hfeat) end.
  assert (Hlabels : labels = map (fun r => nth loc r Missing) (rows sampled)).
  { match goal with G : getitem sampled _ = Ok labels |- _ =>
      unfold getitem in G; rewrite Hloc in G; now inversion G end. }
  subst labels features. cbn [rows] in *.
  rewrite length_map in *.
  match goal with T : take (snd idx) (map _ _) = Ok (X_test p) |- _ =>
    pose proof (take_ok_map _ _ _ _ [] T) as HX end.
  match goal with T : take (snd idx) y = Ok (y_test p) |- _ =>
    pose proof (take_ok_map _ _ _ _ 0%Z T) as Hy end.
  match goal with D : DataFrame _ _ = Ok _ |- _ =>
    destruct (DataFrame_ok_inv _ _ _ D) as [Hd1 Hd2] end.
  exists df0, sampled, loc, (encoder p), y, idx, held.
  repeat (split; [assumption|]).
  split; [|split].
  - unfold held_out_tables.
    match goal with T : trace s' = _ |- _ => rewrite T end.
    unfold evaluate_events, report_events. rewrite !flat_map_app.
    assert (Q : forall t, forallb is_log_results t = true ->
                  flat_map (fun ev => match ev with
                                      | LogDataset _ df _ _ _ => [df]
                                      | _ => []
                                      end) t = []).
    { induction t as [|ev t IH]; cbn; [auto|].
      intros Hq. apply andb_prop in Hq. destruct Hq as [Hev Ht].
      destruct ev; try discriminate Hev. cbn. auto. }
    rewrite (Q t1), (Q t2), (Q t3) by assumption.
    unfold setup_events. destruct (truthy_str (dask_function a)); reflexivity.
  - rewrite Hd2.
    match goal with E : df_header p = _ |- _ => rewrite E end.
    unfold columns.
    match goal with S : frame_sample _ _ _ = Ok sampled |- _ =>
      now rewrite (frame_sample_schema _ _ _ _ S) end.
  - rewrite Hd1.
    match goal with Cs : column_stack _ _ = Ok data |- _ =>
      rewrite HX, Hy in Cs;
      rewrite (column_stack_map
                 (fun i => nth i (map (delete loc) (rows sampled)) [])
                 (fun i => nth i y 0%Z)) in Cs;
      inversion Cs as [Hdata] end.
    apply map_ext. intros i. unfold held_out_row.
    now rewrite nth_map_delete.
Qed.

(** X6: in a complete run the held-out dataset is the only dataset
    written; it is named by the columns of the numeric frame in their
    original order, and its row for test position [i] is row [i] of the
    sampled frame with the label cell removed and the label's integer code
    (the encoder's output, not the original label value) appended as the
    last cell. *)
Theorem held_out_rows_are_features_then_code :
  forall (w : World) (a : arguments) (s' : state),
    train_model w a initial_state = (Ok tt, s') ->
    exists df0 sampled loc enc codes idx held_out,
      as_df (dataset a) = Ok df0 /\
      frame_sample w (sample a) (select_dtypes numerics df0) = Ok sampled /\
      get_loc (label_column a) (columns sampled) = Ok loc /\
      encoder_fit (map (fun r => nth loc r Missing) (rows sampled)) = Ok enc /\
      encoder_transform enc (map (fun r => nth loc r Missing) (rows sampled))
        = Ok codes /\
      train_test_split (List.length (rows sampled))
        (train_validation_size a) (random_state a) = Ok idx /\
      held_out_tables s' = [held_out] /\
      tcolumns held_out = columns sampled /\
      tdata held_out =
        map (fun i => held_out_row loc (nth i (rows sampled) [])
                                   (nth i codes 0%Z))
            (snd idx).
Proof. exact held_out_of_run. Qed.

(** X7: when the label column is not the last column of the numeric frame,
    the held-out dataset is mislabelled: in every held-out row the cell
    under the label's name holds the value of the column that followed the
    label in the source row (a feature), and the label code sits under the
    name of the last column. *)
Theorem held_out_label_column_holds_next_feature :
  forall (w : World) (a : arguments) (s' : state) (df0 : frame),
    train_model w a initial_state = (Ok tt, s') ->
    as_df (dataset a) = Ok df0 ->
    wf_frame (select_dtypes numerics df0) ->
    exists sampled loc codes idx held_out,
      frame_sample w (sample a) (select_dtypes numerics df0) = Ok sampled /\
      get_loc (label_column a) (tcolumns held_out) = Ok loc /\
      train_test_split (List.length (rows sampled))
        (train_validation_size a) (random_state a) = Ok idx /\
      held_out_tables s' = [held_out] /\
      List.length (tdata held_out) = List.length (snd idx) /\
      forall k i,
        nth_error (snd idx) k = Some i ->
        (i < List.length (rows sampled))%nat ->
        (S loc < List.length (tcolumns held_out))%nat ->
        nth loc (nth k (tdata held_out) []) Missing =
          nth (S loc) (nth i (rows sampled) []) Missing /\
        nth (pred (List.length (tcolumns held_out)))
            (nth k (tdata held_out) []) Missing = Num (nth i codes 0%Z).
Proof.
  intros w a s' df0 H Hdf Hwf.
  destruct (held_out_of_run w a s' H)
    as (df0' & sampled & loc & enc & codes & idx & held & A1 & A2 & A3 & A4
        & A5 & A6 & A7 & A8 & A9).
  assert (df0' = df0) by congruence. subst df0'.
  exists sampled, loc, codes, idx, held.
  rewrite A8. repeat (split; [assumption|]).
  split; [rewrite A9; apply length_map|].
  intros k i Hk Hi Hloc.
  assert (Hrow : nth k (tdata held) [] =
                 held_out_row loc (nth i (rows sampled) []) (nth i codes 0%Z)).
  { rewrite A9.
    apply nth_error_nth.
    rewrite nth_error_map, Hk. reflexivity. }
  rewrite Hrow. unfold held_out_row.
  assert (Hlen : List.length (nth i (rows sampled) []) =
                 List.length (columns sampled)).
  { unfold wf_frame in Hwf. rewrite Forall_forall in Hwf.
    unfold columns. rewrite length_map, (frame_sample_schema _ _ _ _ A2).
    apply Hwf.
    unfold frame_sample in A2.
    destruct (Qle_bool 0 (sample a) && Qle_bool (sample a) 1);
      [|discriminate].
    destruct (take _ (rows (select_dtypes numerics df0))) as [rs|] eqn:Et;
      [|discriminate].
    inversion A2; subst sampled. cbn [rows] in *.
    destruct (take_ok_inv _ _ _ _ Et) as [_ Hincl].
    apply Hincl. now apply nth_In. }
  assert (Hdl : List.length (delete loc (nth i (rows sampled) [])) =
                pred (List.length (columns sampled))).
  { rewrite delete_length; [now rewrite Hlen|]. rewrite Hlen. lia. }
  split.
  - rewrite app_nth1 by (rewrite Hdl; lia).
    now apply nth_delete_after.
  - rewrite <- Hdl. rewrite app_nth2 by lia.
    now rewrite Nat.sub_diag.
Qed.

(** X8: in every complete run the feature-importance visualizer was
    created, for the fitted model that the run logs, with [labels] equal to
    the column names of the feature matrix [X], in the same order: the
    saved header with the label name taken out is the list of the columns
    left after dropping the label from the sampled frame, one fewer than
    the header.  The three looped visualizers were created without
    [labels]. *)
Theorem feature_importance_labels_match_features :
  forall (w : World) (a : arguments) (s' : state),
    train_model w a initial_state = (Ok tt, s') ->
    exists df0 sampled labels features loc model v,
      as_df (dataset a) = Ok df0 /\
      frame_sample w (sample a) (select_dtypes numerics df0) = Ok sampled /\
      getitem sampled (label_column a) = Ok labels /\
      drop sampled (label_column a) = Ok features /\
      get_loc (label_column a) (columns (select_dtypes numerics df0))
        = Ok loc /\
      In (LogModel "model" (DumpEstimator model)
                   (artifact_subpath (models_dest a)) "model.pkl"
                   extra_data_of_run (results s')
                   [("class", model_pkg_class a)]) (trace s') /\
      viz_new FeatureImportances model
              (map str_label (drop_duplicates labels))
              (Some (columns features)) = Ok v /\
      columns features =
        delete loc (columns (select_dtypes numerics df0)) /\
      List.length (columns features) =
        pred (List.length (columns (select_dtypes numerics df0))) /\
      (forall r, r <> FeatureImportances ->
                 exists v',
                   viz_new r model (map str_label (drop_duplicates labels))
                           None = Ok v').
Proof.
  intros w a s' H.
  apply train_model_ok_trace in H.
  destruct H as (df0 & sampled & labels & features & y & idx & p & cfg & cls
                 & m0 & model & t1 & t2 & t3 & data & held & metrics & H).
  decompose [and] H; clear H.
  match goal with D : drop sampled _ = Ok _ |- _ =>
    destruct (drop_ok_inv _ _ _ D) as (loc & Hloc & Hfeat) end.
  assert (Hh : df_header p = columns sampled).
  { match goal with E : df_header p = _ |- _ => rewrite E end.
    unfold columns.
    match goal with S : frame_sample _ _ _ = Ok sampled |- _ =>
      now rewrite (frame_sample_schema _ _ _ _ S) end. }
  assert (Hh0 : columns (select_dtypes numerics df0) = columns sampled).
  { match goal with E : df_header p = _ |- _ => now rewrite <- E end. }
  assert (Hc : columns features = delete loc (columns sampled)).
  { rewrite Hfeat. unfold columns. cbn [schema]. apply map_delete. }
  match goal with G : forall r, exists v, generate_in a p model r = Ok v |- _ =>
    rename G into Hgen end.
  assert (Hcls : classes p = map str_label (drop_duplicates labels))
    by assumption.
  destruct (Hgen FeatureImportances) as (v4 & G4).
  unfold generate_in, report_labels, generate in G4.
  rewrite Hh, Hloc, <- Hc, Hcls in G4.
  destruct (viz_new FeatureImportances model
                    (map str_label (drop_duplicates labels))
                    (Some (columns features))) as [v|] eqn:Ev;
    [|discriminate].
  exists df0, sampled, labels, features, loc, model, v.
  rewrite Hh0.
  repeat (split; [assumption|]).
  split.
  { match goal with T : trace s' = _ |- _ => rewrite T end.
    match goal with R : results s' = _ |- _ => rewrite R end.
    unfold log_events. rewrite !in_app_iff. cbn [In]. tauto. }
  split; [exact Ev|]. split; [exact Hc|].
  split.
  { rewrite Hc. apply delete_length.
    now destruct (get_loc_ok_inv _ _ _ Hloc). }
  intros r Hr. destruct (Hgen r) as (vr & Gr).
  unfold generate_in, report_labels, generate in Gr. rewrite Hcls in Gr.
  destruct r; try congruence;
    match type of Gr with
    | context [viz_new ?r ?m ?c None] =>
        destruct (viz_new r m c None) as [v'|]; [eauto|discriminate]
    end.
Qed.

(** ** The logged metrics *)

Lemma dict_update_app :
  forall V (d l1 l2 : list (string * V)),
    dict_update d (l1 ++ l2) = dict_update (dict_update d l1) l2.
Proof. intros. unfold dict_update. apply fold_left_app. Qed.

Lemma for_log_results :
  forall A (f : A -> string * option Metric) (l : list A) s,
    for_ l (fun x => log_results [f x]) s =
      (Ok tt, snd (for_ l (fun x => log_results [f x]) s)) /\
    plt (snd (for_ l (fun x => log_results [f x]) s)) = plt s /\
    results (snd (for_ l (fun x => log_results [f x]) s)) =
      dict_update (results s) (map f l).
Proof.
  intros A f l; induction l as [|x l IH]; intros s.
  - cbn. auto.
  - cbn [for_ map]. unfold bind at 1 2 3 4, log_results at 1 2 3 4.
    cbn iota.
    match goal with |- context [for_ l _ ?s0] =>
      destruct (IH s0) as (E & P & R) end.
    rewrite E at 1. cbn [fst snd]. repeat split; auto.
Qed.

Lemma classification_loop :
  forall (scores : list (string * list (string * Metric))) s,
    let loop :=
      for_ scores (fun sc =>
        for_ (snd sc) (fun cl =>
          log_results
            [(String.append (fst sc) (String.append "-" (fst cl)),
              dict_get (snd sc) (fst cl))])) in
    loop s = (Ok tt, snd (loop s)) /\
    plt (snd (loop s)) = plt s /\
    results (snd (loop s)) =
      dict_update (results s) (classification_entries scores).
Proof.
  induction scores as [|sc scores IH]; intros s; cbn zeta.
  - cbn. auto.
  - cbn [for_ classification_entries flat_map]. unfold bind.
    destruct (for_log_results _
                (fun cl => (String.append (fst sc)
                              (String.append "-" (fst cl)),
                            dict_get (snd sc) (fst cl)))
                (snd sc) s) as (E & P & R).
    rewrite E. cbn iota.
    match goal with |- context [for_ scores _ ?s0] =>
      destruct (IH s0) as (E' & P' & R') end.
    rewrite E' at 1. cbn [fst snd].
    repeat split.
    + congruence.
    + rewrite R', R. symmetry. apply dict_update_app.
Qed.

(** [context.results] after the body of the loop for report [r]. *)
Lemma report_body_results :
  forall r model cls Xtr ytr Xte yte extra v s,
    generate r model cls None Xtr ytr Xte yte = Ok v ->
    results (snd (report_body model cls Xtr ytr Xte yte extra r s)) =
      match r with
      | ROCAUC => dict_update (results s) (roc_entries (viz_roc_auc v))
      | ClassificationReport =>
          dict_update (results s) (classification_entries (viz_scores v))
      | _ => results s
      end.
Proof.
  intros r model cls Xtr ytr Xte yte extra v s Hg.
  unfold generate in Hg.
  destruct (viz_new r model cls None) as [v1|] eqn:E1; [|discriminate].
  destruct (viz_fit v1 Xtr ytr) as [v2|] eqn:E2; [|discriminate].
  unfold report_body.
  unfold bind at 1, plt_clear at 1. cbn iota.
  unfold bind at 1, get_fig at 1. cbn iota. cbn [plt].
  unfold bind at 1, emit at 1. cbn iota. cbn [plt results trace].
  unfold bind at 1, lift at 1. rewrite E1. cbn iota.
  unfold bind at 1, emit at 1. cbn iota. cbn [plt results trace].
  unfold bind at 1, lift at 1. rewrite E2. cbn iota.
  unfold bind at 1, emit at 1. cbn iota. cbn [plt results trace].
  unfold bind at 1, lift at 1. rewrite Hg. cbn iota.
  unfold bind at 1, draw at 1. cbn iota. cbn [plt results trace].
  unfold bind at 1, get_fig at 1. cbn iota. cbn [plt].
  unfold bind at 1, emit at 1. cbn iota. cbn [plt results trace].
  destruct r; cbn [report_name String.eqb Ascii.eqb Bool.eqb].
  - unfold bind, log_results, ret. reflexivity.
  - match goal with |- context [bind (for_ _ _) _ ?s0] =>
      destruct (classification_loop (viz_scores v) s0) as (E & _ & R) end.
    cbn zeta in E, R. unfold bind at 1. rewrite E. unfold ret.
    cbn [snd]. exact R.
  - reflexivity.
  - reflexivity.
Qed.

Lemma evaluate_results :
  forall a p model s x s',
    evaluate a p model s = (Ok x, s') ->
    exists v1 v2,
      generate_in a p model ROCAUC = Ok v1 /\
      generate_in a p model ClassificationReport = Ok v2 /\
      results s' =
        dict_update
          (dict_update (results s) (roc_entries (viz_roc_auc v1)))
          (classification_entries (viz_scores v2)).
Proof.
  intros a p model s x s' H.
  unfold evaluate in H. cbn [for_acc] in H.
  unfold info in H.
  apply bind_inv_ok in H. destruct H as ([] & s0 & H0 & H).
  unfold emit in H0. inversion H0; subst s0; clear H0.
  apply bind_inv_ok in H. destruct H as (x3 & s3 & H & HF).
  apply bind_inv_ok in H. destruct H as (x1 & s1 & H1 & H).
  apply bind_inv_ok in H. destruct H as (x2 & s2 & H2 & H).
  apply bind_inv_ok in H. destruct H as (x3' & s3' & H3 & H).
  unfold ret in H. inversion H; subst x3' s3'; clear H.
  destruct (report_body_ok_inv _ _ _ _ _ _ _ _ _ _ _ H1)
    as (v1 & _ & G1 & _).
  destruct (report_body_ok_inv _ _ _ _ _ _ _ _ _ _ _ H2)
    as (v2 & _ & G2 & _).
  destruct (report_body_ok_inv _ _ _ _ _ _ _ _ _ _ _ H3)
    as (v3 & _ & G3 & _).
  match type of H1 with
  | report_body _ _ _ _ _ _ _ _ ?s0 = _ =>
      pose proof (report_body_results _ _ _ _ _ _ _ [] _ s0 G1) as R1
  end.
  rewrite H1 in R1.
  pose proof (report_body_results _ _ _ _ _ _ _ x1 _ s1 G2) as R2.
  rewrite H2 in R2.
  pose proof (report_body_results _ _ _ _ _ _ _ x2 _ s2 G3) as R3.
  rewrite H3 in R3.
  cbn [snd results] in R1, R2, R3.
  unfold bind, lift, get_fig, emit, draw, plt_clear, ret in HF.
  crunch HF. inversion HF; subst x s'; clear HF.
  exists v1, v2. cbn [results].
  split; [exact G1|]. split; [exact G2|].
  now rewrite R3, R2, R1.
Qed.

Lemma has_dash_append :
  forall a b, has_dash (String.append a (String "-"%char b)) = true.
Proof.
  induction a as [|c a IH]; intros b.
  - reflexivity.
  - cbn [String.append has_dash]. rewrite IH. apply orb_true_r.
Qed.

Lemma dict_get_update_other :
  forall V (l d : list (string * V)) k,
    (forall kv, In kv l -> String.eqb k (fst kv) = false) ->
    dict_get (dict_update d l) k = dict_get d k.
Proof.
  intros V l; induction l as [|[k' v'] l IH]; intros d k H.
  - reflexivity.
  - unfold dict_update. cbn [fold_left fst snd].
    change (fold_left _ l ?d0) with (dict_update d0 l).
    rewrite IH by (intros kv Hkv; apply H; now right).
    apply dict_get_set_other. apply (H (k', v')). now left.
Qed.

Lemma classification_entries_dashed :
  forall scores kv,
    In kv (classification_entries scores) -> has_dash (fst kv) = true.
Proof.
  intros scores kv H. unfold classification_entries in H.
  apply in_flat_map in H. destruct H as (sc & _ & H).
  apply in_map_iff in H. destruct H as (cl & <- & _).
  exact (has_dash_append (fst sc) (fst cl)).
Qed.

(** X9: in a complete run [context.results] ends as the ROC entries
    [micro] and [macro] updated with one entry per score kind and class of
    the classification report under the key [kind-class]; these are the
    metrics stored with the model.  Keys without a dash are out of reach
    of the classification entries, so [micro] and [macro] still hold the
    ROC values. *)
Theorem logged_metrics_of_complete_run :
  forall (w : World) (a : arguments) (s' : state),
    train_model w a initial_state = (Ok tt, s') ->
    exists p model v1 v2,
      generate_in a p model ROCAUC = Ok v1 /\
      generate_in a p model ClassificationReport = Ok v2 /\
      results s' =
        dict_update (roc_entries (viz_roc_auc v1))
                    (classification_entries (viz_scores v2)) /\
      model_metrics s' = [results s'] /\
      dict_get (results s') "micro" = Some (dict_get (viz_roc_auc v1) "micro")
      /\
      dict_get (results s') "macro" = Some (dict_get (viz_roc_auc v1) "macro")
      /\
      (forall k, has_dash k = false -> k <> "micro" -> k <> "macro" ->
                 dict_get (results s') k = None).
Proof.
  intros w a s' H.
  assert (Hm : model_metrics s' = [results s']).
  { destruct (train_model_ok_trace w a s' H)
      as (df0 & sampled & labels & features & y & idx & p & cfg & cls
          & m0 & model & t1 & t2 & t3 & data & held & metrics & H').
    decompose [and] H'; clear H'.
    unfold model_metrics.
    match goal with T : trace s' = _ |- _ => rewrite T end.
    match goal with R : results s' = _ |- _ => rewrite R end.
    unfold evaluate_events, report_events. rewrite !flat_map_app.
    assert (Q : forall t, forallb is_log_results t = true ->
                  flat_map (fun ev => match ev with
                                      | LogModel _ _ _ _ _ m _ => [m]
                                      | _ => []
                                      end) t = []).
    { induction t as [|ev t IH]; cbn; [auto|].
      intros Hq. apply andb_prop in Hq. destruct Hq as [Hev Ht].
      destruct ev; try discriminate Hev. cbn. auto. }
    rewrite (Q t1), (Q t2), (Q t3) by assumption.
    unfold setup_events. destruct (truthy_str (dask_function a)); reflexivity. }
  apply train_model_ok_inv in H.
  destruct H as (c & s1 & p & s2 & model & s3 & s4 & H1 & H2 & H3 & H4 & H5).
  destruct (setup_client_state a initial_state) as (_ & R1 & _).
  rewrite H1 in R1. cbn [snd results initial_state] in R1.
  apply prepare_ok_inv in H2.
  destruct H2 as (df0 & sampled & labels & features & y & idx & A1 & A2 & A3
                  & A4 & A5 & A6 & A7 & A8 & A9 & A10 & A11 & A12 & A13
                  & A14 & A15 & A16 & A17 & P2 & R2 & T2).
  apply build_and_fit_ok_inv in H3.
  destruct H3 as (cfg & cls & m0 & B1 & B2 & B3 & B4 & P3 & R3 & T3).
  apply evaluate_results in H4.
  destruct H4 as (v1 & v2 & G1 & G2 & R4).
  apply log_artifacts_ok_inv in H5.
  destruct H5 as (data & held & D1 & D2 & E).
  assert (Hr : results s' =
               dict_update (roc_entries (viz_roc_auc v1))
                           (classification_entries (viz_scores v2))).
  { subst s'. cbn [results]. rewrite R4, R3, R2, R1. reflexivity. }
  exists p, model, v1, v2.
  split; [exact G1|]. split; [exact G2|]. split; [exact Hr|].
  split; [exact Hm|].
  assert (Hother : forall k, has_dash k = false ->
            dict_get (results s') k =
            dict_get (roc_entries (viz_roc_auc v1)) k).
  { intros k Hk. rewrite Hr. apply dict_get_update_other.
    intros kv Hkv. apply classification_entries_dashed in Hkv.
    destruct (String.eqb k (fst kv)) eqn:E'; [|reflexivity].
    apply String.eqb_eq in E'. congruence. }
  split; [rewrite Hother by reflexivity; reflexivity|].
  split; [rewrite Hother by reflexivity; reflexivity|].
  intros k Hk Hmi Hma. rewrite (Hother k Hk). unfold roc_entries.
  cbn [dict_get].
  destruct (String.eqb k "micro") eqn:E1;
    [apply String.eqb_eq in E1; contradiction|].
  destruct (String.eqb k "macro") eqn:E2;
    [apply String.eqb_eq in E2; contradiction|].
  reflexivity.
Qed.

(** ** The closing log line *)

Lemma setup_client_not_done :
  forall a, emits_only not_done (setup_client a).
Proof. intros a; unfold setup_client; emits. Qed.

Lemma prepare_not_done :
  forall w a, emits_only not_done (prepare w a).
Proof. intros w a; unfold prepare; emits. Qed.

Lemma build_and_fit_not_done :
  forall a p, emits_only not_done (build_and_fit a p).
Proof. intros a p; unfold build_and_fit; emits. Qed.

Lemma evaluate_not_done :
  forall a p model, emits_only not_done (evaluate a p model).
Proof.
  intros a p model. unfold evaluate, info.
  apply emits_bind; [apply emits_emit; reflexivity|intros _].
  apply emits_bind.
  - apply emits_for_acc. intros acc r.
    apply (emits_weaken _ (of_report r)); [|apply report_body_emits].
    intros ev; destruct ev; try discriminate; reflexivity.
  - intros extra. emits.
Qed.

Lemma log_artifacts_raise_not_done :
  forall a p model extra s e s',
    log_artifacts a p model extra s = (Raise e, s') ->
    exists t, trace s' = trace s ++ t /\ forallb not_done t = true.
Proof.
  intros a p model extra s e s' H.
  unfold log_artifacts, info, bind, emit, get_results, lift in H.
  cbn [plt results trace] in H.
  destruct (column_stack (X_test p) (y_test p)) as [data|e1].
  - destruct (DataFrame data (df_header p)) as [held|e2].
    + discriminate H.
    + inversion H; subst. cbn [trace]. rewrite <- !app_assoc.
      eexists; split; reflexivity.
  - inversion H; subst. cbn [trace]. rewrite <- !app_assoc.
    eexists; split; reflexivity.
Qed.

(** X10: the closing line ["Done!"] is logged exactly by the runs that
    complete: it is the last event of a complete run and is absent from
    the trace of every failed run, whatever the stage that failed. *)
Theorem done_is_logged_iff_run_completes :
  forall (w : World) (a : arguments),
    (In (LoggerInfo "Done!") (trace (snd (train_model w a initial_state)))
     <-> fst (train_model w a initial_state) = Ok tt) /\
    (fst (train_model w a initial_state) = Ok tt ->
     exists t, trace (snd (train_model w a initial_state)) =
               t ++ [LoggerInfo "Done!"]).
Proof.
  intros w a.
  assert (Hok : fst (train_model w a initial_state) = Ok tt ->
                exists t, trace (snd (train_model w a initial_state)) =
                          t ++ [LoggerInfo "Done!"]).
  { intros H.
    destruct (train_model w a initial_state) as [r s'] eqn:E.
    cbn [fst snd] in *. subst r.
    destruct (train_model_ok_trace w a s' E)
      as (df0 & sampled & labels & features & y & idx & p & cfg & cls
          & m0 & model & t1 & t2 & t3 & data & held & metrics & H').
    decompose [and] H'; clear H'.
    match goal with T : trace s' = _ |- _ => rewrite T end.
    unfold log_events.
    eexists. rewrite !app_assoc.
    match goal with
    | |- ?l ++ [?a1; ?a2; ?a3; ?a4; ?a5; ?a6; ?a7] = _ =>
        change (l ++ [a1; a2; a3; a4; a5; a6; a7])
          with (l ++ [a1; a2; a3; a4; a5; a6] ++ [a7])
    end.
    rewrite app_assoc. reflexivity. }
  split; [|exact Hok].
  split.
  - intros Hin.
    assert (Hfail : forall e, fst (train_model w a initial_state) = Raise e ->
              forallb not_done (trace (snd (train_model w a initial_state)))
                = true).
    { intros e He. unfold train_model in *.
      destruct (setup_client_not_done a initial_state) as (t0 & T0 & F0).
      cbn [trace initial_state app] in T0.
      destruct (setup_client a initial_state) as [[c|e0] s1] eqn:E0;
        cbn [snd] in T0.
      2:{ step_raise E0. cbn [snd]. now rewrite T0. }
      step_ok E0. rewrite (@bind_ok _ _ _ _ _ _ _ E0) in He.
      destruct (prepare_not_done w a s1) as (t1 & T1 & F1).
      destruct (prepare w a s1) as [[p|e1] s2] eqn:E1; cbn [snd] in T1.
      2:{ step_raise E1. cbn [snd]. rewrite T1, T0, forallb_app.
          now rewrite F0, F1. }
      step_ok E1. rewrite (@bind_ok _ _ _ _ _ _ _ E1) in He.
      destruct (build_and_fit_not_done a p s2) as (t2 & T2 & F2).
      destruct (build_and_fit a p s2) as [[m|e2] s3] eqn:E2; cbn [snd] in T2.
      2:{ step_raise E2. cbn [snd]. rewrite T2, T1, T0, !forallb_app.
          now rewrite F0, F1, F2. }
      step_ok E2. rewrite (@bind_ok _ _ _ _ _ _ _ E2) in He.
      destruct (evaluate_not_done a p m s3) as (t3 & T3 & F3).
      destruct (evaluate a p m s3) as [[x|e3] s4] eqn:E3; cbn [snd] in T3.
      2:{ step_raise E3. cbn [snd]. rewrite T3, T2, T1, T0, !forallb_app.
          now rewrite F0, F1, F2, F3. }
      step_ok E3. rewrite (@bind_ok _ _ _ _ _ _ _ E3) in He.
      destruct (log_artifacts a p m x s4) as [r s5] eqn:E4.
      cbn [fst snd] in *. subst r.
      destruct (log_artifacts_raise_not_done _ _ _ _ _ _ _ E4)
        as (t4 & T4 & F4).
      rewrite T4, T3, T2, T1, T0, !forallb_app.
      now rewrite F0, F1, F2, F3, F4. }
    destruct (fst (train_model w a initial_state)) as [[]|e] eqn:E;
      [reflexivity|].
    specialize (Hfail e eq_refl).
    rewrite forallb_forall in Hfail. specialize (Hfail _ Hin).
    discriminate Hfail.
  - intros H. destruct (Hok H) as (t & ->).
    apply in_or_app. right. now left.
Qed.

End PipelineFacts.

(** * The reference library and the scenarios *)

(** * Reproducibility

    Two runs are two sessions of the libraries: [L1] and [L2] may answer
    differently wherever the libraries are free to (the estimator, the
    visualizers), and the unseeded generator may draw differently ([w1],
    [w2]).  What the two sessions share is stated call by call. *)

Section Reproducibility.

Context {C : Carriers}.

(** C3 (as the code has it): two runs on the same arguments, seed and
    descriptor, in which the unseeded sampling step happened to produce the
    same frame and which both get through the preparation, have the same
    split and the same fitted scaler, whatever the sample fraction and
    whatever else differs between the two sessions.  The split is the one
    the splitter returns for the number of sampled rows, the train size and
    [random_state]: the train and test partitions are the feature rows and
    the label codes at those positions, and the scaler is the one fitted
    on that train partition.  This rests on the label encoder, the seeded
    splitter and the scaler fit being functions of their arguments in both
    sessions. *)
Theorem seeded_split_is_reproducible :
  forall (L1 L2 : Library) (w1 w2 : World) (a : arguments)
         (s1 s2 : state) (p1 p2 : prepared) (s1' s2' : state)
         (df0 sampled : frame),
    (forall labels, @encoder_fit C L1 labels = @encoder_fit C L2 labels) ->
    (forall enc labels,
        @encoder_transform C L1 enc labels =
        @encoder_transform C L2 enc labels) ->
    (forall n,
        @train_test_split C L1 n (train_validation_size a) (random_state a) =
        @train_test_split C L2 n (train_validation_size a) (random_state a)) ->
    (forall X, @scaler_fit C L1 X = @scaler_fit C L2 X) ->
    as_df (dataset a) = Ok df0 ->
    frame_sample w1 (sample a) (select_dtypes numerics df0) = Ok sampled ->
    frame_sample w2 (sample a) (select_dtypes numerics df0) = Ok sampled ->
    @prepare C L1 w1 a s1 = (Ok p1, s1') ->
    @prepare C L2 w2 a s2 = (Ok p2, s2') ->
    exists features y idx,
      drop sampled (label_column a) = Ok features /\
      In (TrainTestSplit (rows features) y (train_validation_size a)
                         (random_state a)) (trace s1') /\
      In (TrainTestSplit (rows features) y (train_validation_size a)
                         (random_state a)) (trace s2') /\
      @train_test_split C L1 (List.length (rows features))
        (train_validation_size a) (random_state a) = Ok idx /\
      X_train p1 = map (fun i => nth i (rows features) []) (fst idx) /\
      X_test p1 = map (fun i => nth i (rows features) []) (snd idx) /\
      y_train p1 = map (fun i => nth i y 0%Z) (fst idx) /\
      y_test p1 = map (fun i => nth i y 0%Z) (snd idx) /\
      @scaler_fit C L1 (X_train p1) = Ok (scaler p1) /\
      X_train p2 = X_train p1 /\ X_test p2 = X_test p1 /\
      y_train p2 = y_train p1 /\ y_test p2 = y_test p1 /\
      encoder p2 = encoder p1 /\
      scaler p2 = scaler p1.
Proof.
  intros L1 L2 w1 w2 a s1 s2 p1 p2 s1' s2' df0 sampled
         Henc Htra Hspl Hsca Hdf Hs1 Hs2 H1 H2.
  apply (@prepare_ok_inv C L1) in H1.
  destruct H1 as (df1 & sampled1 & labels1 & features1 & y1 & idx1 & A1 & _
                  & A3 & A4 & A5 & A6 & A7 & A8 & A9 & A10 & A11 & A12 & A13
                  & _ & _ & _ & _ & _ & _ & T1).
  apply (@prepare_ok_inv C L2) in H2.
  destruct H2 as (df2 & sampled2 & labels2 & features2 & y2 & idx2 & B1 & _
                  & B3 & B4 & B5 & B6 & B7 & B8 & B9 & B10 & B11 & B12 & B13
                  & _ & _ & _ & _ & _ & _ & T2).
  assert (df1 = df0) by congruence. subst df1.
  assert (df2 = df0) by congruence. subst df2.
  assert (sampled1 = sampled) by congruence. subst sampled1.
  assert (sampled2 = sampled) by congruence. subst sampled2.
  assert (labels2 = labels1) by congruence. subst labels2.
  assert (features2 = features1) by congruence. subst features2.
  assert (He : encoder p2 = encoder p1).
  { rewrite Henc in A5. congruence. }
  assert (y2 = y1).
  { rewrite He, <- Htra in B7. congruence. }
  subst y2.
  assert (idx2 = idx1).
  { rewrite Hspl in A8. congruence. }
  subst idx2.
  assert (HX1 : X_train p2 = X_train p1) by congruence.
  assert (HX2 : X_test p2 = X_test p1) by congruence.
  assert (Hy1 : y_train p2 = y_train p1) by congruence.
  assert (Hy2 : y_test p2 = y_test p1) by congruence.
  assert (Hsc : scaler p2 = scaler p1).
  { rewrite HX1, <- Hsca in B13. congruence. }
  exists features1, y1, idx1.
  split; [exact A6|].
  split; [rewrite T1, in_app_iff; cbn [In]; tauto|].
  split; [rewrite T2, in_app_iff; cbn [In]; tauto|].
  split; [exact A8|].
  split; [exact (take_ok_map _ _ _ _ [] A9)|].
  split; [exact (take_ok_map _ _ _ _ [] A10)|].
  split; [exact (take_ok_map _ _ _ _ 0%Z A11)|].
  split; [exact (take_ok_map _ _ _ _ 0%Z A12)|].
  split; [exact A13|].
  repeat (split; [assumption|]). exact Hsc.
Qed.

End Reproducibility.

Module ReferenceFacts.

Import Reference.

Lemma world_id_valid : valid_world world_id.
Proof.
  intros n k Hk. cbn [choice world_id].
  split; [apply seq_NoDup|split; [apply length_seq|]].
  apply Forall_forall. intros i Hi. apply in_seq in Hi. lia.
Qed.

Lemma world_rev_valid : valid_world world_rev.
Proof.
  intros n k Hk. cbn [choice world_rev].
  split; [apply NoDup_rev, seq_NoDup|split].
  - now rewrite length_rev, length_seq.
  - apply Forall_forall. intros i Hi. apply in_rev, in_seq in Hi. lia.
Qed.

Lemma cell_eqb_refl : forall c, cell_eqb c c = true.
Proof.
  intros [|z|s]; simpl;
    [reflexivity|apply Z.eqb_refl|apply String.eqb_refl].
Qed.

Lemma index_of_found :
  forall c l, existsb (cell_eqb c) l = true -> exists i, index_of c l = Some i.
Proof.
  intros c l; induction l as [|x l IH]; simpl; [discriminate|].
  destruct (cell_eqb c x); [eauto|].
  intros H. destruct (IH H) as (i & ->). eauto.
Qed.

Lemma drop_duplicates_aux_covers :
  forall l seen c,
    In c l ->
    existsb (cell_eqb c) seen = true \/
    existsb (cell_eqb c) (drop_duplicates_aux seen l) = true.
Proof.
  induction l as [|x l IH]; intros seen c H; [destruct H|].
  simpl. destruct (existsb (cell_eqb x) seen) eqn:E.
  - destruct H as [<-|H]; [now left|now apply IH].
  - simpl. destruct H as [<-|H].
    + right. now rewrite cell_eqb_refl.
    + destruct (IH (x :: seen) c H) as [H1|H1].
      * simpl in H1. apply orb_prop in H1. destruct H1 as [H1|H1].
        -- right. now rewrite H1.
        -- now left.
      * right. rewrite H1. apply orb_true_r.
Qed.

Lemma encode_total :
  forall classes y,
    (forall c, In c y -> existsb (cell_eqb c) classes = true) ->
    exists codes, encode classes y = Ok codes /\
                  List.length codes = List.length y.
Proof.
  intros classes y; induction y as [|c y IH]; intros H; simpl.
  - exists []; auto.
  - destruct (index_of_found c classes) as (i & ->); [apply H; now left|].
    destruct IH as (r & -> & Hr); [intros; apply H; now right|].
    exists (Z.of_nat i :: r); simpl; auto.
Qed.

Lemma floor_fraction_bounds :
  forall ts n, 0 < ts -> ts < 1 ->
    (0 <= Qfloor (ts * inject_Z (Z.of_nat n)) <= Z.of_nat n)%Z.
Proof.
  intros ts n H0 H1.
  assert (Hn : 0 <= inject_Z (Z.of_nat n)).
  { change 0 with (inject_Z 0). rewrite <- Zle_Qle. lia. }
  split.
  - rewrite <- (Qfloor_Z 0). apply Qfloor_resp_le.
    apply Qmult_le_0_compat; [now apply Qlt_le_weak|exact Hn].
  - rewrite <- (Qfloor_Z (Z.of_nat n)) at 2. apply Qfloor_resp_le.
    rewrite <- (Qmult_1_l (inject_Z (Z.of_nat n))) at 2.
    apply Qmult_le_compat_r; [now apply Qlt_le_weak|exact Hn].
Qed.

Lemma firstn_incl : forall A k (l : list A), incl (firstn k l) l.
Proof.
  intros A k l x Hx. rewrite <- (firstn_skipn k l).
  apply in_or_app. now left.
Qed.

Lemma skipn_incl : forall A k (l : list A), incl (skipn k l) l.
Proof.
  intros A k l x Hx. rewrite <- (firstn_skipn k l).
  apply in_or_app. now right.
Qed.

Lemma rotate_incl : forall A k (l : list A), incl (rotate k l) l.
Proof.
  intros A k l x Hx. unfold rotate in Hx. apply in_app_or in Hx.
  destruct Hx as [Hx|Hx]; [eapply skipn_incl|eapply firstn_incl]; eauto.
Qed.

Lemma rotate_length :
  forall A k (l : list A), List.length (rotate k l) = List.length l.
Proof.
  intros A k l. unfold rotate.
  rewrite <- (firstn_skipn k l) at 3. rewrite !length_app. lia.
Qed.

Lemma split_sizes :
  forall n ts seed idx,
    split n ts seed = Ok idx ->
    Forall (fun i => (i < n)%nat) (fst idx) /\
    Forall (fun i => (i < n)%nat) (snd idx) /\
    List.length (fst idx) = Z.to_nat (Qfloor (ts * inject_Z (Z.of_nat n))) /\
    (List.length (fst idx) + List.length (snd idx) = n)%nat.
Proof.
  intros n ts seed idx H. unfold split in H.
  destruct (Qle_bool ts 0) eqn:E0; [discriminate|].
  destruct (Qle_bool 1 ts) eqn:E1; [discriminate|]. cbn [orb] in H.
  assert (H0 : 0 < ts).
  { apply Qnot_le_lt. intros Hle. apply Qle_bool_iff in Hle. congruence. }
  assert (H1 : ts < 1).
  { apply Qnot_le_lt. intros Hle. apply Qle_bool_iff in Hle. congruence. }
  pose proof (floor_fraction_bounds ts n H0 H1) as Hb.
  set (n_train := Z.to_nat (Qfloor (ts * inject_Z (Z.of_nat n)))) in *.
  assert (Hle : (n_train <= n)%nat) by (unfold n_train; lia).
  set (perm := rotate _ (seq 0 n)) in H.
  assert (Hperm : forall i, In i perm -> (i < n)%nat).
  { intros i Hi. apply rotate_incl, in_seq in Hi. lia. }
  assert (Hlen : List.length perm = n)
    by (unfold perm; now rewrite rotate_length, length_seq).
  inversion H; subst idx; clear H. cbn [fst snd].
  repeat split.
  - apply Forall_forall. intros i Hi. apply Hperm. eapply skipn_incl; eauto.
  - apply Forall_forall. intros i Hi. apply Hperm. eapply firstn_incl; eauto.
  - rewrite length_skipn, Hlen. lia.
  - rewrite length_skipn, length_firstn, Hlen. lia.
Qed.

Lemma split_total :
  forall n ts seed,
    0 < ts -> ts < 1 -> exists idx, split n ts seed = Ok idx.
Proof.
  intros n ts seed H0 H1. unfold split.
  replace (Qle_bool ts 0) with false.
  2:{ symmetry. apply not_true_is_false. intros Hle.
      apply Qle_bool_iff in Hle. apply (Qlt_not_le _ _ H0 Hle). }
  replace (Qle_bool 1 ts) with false.
  2:{ symmetry. apply not_true_is_false. intros Hle.
      apply Qle_bool_iff in Hle. apply (Qlt_not_le _ _ H1 Hle). }
  cbn [orb]. eauto.
Qed.

(** The reference library answers every call of a run whose descriptor it
    knows and whose train fraction lies inside (0, 1). *)
Lemma reference_calls_succeed :
  forall known w a,
    str_in (model_pkg_class a) known = true ->
    0 < train_validation_size a -> train_validation_size a < 1 ->
    @library_calls_succeed carriers (library known None) w a.
Proof.
  intros known w a Hk H0 H1 df sampled labels features loc _ _ _ _ _ n.
  destruct (encode_total (drop_duplicates labels) labels)
    as (codes & Hcodes & Hlen).
  { intros c Hc.
    destruct (drop_duplicates_aux_covers labels [] c Hc) as [H|H];
      [discriminate|exact H]. }
  destruct (split_total n (train_validation_size a) (random_state a) H0 H1)
    as (idx & Hidx).
  destruct (split_sizes _ _ _ _ Hidx) as (S1 & S2 & S3 & S4).
  exists (drop_duplicates labels), codes, idx.
  cbn [encoder_fit encoder_transform train_test_split library].
  repeat (split; [assumption || reflexivity|]).
  intros X_train X_test y_train y_test _ _ _ _.
  cbn [scaler_fit scaler_transform gen_sklearn_model create_class construct
       estimator_fit library].
  unfold resolve. rewrite Hk.
  do 7 eexists.
  repeat (split; [reflexivity|]).
  split; [cbn [META_class]; rewrite Hk; reflexivity|].
  repeat (split; [reflexivity|]).
  intros r. unfold generate.
  cbn [viz_new viz_fit viz_score library score]. eauto.
Qed.

Lemma scenario_frame_wf :
  forall n d label, wf_frame (scenario_frame n d label).
Proof.
  intros n d label. unfold wf_frame, scenario_frame. cbn [schema rows].
  apply Forall_forall. intros r Hr. apply in_map_iff in Hr.
  destruct Hr as (i & <- & _). reflexivity.
Qed.

End ReferenceFacts.

(** * The claims on concrete runs *)

Import Reference ReferenceFacts.

(** Scenario A as worded, with a string label: the numeric restriction drops
    the label column and the run raises [KeyError] before anything is
    written; with an int64 label the held-out dataset carries the label
    column too. *)
Lemma scenario_string_label_raises_keyerror :
  fst (run None world_id scenario_A) = Raise (KeyError "label") /\
  artifact_writes (snd (run None world_id scenario_A)) = [] /\
  map tcolumns (held_out_tables (snd (run None world_id scenario_A_numeric)))
    = [["f1"; "f2"; "label"]].
Proof. vm_compute. repeat split. Qed.

Lemma scenario_numeric_label_completes_witness :
  exists s' p model held_out,
    @train_model carriers (library [classifier] None) world_id
      scenario_A_numeric initial_state = (Ok tt, s') /\
    artifact_writes s' =
      @complete_writes carriers (library [classifier] None)
        scenario_A_numeric p model (results s') held_out /\
    tcolumns held_out = ["f1"; "f2"; "label"] /\
    List.length (tdata held_out) = 25%nat /\
    Forall (fun r => List.length r = 3%nat) (tdata held_out).
Proof.
  apply (@scenario_numeric_label_completes carriers
           (library [classifier] None) world_id scenario_A_numeric
           (scenario_frame 100 Int64 int_label) Int64).
  - apply reference_calls_succeed; reflexivity.
  - apply world_id_valid.
  - reflexivity.
  - reflexivity.
  - reflexivity.
  - unfold retained_dtype; tauto.
  - apply scenario_frame_wf.
  - reflexivity.
  - vm_compute; reflexivity.
  - reflexivity.
  - reflexivity.
  - reflexivity.
Defined.

Lemma missing_values_abort_before_fit_witness :
  is_ok (fst (run None world_id scenario_C)) = false /\
  (is_ok (fst (@setup_client carriers (library [classifier] None)
                 scenario_C initial_state)) = true ->
   fst (run None world_id scenario_C) =
     Raise (PyException "NAs valus found")) /\
  forallb (@no_fit_no_write carriers)
          (trace (snd (run None world_id scenario_C))) = true.
Proof.
  apply (@missing_values_abort_before_fit carriers
           (library [classifier] None) world_id scenario_C frame_with_null).
  - reflexivity.
  - vm_compute; reflexivity.
Defined.

(** Same arguments, seed and descriptor, sample fraction 1.0, two valid
    answers of the unseeded generator: the held-out rows and the fitted
    scaler differ. *)
Lemma unseeded_sample_changes_split :
  valid_world world_id /\ valid_world world_rev /\
  held_out_tables (snd (run None world_id small_scenario)) <>
  held_out_tables (snd (run None world_rev small_scenario)) /\
  logged_scalers (snd (run None world_id small_scenario)) <>
  logged_scalers (snd (run None world_rev small_scenario)).
Proof.
  split; [apply world_id_valid|split; [apply world_rev_valid|]].
  split; intros H; vm_compute in H; discriminate H.
Qed.

Lemma seeded_split_is_reproducible_witness :
  exists p1 s1' p2 s2',
    @prepare carriers (library [classifier] None) world_id small_scenario
      initial_state = (Ok p1, s1') /\
    @prepare carriers ReferenceVariants.library_failing_fit world_mixed
      small_scenario initial_state = (Ok p2, s2') /\
    exists features y idx,
      drop (scenario_frame 8 Int64 int_label) (label_column small_scenario)
        = Ok features /\
      In (TrainTestSplit (rows features) y
            (train_validation_size small_scenario)
            (random_state small_scenario)) (trace s1') /\
      In (TrainTestSplit (rows features) y
            (train_validation_size small_scenario)
            (random_state small_scenario)) (trace s2') /\
      split (List.length (rows features))
            (train_validation_size small_scenario)
            (random_state small_scenario) = Ok idx /\
      X_train p1 = map (fun i => nth i (rows features) []) (fst idx) /\
      X_test p1 = map (fun i => nth i (rows features) []) (snd idx) /\
      y_train p1 = map (fun i => nth i y 0%Z) (fst idx) /\
      y_test p1 = map (fun i => nth i y 0%Z) (snd idx) /\
      Ok (column_sums (X_train p1)) = Ok (scaler p1) /\
      X_train p2 = X_train p1 /\ X_test p2 = X_test p1 /\
      y_train p2 = y_train p1 /\ y_test p2 = y_test p1 /\
      encoder p2 = encoder p1 /\
      scaler p2 = scaler p1.
Proof.
  do 4 eexists.
  split; [vm_compute; reflexivity|].
  split; [vm_compute; reflexivity|].
  eapply (@seeded_split_is_reproducible carriers
            (library [classifier] None) ReferenceVariants.library_failing_fit
            world_id world_mixed small_scenario initial_state initial_state
            _ _ _ _ (scenario_frame 8 Int64 int_label)
            (scenario_frame 8 Int64 int_label)).
  - intros; reflexivity.
  - intros; reflexivity.
  - intros; reflexivity.
  - intros; reflexivity.
  - reflexivity.
  - vm_compute; reflexivity.
  - vm_compute; reflexivity.
  - vm_compute; reflexivity.
  - vm_compute; reflexivity.
Defined.

(** The confusion-matrix report fails: feature importance is never
    started and the run ends with the two plots logged before it. *)
Lemma confusion_matrix_failure_blocks_feature_importances :
  fst (run (Some ConfusionMatrix) world_id small_scenario) =
    Raise (LibraryError "Visualizer.score") /\
  started_reports (snd (run (Some ConfusionMatrix) world_id small_scenario)) =
    [ROCAUC; ClassificationReport; ConfusionMatrix] /\
  artifact_writes (snd (run (Some ConfusionMatrix) world_id small_scenario)) =
    [LogPlot (plot_of ROCAUC [ROCAUC]);
     LogPlot (plot_of ClassificationReport [ClassificationReport])].
Proof. vm_compute. repeat split. Qed.

Lemma report_failure_aborts_run_witness :
  is_ok (fst (run (Some ConfusionMatrix) world_id small_scenario)) = false /\
  forallb (@not_past carriers ConfusionMatrix)
          (trace (snd (run (Some ConfusionMatrix) world_id small_scenario)))
    = true /\
  fst (run (Some ConfusionMatrix) world_id small_scenario) =
    Raise (LibraryError "Visualizer.score") /\
  started_reports (snd (run (Some ConfusionMatrix) world_id small_scenario)) =
    [ROCAUC; ClassificationReport; ConfusionMatrix] /\
  artifact_writes (snd (run (Some ConfusionMatrix) world_id small_scenario)) =
    [LogPlot (plot_of ROCAUC [ROCAUC]);
     LogPlot (plot_of ClassificationReport [ClassificationReport])].
Proof.
  edestruct (@report_failure_aborts_run carriers
               (library [classifier] (Some ConfusionMatrix)) world_id
               small_scenario ConfusionMatrix
               (LibraryError "Visualizer.score")) as (H1 & H2 & H3).
  - vm_compute; reflexivity.
  - vm_compute; reflexivity.
  - vm_compute; reflexivity.
  - vm_compute; reflexivity.
  - split; [exact H1|]. split; [exact H2|]. apply H3.
    intros r' Hr'. destruct r'; cbn in Hr'; try lia;
      eexists; vm_compute; reflexivity.
Defined.

(** Sample fraction 1.0 and a generator that answers in decreasing order:
    the frame handed to the label encoder is the numeric frame upside
    down, not the numeric frame itself. *)
Lemma full_sample_reverses_rows :
  valid_world world_rev /\
  (exists sampled,
      frame_sample world_rev 1
        (select_dtypes numerics (scenario_frame 8 Int64 int_label))
        = Ok sampled /\
      rows sampled =
        rev (rows (select_dtypes numerics (scenario_frame 8 Int64 int_label)))
      /\
      rows sampled <>
        rows (select_dtypes numerics (scenario_frame 8 Int64 int_label))) /\
  getitem (select_dtypes numerics (scenario_frame 8 Int64 int_label)) "label"
    = Ok (map int_label (seq 0 8)) /\
  encoder_inputs (snd (run None world_rev small_scenario))
    = [rev (map int_label (seq 0 8))] /\
  rev (map int_label (seq 0 8)) <> map int_label (seq 0 8).
Proof.
  split; [apply world_rev_valid|].
  split.
  { eexists. split; [vm_compute; reflexivity|].
    split; [vm_compute; reflexivity|].
    intros H; vm_compute in H; discriminate H. }
  split; [vm_compute; reflexivity|].
  split; [vm_compute; reflexivity|].
  intros H; vm_compute in H; discriminate H.
Qed.

Lemma full_sample_is_a_reordering_witness :
  exists df0 sampled labels features y,
    as_df (dataset small_scenario) = Ok df0 /\
    frame_sample world_rev (sample small_scenario)
                 (select_dtypes numerics df0) = Ok sampled /\
    schema sampled = schema (select_dtypes numerics df0) /\
    Permutation (rows sampled) (rows (select_dtypes numerics df0)) /\
    getitem sampled (label_column small_scenario) = Ok labels /\
    drop sampled (label_column small_scenario) = Ok features /\
    In (EncoderFit labels)
       (trace (snd (@prepare carriers (library [classifier] None)
                      world_rev small_scenario initial_state))) /\
    In (TrainTestSplit (to_dask_array features) y
          (train_validation_size small_scenario)
          (random_state small_scenario))
       (trace (snd (@prepare carriers (library [classifier] None)
                      world_rev small_scenario initial_state))).
Proof.
  eapply (@full_sample_is_a_reordering carriers (library [classifier] None)
            world_rev small_scenario initial_state).
  - apply world_rev_valid.
  - reflexivity.
  - vm_compute; reflexivity.
Defined.

Lemma feature_importances_on_uncleared_surface_witness :
  (forall r before,
      In (VizNew r before) (trace (snd (run None world_id small_scenario))) ->
      before = match r with
               | FeatureImportances => [ConfusionMatrix]
               | _ => []
               end) /\
  In (VizNew FeatureImportances [ConfusionMatrix])
     (trace (snd (run None world_id small_scenario))) /\
  In (LogPlot (plot_of FeatureImportances
                       [ConfusionMatrix; FeatureImportances]))
     (trace (snd (run None world_id small_scenario))).
Proof.
  apply (@feature_importances_on_uncleared_surface carriers
           (library [classifier] None) world_id small_scenario).
  vm_compute; reflexivity.
Defined.

Lemma unresolvable_class_fails_before_fit_witness :
  is_ok (fst (run None world_id scenario_D)) = false /\
  forallb (fun ev => negb (is_fit_stage ev))
          (trace (snd (run None world_id scenario_D))) = true /\
  (forall c s1 p s2,
      @setup_client carriers (library [classifier] None) scenario_D
        initial_state = (Ok c, s1) ->
      @prepare carriers (library [classifier] None) world_id scenario_D s1
        = (Ok p, s2) ->
      run None world_id scenario_D = (Raise (LibraryError "import_module"), s2)).
Proof.
  apply (@unresolvable_class_fails_before_fit carriers
           (library [classifier] None) world_id scenario_D
           (LibraryError "import_module")).
  left. reflexivity.
Defined.

Lemma client_required_function_first_witness :
  run None world_id no_backend =
    (Raise (ValueError "dask client was not provided"), initial_state) /\
  (forall cl,
      @train_model carriers (library [classifier] None) world_id
        (with_dask_client both_backends cl) initial_state =
      run None world_id both_backends).
Proof.
  split.
  - apply (proj1 (@client_required_function_first carriers
                    (library [classifier] None) world_id no_backend
                    initial_state)); reflexivity.
  - apply (proj2 (@client_required_function_first carriers
                    (library [classifier] None) world_id both_backends
                    initial_state) "db://project/dask-cluster").
    reflexivity.
Defined.

Lemma held_out_dataset_is_unscaled_witness :
  exists df0 X y idx X_train X_test y_train y_test sc
         X_train_transformed X_test_transformed kw held_out,
    In (TrainTestSplit X y (train_validation_size small_scenario)
                       (random_state small_scenario))
       (trace (snd (run None world_id small_scenario))) /\
    split (List.length X) (train_validation_size small_scenario)
          (random_state small_scenario) = Ok idx /\
    take (fst idx) X = Ok X_train /\
    take (snd idx) X = Ok X_test /\
    take (fst idx) y = Ok y_train /\
    take (snd idx) y = Ok y_test /\
    Ok (column_sums X_train) = Ok sc /\
    Ok (map (centre (Z.of_nat (fst sc)) (snd sc)) X_train)
      = Ok X_train_transformed /\
    Ok (map (centre (Z.of_nat (fst sc)) (snd sc)) X_test)
      = Ok X_test_transformed /\
    In (EstimatorFit kw) (trace (snd (run None world_id small_scenario))) /\
    dict_get kw "X" = Some (KwMatrix X_train_transformed) /\
    (forall r, In (VizScore r X_test_transformed y_test)
                  (trace (snd (run None world_id small_scenario)))) /\
    In (LogDataset (test_set_key small_scenario) held_out
                   (file_ext small_scenario) [("data-type", "held-out")]
                   "artifacts/data")
       (trace (snd (run None world_id small_scenario))) /\
    column_stack X_test y_test = Ok (tdata held_out) /\
    as_df (dataset small_scenario) = Ok df0 /\
    tcolumns held_out = columns (select_dtypes numerics df0) /\
    (forall key df fmt labels path,
        In (LogDataset key df fmt labels path)
           (trace (snd (run None world_id small_scenario))) ->
        df = held_out) /\
    X_test = map (fun i => nth i X []) (snd idx) /\
    tdata held_out =
      map (fun i => nth i X [] ++ [Num (nth i y 0%Z)]) (snd idx).
Proof.
  apply (@held_out_dataset_is_unscaled carriers (library [classifier] None)
           world_id small_scenario).
  vm_compute; reflexivity.
Defined.

(** In the eight-row run the logged held-out rows are the raw test rows,
    while the reports are scored on their centred images. *)
Example held_out_rows_differ_from_scored_rows :
  map tdata (held_out_tables (snd (run None world_id small_scenario)))
    = [[[Num 2; Num 4; Num 0]; [Num 3; Num 6; Num 1]]] /\
  In (VizScore ROCAUC [[Num (-11); Num (-22)]; [Num (-5); Num (-10)]]
               [0%Z; 1%Z])
     (trace (snd (run None world_id small_scenario))).
Proof.
  split; [vm_compute; reflexivity|].
  vm_compute. repeat (first [left; reflexivity|right]).
Qed.

(** * Further properties on concrete runs *)

Import ReferenceVariants.

Lemma select_dtypes_numerics_exact_witness :
  exists p s',
    @prepare carriers (library [classifier] None) world_id mixed_scenario
      initial_state = (Ok p, s') /\
    exists loc X y,
      df_header p =
        map fst (filter (fun c => str_in (dtype_name (snd c)) numerics)
                        (schema (mixed_frame 8))) /\
      get_loc (label_column mixed_scenario) (df_header p) = Ok loc /\
      In (TrainTestSplit X y (train_validation_size mixed_scenario)
                         (random_state mixed_scenario)) (trace s') /\
      incl (X_train p) X /\ incl (X_test p) X /\
      forall x, In x X ->
        exists r,
          In r (rows (mixed_frame 8)) /\
          x = delete loc
                (map snd
                   (filter (fun cv =>
                              str_in (dtype_name (snd (fst cv))) numerics)
                           (combine (schema (mixed_frame 8)) r))).
Proof.
  do 2 eexists. split; [vm_compute; reflexivity|].
  eapply (proj2 (proj2 (proj2 (proj2
            (@select_dtypes_numerics_exact carriers
               (library [classifier] None) (mixed_frame 8)))))
            world_id mixed_scenario initial_state).
  - reflexivity.
  - vm_compute; reflexivity.
Defined.

(** On the mixed frame the object, int8 and uint32 columns are gone from
    the saved header and from every row handed to the splitter, which
    holds the cells of [f1] and [f2] only. *)
Example mixed_frame_features :
  map tcolumns
      (held_out_tables (snd (run None world_id mixed_scenario)))
    = [["f1"; "f2"; "label"]] /\
  map fst (split_inputs (snd (run None world_id mixed_scenario))) =
    [map (fun i => [Num (Z.of_nat i); Num (2 * Z.of_nat i)]) (seq 0 8)].
Proof. split; vm_compute; reflexivity. Qed.

(** With the reference splitter another seed gives another test
    partition: the seed passed on line 99 decides the split. *)
Example seed_decides_split :
  held_out_tables (snd (run None world_id (small_scenario_seeded 42))) <>
  held_out_tables (snd (run None world_id (small_scenario_seeded 43))).
Proof. intros H; vm_compute in H; discriminate H. Qed.

Lemma missing_label_column_raises_keyerror_witness :
  fst (run None world_id missing_label_scenario) = Raise (KeyError "target") /\
  forallb (@no_fit_no_write carriers)
          (trace (snd (run None world_id missing_label_scenario))) = true.
Proof.
  eapply (@missing_label_column_raises_keyerror carriers
            (library [classifier] None) world_id missing_label_scenario).
  - vm_compute; reflexivity.
  - reflexivity.
  - vm_compute; reflexivity.
  - vm_compute; reflexivity.
  - vm_compute. intros [H|[H|[H|[]]]]; discriminate H.
Defined.

Lemma non_numeric_label_raises_keyerror_witness :
  fst (run None world_id scenario_A) = Raise (KeyError "label") /\
  forallb (@no_fit_no_write carriers)
          (trace (snd (run None world_id scenario_A))) = true.
Proof.
  eapply (@non_numeric_label_raises_keyerror carriers
            (library [classifier] None) world_id scenario_A
            (scenario_frame 100 Object_ string_label) _ _ _ Object_).
  - vm_compute; reflexivity.
  - reflexivity.
  - vm_compute; reflexivity.
  - vm_compute; reflexivity.
  - simpl. auto.
  - intros c0 Hin Hc0. simpl in Hin.
    destruct Hin as [<-|[<-|[<-|[]]]]; simpl in Hc0; try discriminate Hc0.
    unfold retained_dtype. simpl. intuition discriminate.
Defined.

Lemma fit_failure_leaves_the_backend_context_witness :
  exists p s2 cfg,
    fst (@train_model carriers library_failing_fit world_id small_scenario
           initial_state) = Raise (LibraryError "Estimator.fit") /\
    trace (snd (@train_model carriers library_failing_fit world_id
                  small_scenario initial_state)) =
      trace s2 ++ [BackendEnter "dask";
                   EstimatorFit (@fit_kwargs carriers cfg p);
                   BackendExit] /\
    started_reports (snd (@train_model carriers library_failing_fit world_id
                            small_scenario initial_state)) = [] /\
    artifact_writes (snd (@train_model carriers library_failing_fit world_id
                            small_scenario initial_state)) = [].
Proof.
  do 3 eexists.
  eapply (@fit_failure_leaves_the_backend_context carriers
            library_failing_fit world_id small_scenario).
  - vm_compute; reflexivity.
  - vm_compute; reflexivity.
  - vm_compute; reflexivity.
  - vm_compute; reflexivity.
  - vm_compute; reflexivity.
  - vm_compute; reflexivity.
Defined.

Lemma complete_run_writes_in_order_witness :
  exists p model held_out,
    artifact_writes (snd (run None world_id small_scenario)) =
      @complete_writes carriers (library [classifier] None) small_scenario
        p model (results (snd (run None world_id small_scenario))) held_out /\
    model_metrics (snd (run None world_id small_scenario)) =
      [results (snd (run None world_id small_scenario))].
Proof.
  apply (@complete_run_writes_in_order carriers (library [classifier] None)
           world_id small_scenario).
  vm_compute; reflexivity.
Defined.
Lemma held_out_rows_are_features_then_code_witness :
  exists df0 sampled loc enc codes idx held_out,
    as_df (dataset small_scenario) = Ok df0 /\
    frame_sample world_id (sample small_scenario)
      (select_dtypes numerics df0) = Ok sampled /\
    get_loc (label_column small_scenario) (columns sampled) = Ok loc /\
    @encoder_fit carriers (library [classifier] None)
      (map (fun r => nth loc r Missing) (rows sampled)) = Ok enc /\
    @encoder_transform carriers (library [classifier] None) enc
      (map (fun r => nth loc r Missing) (rows sampled)) = Ok codes /\
    @train_test_split carriers (library [classifier] None)
      (List.length (rows sampled)) (train_validation_size small_scenario)
      (random_state small_scenario) = Ok idx /\
    held_out_tables (snd (run None world_id small_scenario)) = [held_out] /\
    tcolumns held_out = columns sampled /\
    tdata held_out =
      map (fun i => held_out_row loc (nth i (rows sampled) [])
                                 (nth i codes 0%Z))
          (snd idx).
Proof.
  apply (@held_out_rows_are_features_then_code carriers
           (library [classifier] None) world_id small_scenario).
  vm_compute; reflexivity.
Defined.

Lemma held_out_label_column_holds_next_feature_witness :
  exists sampled loc codes idx held_out,
    frame_sample world_id (sample label_first_scenario)
      (select_dtypes numerics (label_first_frame 8)) = Ok sampled /\
    get_loc (label_column label_first_scenario) (tcolumns held_out) = Ok loc /\
    @train_test_split carriers (library [classifier] None)
      (List.length (rows sampled))
      (train_validation_size label_first_scenario)
      (random_state label_first_scenario) = Ok idx /\
    held_out_tables (snd (run None world_id label_first_scenario))
      = [held_out] /\
    List.length (tdata held_out) = List.length (snd idx) /\
    forall k i,
      nth_error (snd idx) k = Some i ->
      (i < List.length (rows sampled))%nat ->
      (S loc < List.length (tcolumns held_out))%nat ->
      nth loc (nth k (tdata held_out) []) Missing =
        nth (S loc) (nth i (rows sampled) []) Missing /\
      nth (pred (List.length (tcolumns held_out)))
          (nth k (tdata held_out) []) Missing = Num (nth i codes 0%Z).
Proof.
  apply (@held_out_label_column_holds_next_feature carriers
           (library [classifier] None) world_id label_first_scenario
           (snd (run None world_id label_first_scenario))
           (label_first_frame 8)).
  - vm_compute; reflexivity.
  - reflexivity.
  - unfold wf_frame. vm_compute. repeat constructor.
Defined.

(** The eight-row run on the frame whose label column comes first: the
    held-out rows are [f1, f2, code] under the header [label, f1, f2], so
    the column named [label] holds the values of [f1]. *)
Example label_first_held_out_is_mislabelled :
  map tcolumns
      (held_out_tables (snd (run None world_id label_first_scenario)))
    = [["label"; "f1"; "f2"]] /\
  map tdata (held_out_tables (snd (run None world_id label_first_scenario)))
    = [[[Num 2; Num 4; Num 0]; [Num 3; Num 6; Num 1]]].
Proof. split; vm_compute; reflexivity. Qed.

Lemma feature_importance_labels_match_features_witness :
  exists df0 sampled labels features loc model v,
    as_df (dataset small_scenario) = Ok df0 /\
    frame_sample world_id (sample small_scenario)
      (select_dtypes numerics df0) = Ok sampled /\
    getitem sampled (label_column small_scenario) = Ok labels /\
    drop sampled (label_column small_scenario) = Ok features /\
    get_loc (label_column small_scenario)
            (columns (select_dtypes numerics df0)) = Ok loc /\
    In (LogModel "model" (DumpEstimator model)
                 (@artifact_subpath carriers (library [classifier] None)
                    (models_dest small_scenario))
                 "model.pkl" extra_data_of_run
                 (results (snd (run None world_id small_scenario)))
                 [("class", model_pkg_class small_scenario)])
       (trace (snd (run None world_id small_scenario))) /\
    @viz_new carriers (library [classifier] None) FeatureImportances model
      (map (@str_label carriers (library [classifier] None))
           (drop_duplicates labels))
      (Some (columns features)) = Ok v /\
    columns features = delete loc (columns (select_dtypes numerics df0)) /\
    List.length (columns features) =
      pred (List.length (columns (select_dtypes numerics df0))) /\
    (forall r, r <> FeatureImportances ->
               exists v',
                 @viz_new carriers (library [classifier] None) r model
                   (map (@str_label carriers (library [classifier] None))
                        (drop_duplicates labels))
                   None = Ok v').
Proof.
  apply (@feature_importance_labels_match_features carriers
           (library [classifier] None) world_id small_scenario).
  vm_compute; reflexivity.
Defined.

Lemma logged_metrics_of_complete_run_witness :
  exists p model v1 v2,
    @generate_in carriers (library [classifier] None) small_scenario p model
      ROCAUC = Ok v1 /\
    @generate_in carriers (library [classifier] None) small_scenario p model
      ClassificationReport = Ok v2 /\
    results (snd (run None world_id small_scenario)) =
      dict_update
        (@roc_entries carriers
           (@viz_roc_auc carriers (library [classifier] None) v1))
        (@classification_entries carriers
           (@viz_scores carriers (library [classifier] None) v2)) /\
    model_metrics (snd (run None world_id small_scenario)) =
      [results (snd (run None world_id small_scenario))] /\
    dict_get (results (snd (run None world_id small_scenario))) "micro" =
      Some (dict_get (@viz_roc_auc carriers (library [classifier] None) v1)
                     "micro") /\
    dict_get (results (snd (run None world_id small_scenario))) "macro" =
      Some (dict_get (@viz_roc_auc carriers (library [classifier] None) v1)
                     "macro") /\
    (forall k, has_dash k = false -> k <> "micro" -> k <> "macro" ->
               dict_get (results (snd (run None world_id small_scenario))) k
                 = None).
Proof.
  apply (@logged_metrics_of_complete_run carriers (library [classifier] None)
           world_id small_scenario).
  vm_compute; reflexivity.
Defined.

Lemma done_is_logged_iff_run_completes_witness :
  In (LoggerInfo "Done!") (trace (snd (run None world_id small_scenario))) /\
  ~ In (LoggerInfo "Done!") (trace (snd (run None world_id scenario_A))).
Proof.
  split.
  - apply (proj1 (@done_is_logged_iff_run_completes carriers
                    (library [classifier] None) world_id small_scenario)).
    vm_compute; reflexivity.
  - intros H.
    apply (proj1 (@done_is_logged_iff_run_completes carriers
                    (library [classifier] None) world_id scenario_A)) in H.
    vm_compute in H. discriminate H.
Defined.

(** * Properties of item_to_function *)

Module ItemToFunctionFacts.

Import ItemToFunction.

Section Facts.

Variable FunctionObject : Type.
Variable full_load : string -> outcome yaml.
Variable code_to_function :
  function_arguments -> filesystem -> outcome (FunctionObject * filesystem).
Variable export :
  FunctionObject -> path -> filesystem -> outcome filesystem.
Variable py_sibling : string -> string.

Local Notation "'i2f'" :=
  (item_to_function FunctionObject full_load code_to_function export
                    py_sibling).
Local Notation "'build_'" :=
  (build FunctionObject code_to_function py_sibling).
Local Notation "'deliver_'" := (deliver FunctionObject export).
Local Notation "'W'" := (world FunctionObject).

Ltac unfold_io :=
  unfold item_to_function, locate, open_read, build, deliver, mkdir,
    call_code_to_function, call_export, bind, ret, raise, lift, get_fs,
    record; cbn [fs calls].

Lemma is_dir_exists :
  forall files p, is_dir files p = true -> path_exists files p = true.
Proof.
  intros files p. unfold is_dir, path_exists.
  destruct (files p) as [[|]|]; auto.
Qed.

Lemma parent_joinpath : forall p name, parent (joinpath p name) = p.
Proof. intros. unfold parent, joinpath. apply removelast_last. Qed.

(** X11: an item path that does not exist, or a directory that holds no
    [item.yaml], makes [item_to_function] raise [FileNotFoundError] with
    the world untouched: no file is opened, no function is built, nothing
    is exported. *)
Theorem unresolved_item_path_raises :
  forall (item : path) (output : option path) (w : W),
    (path_exists (fs _ w) item = false ->
     i2f item output w = (Fail (FileNotFoundError (NotFound item)), w)) /\
    (is_dir (fs _ w) item = true ->
     path_exists (fs _ w) (joinpath item "item.yaml") = false ->
     i2f item output w = (Fail (FileNotFoundError (NoItemYaml item)), w)).
Proof.
  intros item output w. split.
  - intros H. unfold_io.
    assert (Hd : is_dir (fs _ w) item = false).
    { unfold is_dir, path_exists in *. destruct (fs _ w item); congruence. }
    rewrite Hd, H. reflexivity.
  - intros Hd H. unfold_io. rewrite Hd, H. reflexivity.
Qed.

(** X12: passing a directory whose [item.yaml] is a regular file is the
    same as passing that file: the two calls have the same result and
    leave the same world. *)
Theorem directory_item_is_its_item_yaml :
  forall (item : path) (output : option path) (w : W) (text : string),
    is_dir (fs _ w) item = true ->
    fs _ w (joinpath item "item.yaml") = Some (RegularFile text) ->
    i2f item output w = i2f (joinpath item "item.yaml") output w.
Proof.
  intros item output w text Hd Hf.
  unfold item_to_function, locate, bind at 1 2, get_fs. cbn iota.
  unfold bind at 4 5. cbn iota.
  assert (He : path_exists (fs _ w) (joinpath item "item.yaml") = true)
    by (unfold path_exists; now rewrite Hf).
  assert (Hd' : is_dir (fs _ w) (joinpath item "item.yaml") = false)
    by (unfold is_dir; now rewrite Hf).
  rewrite Hd, He, Hd'. cbn [negb]. reflexivity.
Qed.

Lemma i2f_on_file :
  forall item output w text,
    fs _ w item = Some (RegularFile text) ->
    i2f item output w =
      bind _ (lift _ (full_load text))
           (fun y => bind _ (build_ y) (fun fo => deliver_ fo output))
           (opened _ w item).
Proof.
  intros item output w text H.
  unfold item_to_function, locate, open_read, opened.
  unfold bind at 1 2, get_fs. cbn iota.
  assert (Hd : is_dir (fs _ w) item = false)
    by (unfold is_dir; now rewrite H).
  assert (He : path_exists (fs _ w) item = true)
    by (unfold path_exists; now rewrite H).
  rewrite Hd, He. cbn [negb]. unfold ret at 1. cbn iota.
  unfold bind at 1 2, record. cbn iota. cbn [fs calls]. rewrite H.
  reflexivity.
Qed.

Lemma spec_get_failure :
  forall y key e, spec_get y key = Fail e -> e = AttributeError "get".
Proof.
  intros y key e H. unfold spec_get, get in H.
  destruct y; try (inversion H; reflexivity).
  destruct (match dict_get m "spec" with Some v => v | None => YMap [] end);
    inversion H; reflexivity.
Qed.

Lemma build_unusable :
  forall y w,
    usable_filename y = false ->
    exists e,
      build_ y w = (Fail e, w) /\
      match spec_get y "filename" with
      | Done (YBytes _) => e = TypeError
      | _ => exists attribute, e = AttributeError attribute
      end.
Proof.
  intros y w Hu. unfold usable_filename in Hu.
  unfold build, bind, lift.
  destruct (spec_get y "filename") as [v|e] eqn:E.
  - destruct v; try discriminate Hu; cbn;
      eexists; (split; [reflexivity|eauto]).
  - rewrite (spec_get_failure _ _ _ E). eauto.
Qed.

(** X13: when the item has no usable [spec.filename] (the document or its
    [spec] is not a mapping, the key is missing, or the value is not a
    string), the call raises right after loading the file: [TypeError]
    when the value is a byte string, whose [endswith] refuses a [str]
    suffix, [AttributeError] in every other case.  [code_to_function] is
    not called and the file system is as it was, whether or not the item
    has a name. *)
Theorem unusable_filename_raises_before_build :
  forall (item : path) (output : option path) (w : W) (text : string)
         (y : yaml),
    fs _ w item = Some (RegularFile text) ->
    full_load text = Done y ->
    usable_filename y = false ->
    exists e,
      i2f item output w = (Fail e, opened _ w item) /\
      match spec_get y "filename" with
      | Done (YBytes _) => e = TypeError
      | _ => exists attribute, e = AttributeError attribute
      end.
Proof.
  intros item output w text y Hf Hl Hu.
  rewrite (i2f_on_file _ _ _ _ Hf).
  destruct (build_unusable y (opened _ w item) Hu) as (e & Hb & He).
  exists e. split; [|exact He].
  unfold bind at 1, lift at 1. rewrite Hl. cbn iota.
  unfold bind. now rewrite Hb.
Qed.

(** X14: an item with a usable file name but no [name] key raises
    [KeyError] on ["name"]; the file name is examined first, and
    [code_to_function] is not called. *)
Theorem missing_name_raises_keyerror :
  forall (item : path) (output : option path) (w : W) (text : string)
         (m : list (string * yaml)),
    fs _ w item = Some (RegularFile text) ->
    full_load text = Done (YMap m) ->
    usable_filename (YMap m) = true ->
    dict_get m "name" = None ->
    i2f item output w = (Fail (KeyError "name"), opened _ w item).
Proof.
  intros item output w text m Hf Hl Hu Hn.
  rewrite (i2f_on_file _ _ _ _ Hf).
  unfold bind at 1, lift at 1. rewrite Hl. cbn iota.
  unfold usable_filename in Hu.
  unfold build, bind, lift.
  destruct (spec_get (YMap m) "filename") as [v|e]; [|discriminate Hu].
  destruct v; try discriminate Hu.
  cbn [endswith getitem]. now rewrite Hn.
Qed.

Lemma build_calls :
  forall y w,
    calls _ (snd (build_ y w)) = calls _ w \/
    exists args, calls _ (snd (build_ y w)) = calls _ w ++ [Built _ args].
Proof.
  intros y w. unfold build, call_code_to_function, bind, lift, record.
  repeat match goal with
         | |- context [match ?x with Done _ => _ | Fail _ => _ end] =>
             destruct x as [?|?]; cbn [fst snd calls fs]
         end;
    repeat match goal with
           | |- context [match ?q with pair _ _ => _ end] =>
               destruct q; cbn [fst snd calls fs]
           end;
    first [left; reflexivity | right; eexists; reflexivity].
Qed.

Lemma io_bind_done :
  forall A B (c : IO FunctionObject A) (k : A -> IO FunctionObject B) w a w1,
    c w = (Done a, w1) -> bind _ c k w = k a w1.
Proof. intros * H. unfold bind. now rewrite H. Qed.

Lemma io_bind_fail :
  forall A B (c : IO FunctionObject A) (k : A -> IO FunctionObject B) w e w1,
    c w = (Fail e, w1) -> bind _ c k w = (Fail e, w1).
Proof. intros * H. unfold bind. now rewrite H. Qed.

Lemma locate_world :
  forall item w, snd (locate FunctionObject item w) = w.
Proof.
  intros item w. unfold locate, bind, get_fs, ret, raise.
  destruct (is_dir (fs _ w) item);
    [destruct (path_exists (fs _ w) (joinpath item "item.yaml"))
    |destruct (path_exists (fs _ w) item)]; reflexivity.
Qed.

Lemma open_read_world :
  forall p w, snd (open_read FunctionObject p w) = opened _ w p.
Proof.
  intros p w. unfold open_read, bind, record, opened. cbn [fs calls].
  destruct (fs _ w p) as [[|text]|]; reflexivity.
Qed.

Lemma filter_delivery_opened :
  forall w p,
    filter (is_delivery FunctionObject) (calls _ (opened _ w p)) =
    filter (is_delivery FunctionObject) (calls _ w).
Proof.
  intros w p. unfold opened. cbn [calls].
  rewrite filter_app. cbn. apply app_nil_r.
Qed.

(** X15: without an output path nothing is delivered: whatever the
    outcome, the call makes no directory and exports nothing, and when it
    succeeds it returns a function object. *)
Theorem without_output_nothing_is_delivered :
  forall (item : path) (w : W),
    filter (is_delivery FunctionObject) (calls _ (snd (i2f item None w))) =
      filter (is_delivery FunctionObject) (calls _ w) /\
    (forall r, fst (i2f item None w) = Done r -> exists fo, r = Some fo).
Proof.
  intros item w.
  remember (i2f item None w) as R eqn:ER.
  unfold item_to_function in ER.
  pose proof (locate_world item w) as L.
  destruct (locate FunctionObject item w) as [[p|e] w0] eqn:EL;
    cbn [snd] in L; subst w0.
  2:{ rewrite (io_bind_fail _ _ _ _ _ _ _ EL) in ER. subst R. cbn [fst snd].
      split; [reflexivity|discriminate]. }
  rewrite (io_bind_done _ _ _ _ _ _ _ EL) in ER.
  pose proof (open_read_world p w) as O.
  destruct (open_read FunctionObject p w) as [[text|e] w1] eqn:EO;
    cbn [snd] in O; subst w1.
  2:{ rewrite (io_bind_fail _ _ _ _ _ _ _ EO) in ER. subst R. cbn [fst snd].
      split; [apply filter_delivery_opened|discriminate]. }
  rewrite (io_bind_done _ _ _ _ _ _ _ EO) in ER.
  unfold bind at 1, lift at 1 in ER.
  destruct (full_load text) as [y|e]; cbn iota in ER.
  2:{ subst R. cbn [fst snd].
      split; [apply filter_delivery_opened|discriminate]. }
  assert (Hb : filter (is_delivery FunctionObject)
                 (calls _ (snd (build_ y (opened _ w p)))) =
               filter (is_delivery FunctionObject) (calls _ w)).
  { destruct (build_calls y (opened _ w p)) as [->|(args & ->)].
    - apply filter_delivery_opened.
    - rewrite filter_app. cbn. rewrite app_nil_r.
      apply filter_delivery_opened. }
  destruct (build_ y (opened _ w p)) as [[fo|e] w2] eqn:EB; cbn [snd] in Hb.
  - rewrite (io_bind_done _ _ _ _ _ _ _ EB) in ER.
    cbn [deliver ret] in ER. subst R. cbn [fst snd].
    split; [exact Hb|]. intros r Hr. inversion Hr. eauto.
  - rewrite (io_bind_fail _ _ _ _ _ _ _ EB) in ER. subst R. cbn [fst snd].
    split; [exact Hb|discriminate].
Qed.

Lemma i2f_after_build :
  forall item output w text y fo w2,
    fs _ w item = Some (RegularFile text) ->
    full_load text = Done y ->
    build_ y (opened _ w item) = (Done fo, w2) ->
    i2f item output w = deliver_ fo output w2.
Proof.
  intros item output w text y fo w2 Hf Hl Hb.
  rewrite (i2f_on_file _ _ _ _ Hf).
  unfold bind at 1, lift at 1. rewrite Hl. cbn iota.
  exact (io_bind_done _ _ _ (fun f => deliver_ f output) _ _ _ Hb).
Qed.

Lemma parent_is_ancestor : forall p, In (parent p) (ancestors p).
Proof.
  intros p. unfold parent, ancestors. destruct p as [|x p]; [now left|].
  apply in_map_iff. exists (pred (List.length (x :: p))).
  split; [symmetry; apply removelast_firstn_len|].
  apply in_seq. cbn [List.length]. lia.
Qed.

Lemma missing_parent_obstacle :
  forall files p,
    path_exists files (parent p) = false ->
    exists q, first_obstacle files p = Some q /\ is_dir files q = false.
Proof.
  intros files p Hp. unfold first_obstacle.
  destruct (find (fun q => negb (is_dir files q)) (ancestors p)) as [q|] eqn:E.
  - exists q. split; [reflexivity|].
    apply find_some in E. destruct E as [_ E].
    now apply negb_true_iff in E.
  - exfalso.
    pose proof (find_none _ _ E (parent p) (parent_is_ancestor p)) as H.
    cbv beta in H. apply negb_false_iff in H.
    apply is_dir_exists in H. congruence.
Qed.

(** X16: when the output path is not a directory and its parent does not
    exist, the guard of lines 50-51 calls [mkdir] on the output path
    itself, without [parents], and that call cannot succeed: the first
    ancestor of the output path that is not a directory stops it, with
    [FileNotFoundError] when that ancestor does not exist and
    [NotADirectoryError] when it is a file of another kind.  The exception
    is raised after the function object has been built, the file system
    is left as [code_to_function] left it, and nothing is exported. *)
Theorem missing_output_parent_raises :
  forall (item output : path) (w : W) (text : string) (y : yaml)
         (fo : FunctionObject) (w2 : W),
    fs _ w item = Some (RegularFile text) ->
    full_load text = Done y ->
    build_ y (opened _ w item) = (Done fo, w2) ->
    is_dir (fs _ w2) output = false ->
    path_exists (fs _ w2) (parent output) = false ->
    exists q,
      first_obstacle (fs _ w2) output = Some q /\
      is_dir (fs _ w2) q = false /\
      i2f item (Some output) w =
        (Fail (match fs _ w2 q with
               | Some _ => NotADirectoryError output
               | None => FileNotFoundError (NoSuchPath output)
               end),
         mkWorld _ (fs _ w2) (calls _ w2 ++ [MadeDir _ output])).
Proof.
  intros item output w text y fo w2 Hf Hl Hb Hd Hp.
  destruct (missing_parent_obstacle _ _ Hp) as (q & Hq & Hqd).
  exists q. split; [exact Hq|]. split; [exact Hqd|].
  rewrite (i2f_after_build _ _ _ _ _ _ _ Hf Hl Hb).
  unfold deliver, mkdir, bind, get_fs, record, ret. cbn [fs calls].
  rewrite Hd, Hp. cbn [negb fs calls].
  unfold parent_obstacle. rewrite Hq.
  unfold obstacle_error, path_exists.
  destruct (fs _ w2 q); reflexivity.
Qed.

(** X17: with an output path the function object is exported exactly once
    and the call returns [None]: to [function.yaml] inside the output path
    when that is an existing directory, to the output path itself when it
    is not a directory and its parent exists; no directory is made in
    either case. *)
Theorem export_target_of_output_path :
  forall (item output : path) (w : W) (text : string) (y : yaml)
         (fo : FunctionObject) (w2 : W),
    fs _ w item = Some (RegularFile text) ->
    full_load text = Done y ->
    build_ y (opened _ w item) = (Done fo, w2) ->
    let target :=
      if is_dir (fs _ w2) output then joinpath output "function.yaml"
      else output in
    (is_dir (fs _ w2) output = true \/
     path_exists (fs _ w2) (parent output) = true) ->
    calls _ (snd (i2f item (Some output) w)) =
      calls _ w2 ++ [Exported _ fo target] /\
    fst (i2f item (Some output) w) =
      match export fo target (fs _ w2) with
      | Done _ => Done None
      | Fail e => Fail e
      end.
Proof.
  intros item output w text y fo w2 Hf Hl Hb target H.
  rewrite (i2f_after_build _ _ _ _ _ _ _ Hf Hl Hb).
  assert (Hp : path_exists (fs _ w2) (parent target) = true).
  { unfold target. destruct (is_dir (fs _ w2) output) eqn:Hd.
    - rewrite parent_joinpath. now apply is_dir_exists.
    - destruct H as [H|H]; [discriminate|exact H]. }
  unfold deliver, call_export, bind, get_fs, record, ret. cbn [fs calls].
  fold target. rewrite Hp. cbn [negb fs calls].
  destruct (export fo target (fs _ w2)); split; reflexivity.
Qed.

End Facts.

End ItemToFunctionFacts.

(** * item_to_function on a concrete file system *)

Module ItemToFunctionRuns.

Import ItemToFunction ItemToFunctionReference ItemToFunctionFacts.

Lemma unresolved_item_path_raises_witness :
  run ["nowhere"] None =
    (Fail (FileNotFoundError (NotFound ["nowhere"])), start) /\
  run ["empty"] (Some ["out"]) =
    (Fail (FileNotFoundError (NoItemYaml ["empty"])), start).
Proof.
  split.
  - apply (proj1 (unresolved_item_path_raises function_object load make write
                    sibling ["nowhere"] None start)).
    reflexivity.
  - apply (proj2 (unresolved_item_path_raises function_object load make write
                    sibling ["empty"] (Some ["out"]) start));
      reflexivity.
Defined.

Lemma directory_item_is_its_item_yaml_witness :
  run ["functions"] (Some ["out"]) =
  run ["functions"; "item.yaml"] (Some ["out"]).
Proof.
  apply (directory_item_is_its_item_yaml function_object load make write
           sibling ["functions"] (Some ["out"]) start "complete");
    reflexivity.
Defined.

Lemma unusable_filename_raises_before_build_witness :
  (exists e,
      run ["specless.yaml"] (Some ["out"]) =
        (Fail e, opened function_object start ["specless.yaml"]) /\
      exists attribute, e = AttributeError attribute) /\
  (exists e,
      run ["binary.yaml"] (Some ["out"]) =
        (Fail e, opened function_object start ["binary.yaml"]) /\
      e = TypeError).
Proof.
  split.
  - apply (unusable_filename_raises_before_build function_object load make
             write sibling ["specless.yaml"] (Some ["out"]) start "specless"
             specless_item);
      reflexivity.
  - apply (unusable_filename_raises_before_build function_object load make
             write sibling ["binary.yaml"] (Some ["out"]) start "binary"
             binary_item);
      reflexivity.
Defined.

Lemma missing_name_raises_keyerror_witness :
  run ["nameless.yaml"] None =
    (Fail (KeyError "name"), opened function_object start ["nameless.yaml"]).
Proof.
  apply (missing_name_raises_keyerror function_object load make write sibling
           ["nameless.yaml"] None start "nameless"
           [("spec",
             YMap [("filename", YStr "sklearn_classifier_dask.ipynb")])]);
    reflexivity.
Defined.

Lemma without_output_nothing_is_delivered_witness :
  filter (is_delivery function_object)
         (calls function_object (snd (run ["functions"] None))) =
    filter (is_delivery function_object) (calls function_object start) /\
  (forall r, fst (run ["functions"] None) = Done r -> exists fo, r = Some fo).
Proof.
  apply (without_output_nothing_is_delivered function_object load make write
           sibling ["functions"] start).
Defined.

Lemma missing_output_parent_raises_witness :
  (exists w2 q,
      first_obstacle (fs function_object w2) ["missing"; "function.yaml"]
        = Some q /\
      is_dir (fs function_object w2) q = false /\
      run ["functions"; "item.yaml"] (Some ["missing"; "function.yaml"]) =
        (Fail (match fs function_object w2 q with
               | Some _ => NotADirectoryError ["missing"; "function.yaml"]
               | None =>
                   FileNotFoundError (NoSuchPath ["missing"; "function.yaml"])
               end),
         mkWorld function_object (fs function_object w2)
           (calls function_object w2 ++
            [MadeDir function_object ["missing"; "function.yaml"]]))) /\
  (exists w2 q,
      first_obstacle (fs function_object w2)
        ["functions"; "item.yaml"; "x"; "function.yaml"] = Some q /\
      is_dir (fs function_object w2) q = false /\
      run ["functions"; "item.yaml"]
          (Some ["functions"; "item.yaml"; "x"; "function.yaml"]) =
        (Fail (match fs function_object w2 q with
               | Some _ =>
                   NotADirectoryError
                     ["functions"; "item.yaml"; "x"; "function.yaml"]
               | None =>
                   FileNotFoundError
                     (NoSuchPath
                        ["functions"; "item.yaml"; "x"; "function.yaml"])
               end),
         mkWorld function_object (fs function_object w2)
           (calls function_object w2 ++
            [MadeDir function_object
               ["functions"; "item.yaml"; "x"; "function.yaml"]]))).
Proof.
  split.
  - eexists.
    eapply (missing_output_parent_raises function_object load make write
              sibling ["functions"; "item.yaml"] ["missing"; "function.yaml"]
              start "complete" complete_item).
    + reflexivity.
    + reflexivity.
    + vm_compute; reflexivity.
    + reflexivity.
    + reflexivity.
  - eexists.
    eapply (missing_output_parent_raises function_object load make write
              sibling ["functions"; "item.yaml"]
              ["functions"; "item.yaml"; "x"; "function.yaml"]
              start "complete" complete_item).
    + reflexivity.
    + reflexivity.
    + vm_compute; reflexivity.
    + reflexivity.
    + reflexivity.
Defined.

(** The two cases on the reference file system: a missing parent gives
    [FileNotFoundError], a regular file among the ancestors gives
    [NotADirectoryError]. *)
Example missing_parent_and_file_ancestor :
  fst (run ["functions"; "item.yaml"] (Some ["missing"; "function.yaml"])) =
    Fail (FileNotFoundError (NoSuchPath ["missing"; "function.yaml"])) /\
  fst (run ["functions"; "item.yaml"]
           (Some ["functions"; "item.yaml"; "x"; "function.yaml"])) =
    Fail (NotADirectoryError
            ["functions"; "item.yaml"; "x"; "function.yaml"]).
Proof. split; vm_compute; reflexivity. Qed.

Lemma export_target_of_output_path_witness :
  exists fo w2,
    build function_object make sibling complete_item
      (opened function_object start ["functions"; "item.yaml"]) =
      (Done fo, w2) /\
    calls function_object
          (snd (run ["functions"; "item.yaml"] (Some ["out"]))) =
      calls function_object w2 ++
        [Exported function_object fo ["out"; "function.yaml"]] /\
    fst (run ["functions"; "item.yaml"] (Some ["out"])) = Done None.
Proof.
  do 2 eexists. split; [vm_compute; reflexivity|].
  eapply (export_target_of_output_path function_object load make write
            sibling ["functions"; "item.yaml"] ["out"] start "complete"
            complete_item).
  - reflexivity.
  - reflexivity.
  - vm_compute; reflexivity.
  - left. reflexivity.
Defined.

End ItemToFunctionRuns.
